(** * apo: the terminal UI engine

    A shallow embedding of the Go packages [terminal], [components],
    [views] and [ui] of the apo dashboard, and the properties of the key
    decoder, the style helpers, the widgets and the application controller.

    Conventions.
    - A Go [int] or [rune] is a [Z]; the values met here (lengths, indices,
      byte values) are far from the 64-bit bounds.
    - A Go [string] is a [string] of Rocq: a sequence of bytes, [len] is
      [String.length].
    - A function that can panic at run time (slice bounds, division by
      zero) returns an [option]: [None] is the panic.
    - Bytes written to the terminal are not part of the state: [Render]
      methods are embedded through what they assign. *)

From Stdlib Require Import ZArith List String Ascii Strings.Byte Bool Lia.
Import ListNotations.

Open Scope string_scope.
Open Scope list_scope.
Open Scope Z_scope.

(** ** Go strings *)

Definition len (s : string) : Z := Z.of_nat (String.length s).

Definition slen {A : Type} (l : list A) : Z := Z.of_nat (List.length l).

(** [s[:k]]: panics unless [0 <= k <= len(s)]. *)
Definition slice_to (s : string) (k : Z) : option string :=
  if (0 <=? k) && (k <=? len s)
  then Some (substring 0 (Z.to_nat k) s)
  else None.

(** The rune of an ASCII character literal, as in ['j']. *)
Definition chr (c : ascii) : Z := Z.of_N (N_of_ascii c).

Definition byte_chr (z : Z) : ascii := ascii_of_N (Z.to_N z).

Definition str3 (a b c : Z) : string :=
  String (byte_chr a) (String (byte_chr b) (String (byte_chr c) "")).

(** [string(r)] for a rune [r]: its UTF-8 encoding, and U+FFFD for a value
    that is not a Unicode scalar. *)
Definition string_of_rune (r : Z) : string :=
  if (r <? 0) || (0x10FFFF <? r) || ((0xD800 <=? r) && (r <=? 0xDFFF))
  then str3 0xEF 0xBF 0xBD
  else if r <? 0x80 then String (byte_chr r) ""
  else if r <? 0x800 then
    String (byte_chr (Z.lor 0xC0 (Z.shiftr r 6)))
      (String (byte_chr (Z.lor 0x80 (Z.land r 0x3F))) "")
  else if r <? 0x10000 then
    str3 (Z.lor 0xE0 (Z.shiftr r 12))
         (Z.lor 0x80 (Z.land (Z.shiftr r 6) 0x3F))
         (Z.lor 0x80 (Z.land r 0x3F))
  else
    String (byte_chr (Z.lor 0xF0 (Z.shiftr r 18)))
      (str3 (Z.lor 0x80 (Z.land (Z.shiftr r 12) 0x3F))
            (Z.lor 0x80 (Z.land (Z.shiftr r 6) 0x3F))
            (Z.lor 0x80 (Z.land r 0x3F))).

(** [strings.Contains(s, sub)] on bytes. *)
Fixpoint Contains (s sub : string) : bool :=
  prefix sub s ||
  match s with
  | EmptyString => false
  | String _ s' => Contains s' sub
  end.

(** [strings.ToLower] on a string of ASCII bytes: the letters [A]..[Z] move
    to [a]..[z], every other byte stays. *)
Definition lower_byte (c : ascii) : ascii :=
  let n := N_of_ascii c in
  if (65 <=? n)%N && (n <=? 90)%N then ascii_of_N (n + 32) else c.

Fixpoint asciiToLower (s : string) : string :=
  match s with
  | EmptyString => EmptyString
  | String c s' => String (lower_byte c) (asciiToLower s')
  end.

(** ** Package terminal *)

Module terminal.

Inductive KeyType : Type :=
| KeyRune | KeyEnter | KeyEscape | KeyBackspace | KeyTab
| KeyUp | KeyDown | KeyLeft | KeyRight | KeyCtrlC.

Record Key : Type := mkKey { Type_ : KeyType; Rune : Z }.

(** [Key{Type: t}]: the rune keeps its zero value. *)
Definition key (t : KeyType) : Key := mkKey t 0.

(** What [os.Stdin.Read(buf)] hands back for a 3-byte [buf]: an error, or
    the bytes it stored at the front of [buf]. *)
Inductive StdinRead : Type :=
| ReadError
| ReadData (bs : list byte).

Definition byte_val (b : byte) : Z := Z.of_N (Byte.to_N b).

(** [buf[i]] after the read: the byte stored there, or the zero that
    [make] left. *)
Definition buf_at (bs : list byte) (i : nat) : Z :=
  byte_val (nth i (firstn 3 bs) x00).

(** [ReadKey]: [None] is the error return. *)
Definition ReadKey (r : StdinRead) : option Key :=
  match r with
  | ReadError => None
  | ReadData bs =>
      let n := slen (firstn 3 bs) in
      let b0 := buf_at bs 0 in
      let b1 := buf_at bs 1 in
      let b2 := buf_at bs 2 in
      if n =? 1 then
        if b0 =? 3 then Some (key KeyCtrlC)
        else if b0 =? 9 then Some (key KeyTab)
        else if b0 =? 13 then Some (key KeyEnter)
        else if b0 =? 27 then Some (key KeyEscape)
        else if b0 =? 127 then Some (key KeyBackspace)
        else Some (mkKey KeyRune b0)
      else if (3 <=? n) && (b0 =? 27) && (b1 =? chr "[") then
        if b2 =? chr "A" then Some (key KeyUp)
        else if b2 =? chr "B" then Some (key KeyDown)
        else if b2 =? chr "C" then Some (key KeyRight)
        else if b2 =? chr "D" then Some (key KeyLeft)
        else Some (mkKey KeyRune b0)
      else Some (mkKey KeyRune b0)
  end.

(** The size read once by [New]; [UpdateSize] is not called again. *)
Record Terminal : Type := mkTerminal { width : Z; height : Z }.

Definition Width (t : Terminal) : Z := width t.

Definition Height (t : Terminal) : Z := height t.

(** [Truncate]: [None] is the slice-bounds panic. *)
Definition Truncate (s : string) (max : Z) : option string :=
  if len s <=? max then Some s
  else if max <=? 3 then slice_to s max
  else option_map (fun p => (p ++ "...")%string) (slice_to s (max - 3)).

(** [Pad]. *)
Definition Pad (s : string) (width : Z) : option string :=
  if width <=? len s then slice_to s width
  else
    let blanks := repeat " "%char (Z.to_nat (width - len s)) in
    Some (s ++ string_of_list_ascii blanks)%string.

End terminal.

(** An instant of [time.Time], in nanoseconds; [0] is the zero time. *)
Definition Time : Type := Z.

(** The standard-library string functions that read Unicode tables. *)
Class GoStrings : Type := {
  ToLower : string -> string;
  TrimSpace : string -> string
}.

(** [s[:len(s)-1]] of a non-empty string. *)
Fixpoint drop_last (s : string) : string :=
  match s with
  | EmptyString => EmptyString
  | String c EmptyString => EmptyString
  | String c s' => String c (drop_last s')
  end.

(** ** Package components *)

Module components.

Module Tab.
Record t : Type := mk {
  ID : string;
  Name : string;
  Key : string;
  Icon : string
}.
End Tab.

Module TabBar.

Record t : Type := mk { tabs : list Tab.t; active : Z }.

Definition NewTabBar (tabs : list Tab.t) : t := mk tabs 0.

Definition SetActive (index : Z) (b : t) : t :=
  if (0 <=? index) && (index <? slen (tabs b))
  then mk (tabs b) index
  else b.

(** The [range] loop of [SetActiveByID], from position [i]. *)
Fixpoint indexOfID (id : string) (ts : list Tab.t) (i : Z) : option Z :=
  match ts with
  | [] => None
  | tab :: rest =>
      if String.eqb (Tab.ID tab) id then Some i else indexOfID id rest (i + 1)
  end.

Definition SetActiveByID (id : string) (b : t) : t :=
  match indexOfID id (tabs b) 0 with
  | Some i => mk (tabs b) i
  | None => b
  end.

(** [None] is the nil pointer. *)
Definition ActiveTab (b : t) : option Tab.t :=
  if (0 <=? active b) && (active b <? slen (tabs b))
  then nth_error (tabs b) (Z.to_nat (active b))
  else None.

(** [None] is the division by zero of [% len(t.tabs)] on an empty bar;
    Go's [%] truncates, which is [Z.rem]. *)
Definition Next (b : t) : option t :=
  if slen (tabs b) =? 0 then None
  else Some (mk (tabs b) (Z.rem (active b + 1) (slen (tabs b)))).

End TabBar.

Module StatusBar.

Record t : Type := mk {
  message : string;
  messageTime : Time;
  lastRefresh : Time;
  helpText : string
}.

Definition NewStatusBar : t := mk "" 0 0 "".

(** [now] is the reading of [time.Now()]. *)
Definition SetMessage (now : Time) (msg : string) (s : t) : t :=
  mk msg now (lastRefresh s) (helpText s).

Definition SetLastRefresh (r : Time) (s : t) : t :=
  mk (message s) (messageTime s) r (helpText s).

Definition SetHelp (text : string) (s : t) : t :=
  mk (message s) (messageTime s) (lastRefresh s) text.

End StatusBar.

Module Input.

Record t : Type := mk { value : string; prompt : string; active : bool }.

Definition NewInput (prompt : string) : t := mk "" prompt false.

Definition Value (i : t) : string := value i.

Definition Clear (i : t) : t := mk "" (prompt i) (active i).

Definition Activate (i : t) : t := mk (value i) (prompt i) true.

Definition Deactivate (i : t) : t := mk (value i) (prompt i) false.

Definition InsertChar (c : Z) (i : t) : t :=
  mk (value i ++ string_of_rune c)%string (prompt i) (active i).

Definition Backspace (i : t) : t :=
  if 0 <? len (value i)
  then mk (drop_last (value i)) (prompt i) (active i)
  else i.

End Input.

Module ListItem.
(** [Data] holds a value of the payload type [D], or nil. *)
Record t (D : Type) : Type := mk {
  ID : string;
  Icon : string;
  Label : string;
  Sublabel : string;
  Data : option D
}.
Arguments mk {D}.
Arguments ID {D}.
Arguments Icon {D}.
Arguments Label {D}.
Arguments Sublabel {D}.
Arguments Data {D}.
End ListItem.

Module List.

(** [filtered] is a slice of indices: [None] is nil, [Some []] is the
    empty slice [[]int{}]. *)
Record t (D : Type) : Type := mk {
  title : string;
  items : list (ListItem.t D);
  filtered : option (list Z);
  selected : Z;
  scroll : Z;
  height : Z;
  filterMode : bool;
  filterQuery : string
}.
Arguments mk {D}.
Arguments title {D}.
Arguments items {D}.
Arguments filtered {D}.
Arguments selected {D}.
Arguments scroll {D}.
Arguments height {D}.
Arguments filterMode {D}.
Arguments filterQuery {D}.

Section Methods.
Context {D : Type}.
Implicit Type l : t D.

(** [len] of a slice that may be nil. *)
Definition lenSlice (s : option (list Z)) : Z :=
  match s with
  | None => 0
  | Some xs => slen xs
  end.

Definition elems (s : option (list Z)) : list Z :=
  match s with
  | None => []
  | Some xs => xs
  end.

Definition set_selected (x : Z) l : t D :=
  mk (title l) (items l) (filtered l) x (scroll l) (height l)
     (filterMode l) (filterQuery l).

Definition set_scroll (x : Z) l : t D :=
  mk (title l) (items l) (filtered l) (selected l) x (height l)
     (filterMode l) (filterQuery l).

Definition set_filtered (x : option (list Z)) l : t D :=
  mk (title l) (items l) x (selected l) (scroll l) (height l)
     (filterMode l) (filterQuery l).

Definition set_filterQuery (x : string) l : t D :=
  mk (title l) (items l) (filtered l) (selected l) (scroll l) (height l)
     (filterMode l) x.

Definition set_filterMode (x : bool) l : t D :=
  mk (title l) (items l) (filtered l) (selected l) (scroll l) (height l)
     x (filterQuery l).

Definition set_items (x : list (ListItem.t D)) l : t D :=
  mk (title l) x (filtered l) (selected l) (scroll l) (height l)
     (filterMode l) (filterQuery l).

Definition set_height (x : Z) l : t D :=
  mk (title l) (items l) (filtered l) (selected l) (scroll l) x
     (filterMode l) (filterQuery l).

Definition NewList (title : string) : t D :=
  mk title [] None 0 0 0 false "".

Definition ClearFilter l : t D :=
  set_scroll 0 (set_selected 0 (set_filtered None (set_filterQuery "" l))).

Definition SetItems (its : list (ListItem.t D)) l : t D :=
  ClearFilter (set_items its l).

Definition SelectedIndex l : Z := selected l.

Definition activeIndices l : list Z :=
  if 0 <? lenSlice (filtered l)
  then elems (filtered l)
  else map Z.of_nat (seq 0 (Datatypes.length (items l))).

Definition adjustScroll l : t D :=
  if height l <=? 0 then l
  else
    let l1 := if selected l <? scroll l then set_scroll (selected l) l else l in
    if scroll l1 + height l1 <=? selected l1
    then set_scroll (selected l1 - height l1 + 1) l1
    else l1.

Definition MoveUp l : t D :=
  if 0 <? selected l
  then adjustScroll (set_selected (selected l - 1) l)
  else l.

Definition MoveDown l : t D :=
  if selected l <? slen (activeIndices l) - 1
  then adjustScroll (set_selected (selected l + 1) l)
  else l.

Definition MoveToTop l : t D :=
  set_scroll 0 (set_selected 0 l).

Definition MoveToBottom l : t D :=
  let indices := activeIndices l in
  if 0 <? slen indices
  then adjustScroll (set_selected (slen indices - 1) l)
  else l.

(** The loop of [applyFilter] from item number [i]: the indices it
    appends. *)
Fixpoint matching {gs : GoStrings} (query : string)
    (its : list (ListItem.t D)) (i : Z) : list Z :=
  match its with
  | [] => []
  | item :: rest =>
      if Contains (ToLower (ListItem.Label item)) query
      then i :: matching query rest (i + 1)
      else matching query rest (i + 1)
  end.

Definition applyFilter {gs : GoStrings} l : t D :=
  if String.eqb (filterQuery l) "" then set_filtered None l
  else
    let query := ToLower (filterQuery l) in
    set_scroll 0 (set_selected 0
      (set_filtered (Some (matching query (items l) 0)) l)).

Definition SetFilter {gs : GoStrings} (query : string) l : t D :=
  applyFilter (set_filterQuery query l).

Definition ToggleFilterMode l : t D :=
  let l1 := set_filterMode (negb (filterMode l)) l in
  if negb (filterMode l1) then ClearFilter l1 else l1.

Definition IsFilterMode l : bool := filterMode l.

Definition FilterQuery l : string := filterQuery l.

(** What [Render] assigns: the number of rows left for items. *)
Definition Render (h : Z) l : t D := set_height (h - 3) l.

(** [SelectedItem]: the inner [None] is the nil pointer, the outer [None]
    the panic of [l.items[idx]] at an index below zero. *)
Definition SelectedItem l : option (option (ListItem.t D)) :=
  let indices := activeIndices l in
  if (0 <=? selected l) && (selected l <? slen indices) then
    match nth_error indices (Z.to_nat (selected l)) with
    | Some idx =>
        if idx <? slen (items l) then
          if 0 <=? idx then Some (nth_error (items l) (Z.to_nat idx))
          else None
        else Some None
    | None => None
    end
  else Some None.

End Methods.

End List.

End components.

(** ** Collaborators *)

Module agent.
(** [Result]; [Data] is nil or a value of the data type [R]. *)
Record Result (R : Type) : Type := mk {
  Success : bool;
  Message : string;
  Data : option R;
  Suggestions : list string
}.
Arguments mk {R}.
Arguments Success {R}.
Arguments Message {R}.
Arguments Data {R}.
Arguments Suggestions {R}.

(** [truncate] of the package: [None] is the slice-bounds panic. *)
Definition truncate (s : string) (max : Z) : option string :=
  if len s <=? max then Some s
  else option_map (fun p => (p ++ "...")%string) (slice_to s (max - 3)).

End agent.

(** The domain records, the texts that [fmt.Sprintf] and the domain
    accessors make of them for a list row, and the query interpreter. *)
Class Collab : Type := {
  WorkItem : Type;
  Build : Type;
  Pipeline : Type;
  Repository : Type;
  PullRequest : Type;
  ResultData : Type;
  workItemID : WorkItem -> string;
  workItemIcon : WorkItem -> string;
  workItemLabel : WorkItem -> string;
  pipelineID : Pipeline -> string;
  pipelineLabel : Pipeline -> string;
  repositoryID : Repository -> string;
  repositoryLabel : Repository -> string;
  pullRequestID : PullRequest -> string;
  pullRequestIsDraft : PullRequest -> bool;
  pullRequestLabel : PullRequest -> string;
  Ask : string -> agent.Result ResultData;
  FormatResult : ResultData -> string
}.

(** [strings.Split(s, "\n")], with [cur] the piece being read. *)
Fixpoint splitLines (s cur : string) : list string :=
  match s with
  | EmptyString => [cur]
  | String c s' =>
      if Ascii.eqb c (byte_chr 10) then cur :: splitLines s' ""
      else splitLines s' (cur ++ String c "")%string
  end.

(** ** Package views *)

Module views.
Import terminal.

(** [ViewEmpty] is the zero value of the string type [ViewID]. *)
Inductive ViewID : Type :=
| ViewEmpty
| ViewDashboard | ViewBoards | ViewPipelines | ViewRepos
| ViewPullRequests | ViewCopilot | ViewWorkItemDetail | ViewPRDetail.

Definition ViewID_eqb (a b : ViewID) : bool :=
  match a, b with
  | ViewEmpty, ViewEmpty
  | ViewDashboard, ViewDashboard
  | ViewBoards, ViewBoards
  | ViewPipelines, ViewPipelines
  | ViewRepos, ViewRepos
  | ViewPullRequests, ViewPullRequests
  | ViewCopilot, ViewCopilot
  | ViewWorkItemDetail, ViewWorkItemDetail
  | ViewPRDetail, ViewPRDetail => true
  | _, _ => false
  end.

Module DashboardView.
Section Methods.
Context {co : Collab}.

Record t : Type := mk {
  workItems : list WorkItem;
  builds : list Build;
  prs : list PullRequest
}.

Definition NewDashboardView : t := mk [] [] [].

Definition SetData (its : list WorkItem) (bs : list Build)
    (ps : list PullRequest) (v : t) : t := mk its bs ps.

Definition HandleKey (key : Key) (v : t) : bool * t := (false, v).

End Methods.
End DashboardView.

Module BoardsView.
Section Methods.
Context {gs : GoStrings} {co : Collab}.

(** [onSelect]: whether a callback is registered; the controller holds
    the callback itself. *)
Record t : Type := mk {
  list : components.List.t WorkItem;
  workItems : Datatypes.list WorkItem;
  onSelect : bool
}.

Definition set_list (l : components.List.t WorkItem) (v : t) : t :=
  mk l (workItems v) (onSelect v).

Definition NewBoardsView : t :=
  mk (components.List.NewList "📋 Work Items") [] false.

Definition row (item : WorkItem) : components.ListItem.t WorkItem :=
  components.ListItem.mk (workItemID item) (workItemIcon item)
    (workItemLabel item) "" (Some item).

Definition SetWorkItems (its : Datatypes.list WorkItem) (v : t) : t :=
  mk (components.List.SetItems (map row its) (list v)) its (onSelect v).

Definition OnSelectItem (v : t) : t := mk (list v) (workItems v) true.

Definition SelectedWorkItem (v : t) : option WorkItem :=
  let idx := components.List.SelectedIndex (list v) in
  if (0 <=? idx) && (idx <? slen (workItems v))
  then nth_error (workItems v) (Z.to_nat idx)
  else None.

Definition Render (height : Z) (v : t) : t :=
  set_list (components.List.Render height (list v)) v.

(** The third component is the argument [onSelect] is called with, when
    it is called. *)
Definition HandleKey (key : Key) (v : t) : bool * t * option WorkItem :=
  if components.List.IsFilterMode (list v) then
    match Type_ key with
    | KeyEnter | KeyEscape =>
        (true, set_list (components.List.ToggleFilterMode (list v)) v, None)
    | KeyBackspace =>
        let q := components.List.FilterQuery (list v) in
        if 0 <? len q
        then
          (true,
           set_list (components.List.SetFilter (drop_last q) (list v)) v,
           None)
        else (true, v, None)
    | KeyRune =>
        let q := components.List.FilterQuery (list v) in
        (true,
         set_list (components.List.SetFilter
                     (q ++ string_of_rune (Rune key))%string (list v)) v,
         None)
    | _ => (false, v, None)
    end
  else
    match Type_ key with
    | KeyUp => (true, set_list (components.List.MoveUp (list v)) v, None)
    | KeyDown => (true, set_list (components.List.MoveDown (list v)) v, None)
    | KeyEnter =>
        (true, v, if onSelect v then SelectedWorkItem v else None)
    | KeyRune =>
        let r := Rune key in
        if r =? chr "j" then
          (true, set_list (components.List.MoveDown (list v)) v, None)
        else if r =? chr "k" then
          (true, set_list (components.List.MoveUp (list v)) v, None)
        else if r =? chr "g" then
          (true, set_list (components.List.MoveToTop (list v)) v, None)
        else if r =? chr "G" then
          (true, set_list (components.List.MoveToBottom (list v)) v, None)
        else if (r =? chr "f") || (r =? chr "/") then
          (true, set_list (components.List.ToggleFilterMode (list v)) v, None)
        else (false, v, None)
    | _ => (false, v, None)
    end.

Definition IsFilterMode (v : t) : bool :=
  components.List.IsFilterMode (list v).

End Methods.
End BoardsView.

Module PipelinesView.
Section Methods.
Context {gs : GoStrings} {co : Collab}.

Record t : Type := mk {
  list : components.List.t Empty_set;
  pipelines : Datatypes.list Pipeline
}.

Definition set_list (l : components.List.t Empty_set) (v : t) : t :=
  mk l (pipelines v).

Definition NewPipelinesView : t :=
  mk (components.List.NewList "🔧 Pipelines") [].

Definition row (p : Pipeline) : components.ListItem.t Empty_set :=
  components.ListItem.mk (pipelineID p) "🔧" (pipelineLabel p) "" None.

Definition SetPipelines (its : Datatypes.list Pipeline) (v : t) : t :=
  mk (components.List.SetItems (map row its) (list v)) its.

Definition Render (height : Z) (v : t) : t :=
  set_list (components.List.Render height (list v)) v.

Definition HandleKey (key : Key) (v : t) : bool * t :=
  if components.List.IsFilterMode (list v) then
    match Type_ key with
    | KeyEnter | KeyEscape =>
        (true, set_list (components.List.ToggleFilterMode (list v)) v)
    | KeyBackspace =>
        let q := components.List.FilterQuery (list v) in
        if 0 <? len q
        then
          (true,
           set_list (components.List.SetFilter (drop_last q) (list v)) v)
        else (true, v)
    | KeyRune =>
        let q := components.List.FilterQuery (list v) in
        (true,
         set_list (components.List.SetFilter
                     (q ++ string_of_rune (Rune key))%string (list v)) v)
    | _ => (false, v)
    end
  else
    match Type_ key with
    | KeyUp => (true, set_list (components.List.MoveUp (list v)) v)
    | KeyDown => (true, set_list (components.List.MoveDown (list v)) v)
    | KeyRune =>
        let r := Rune key in
        if r =? chr "j" then
          (true, set_list (components.List.MoveDown (list v)) v)
        else if r =? chr "k" then
          (true, set_list (components.List.MoveUp (list v)) v)
        else if r =? chr "g" then
          (true, set_list (components.List.MoveToTop (list v)) v)
        else if r =? chr "G" then
          (true, set_list (components.List.MoveToBottom (list v)) v)
        else if (r =? chr "f") || (r =? chr "/") then
          (true, set_list (components.List.ToggleFilterMode (list v)) v)
        else (false, v)
    | _ => (false, v)
    end.

Definition IsFilterMode (v : t) : bool :=
  components.List.IsFilterMode (list v).

End Methods.
End PipelinesView.

Module ReposView.
Section Methods.
Context {gs : GoStrings} {co : Collab}.

Record t : Type := mk {
  list : components.List.t Empty_set;
  repos : Datatypes.list Repository
}.

Definition set_list (l : components.List.t Empty_set) (v : t) : t :=
  mk l (repos v).

Definition NewReposView : t :=
  mk (components.List.NewList "📁 Repositories") [].

Definition row (r : Repository) : components.ListItem.t Empty_set :=
  components.ListItem.mk (repositoryID r) "📁" (repositoryLabel r) "" None.

Definition SetRepositories (its : Datatypes.list Repository) (v : t) : t :=
  mk (components.List.SetItems (map row its) (list v)) its.

Definition Render (height : Z) (v : t) : t :=
  set_list (components.List.Render height (list v)) v.

Definition HandleKey (key : Key) (v : t) : bool * t :=
  if components.List.IsFilterMode (list v) then
    match Type_ key with
    | KeyEnter | KeyEscape =>
        (true, set_list (components.List.ToggleFilterMode (list v)) v)
    | KeyBackspace =>
        let q := components.List.FilterQuery (list v) in
        if 0 <? len q
        then
          (true,
           set_list (components.List.SetFilter (drop_last q) (list v)) v)
        else (true, v)
    | KeyRune =>
        let q := components.List.FilterQuery (list v) in
        (true,
         set_list (components.List.SetFilter
                     (q ++ string_of_rune (Rune key))%string (list v)) v)
    | _ => (false, v)
    end
  else
    match Type_ key with
    | KeyUp => (true, set_list (components.List.MoveUp (list v)) v)
    | KeyDown => (true, set_list (components.List.MoveDown (list v)) v)
    | KeyRune =>
        let r := Rune key in
        if r =? chr "j" then
          (true, set_list (components.List.MoveDown (list v)) v)
        else if r =? chr "k" then
          (true, set_list (components.List.MoveUp (list v)) v)
        else if r =? chr "g" then
          (true, set_list (components.List.MoveToTop (list v)) v)
        else if r =? chr "G" then
          (true, set_list (components.List.MoveToBottom (list v)) v)
        else if (r =? chr "f") || (r =? chr "/") then
          (true, set_list (components.List.ToggleFilterMode (list v)) v)
        else (false, v)
    | _ => (false, v)
    end.

Definition IsFilterMode (v : t) : bool :=
  components.List.IsFilterMode (list v).

End Methods.
End ReposView.

Module PullRequestsView.
Section Methods.
Context {gs : GoStrings} {co : Collab}.

Record t : Type := mk {
  list : components.List.t Empty_set;
  prs : Datatypes.list PullRequest;
  onSelect : bool
}.

Definition set_list (l : components.List.t Empty_set) (v : t) : t :=
  mk l (prs v) (onSelect v).

Definition NewPullRequestsView : t :=
  mk (components.List.NewList "🔀 Pull Requests") [] false.

Definition row (pr : PullRequest) : components.ListItem.t Empty_set :=
  let icon := if pullRequestIsDraft pr then "📝" else "🔀" in
  components.ListItem.mk (pullRequestID pr) icon (pullRequestLabel pr) "" None.

Definition SetPullRequests (its : Datatypes.list PullRequest) (v : t) : t :=
  mk (components.List.SetItems (map row its) (list v)) its (onSelect v).

Definition OnSelectItem (v : t) : t := mk (list v) (prs v) true.

Definition SelectedPR (v : t) : option PullRequest :=
  let idx := components.List.SelectedIndex (list v) in
  if (0 <=? idx) && (idx <? slen (prs v))
  then nth_error (prs v) (Z.to_nat idx)
  else None.

Definition Render (height : Z) (v : t) : t :=
  set_list (components.List.Render height (list v)) v.

(** The third component is the argument [onSelect] is called with, when
    it is called. *)
Definition HandleKey (key : Key) (v : t) : bool * t * option PullRequest :=
  if components.List.IsFilterMode (list v) then
    match Type_ key with
    | KeyEnter | KeyEscape =>
        (true, set_list (components.List.ToggleFilterMode (list v)) v, None)
    | KeyBackspace =>
        let q := components.List.FilterQuery (list v) in
        if 0 <? len q
        then
          (true,
           set_list (components.List.SetFilter (drop_last q) (list v)) v,
           None)
        else (true, v, None)
    | KeyRune =>
        let q := components.List.FilterQuery (list v) in
        (true,
         set_list (components.List.SetFilter
                     (q ++ string_of_rune (Rune key))%string (list v)) v,
         None)
    | _ => (false, v, None)
    end
  else
    match Type_ key with
    | KeyUp => (true, set_list (components.List.MoveUp (list v)) v, None)
    | KeyDown => (true, set_list (components.List.MoveDown (list v)) v, None)
    | KeyEnter =>
        (true, v, if onSelect v then SelectedPR v else None)
    | KeyRune =>
        let r := Rune key in
        if r =? chr "j" then
          (true, set_list (components.List.MoveDown (list v)) v, None)
        else if r =? chr "k" then
          (true, set_list (components.List.MoveUp (list v)) v, None)
        else if r =? chr "g" then
          (true, set_list (components.List.MoveToTop (list v)) v, None)
        else if r =? chr "G" then
          (true, set_list (components.List.MoveToBottom (list v)) v, None)
        else if (r =? chr "f") || (r =? chr "/") then
          (true, set_list (components.List.ToggleFilterMode (list v)) v, None)
        else (false, v, None)
    | _ => (false, v, None)
    end.

Definition IsFilterMode (v : t) : bool :=
  components.List.IsFilterMode (list v).

End Methods.
End PullRequestsView.

Module CopilotMessage.
Record t : Type := mk { IsUser : bool; Content : string; Time_ : Time }.
End CopilotMessage.

Module CopilotView.
Section Methods.
Context {gs : GoStrings} {co : Collab}.

Record t : Type := mk {
  input : components.Input.t;
  history : list CopilotMessage.t
}.

Definition NewCopilotView : t :=
  mk (components.Input.NewInput "apo> ") [].

(** [OnEnter] and [OnExit] also show and hide the terminal cursor. *)
Definition OnEnter (v : t) : t :=
  mk (components.Input.Activate (input v)) (history v).

Definition OnExit (v : t) : t :=
  mk (components.Input.Deactivate (input v)) (history v).

(** [now] stands for the readings of [time.Now()] during the call. *)
Definition submit (now : Time) (v : t) : t :=
  let query := TrimSpace (components.Input.Value (input v)) in
  if String.eqb query "" then v
  else
    let h1 := history v ++ [CopilotMessage.mk true query now] in
    let inp := components.Input.Clear (input v) in
    let result := Ask query in
    let h2 := h1 ++ [CopilotMessage.mk false (agent.Message result) now] in
    let h3 :=
      fold_left
        (fun h s => h ++ [CopilotMessage.mk false ("💡 " ++ s)%string now])
        (agent.Suggestions result) h2 in
    let h4 :=
      match agent.Data result with
      | Some d =>
          fold_left
            (fun h line =>
               if String.eqb line "" then h
               else h ++ [CopilotMessage.mk false line now])
            (splitLines (FormatResult d) "") h3
      | None => h3
      end in
    mk inp h4.

Definition HandleKey (now : Time) (key : Key) (v : t) : bool * t :=
  match Type_ key with
  | KeyEnter => (true, submit now v)
  | KeyBackspace =>
      (true, mk (components.Input.Backspace (input v)) (history v))
  | KeyRune =>
      (true, mk (components.Input.InsertChar (Rune key) (input v)) (history v))
  | _ => (false, v)
  end.

End Methods.
End CopilotView.

End views.

(** ** Package details *)

Module details.
Import terminal.

Module WorkItemDetailView.
Section Methods.
Context {co : Collab}.

Record t : Type := mk { workItem : option WorkItem }.

Definition NewWorkItemDetailView : t := mk None.

Definition SetWorkItem (item : WorkItem) (v : t) : t := mk (Some item).

Definition HandleKey (key : Key) (v : t) : bool * t := (false, v).

End Methods.
End WorkItemDetailView.

Module PRDetailView.
Section Methods.
Context {co : Collab}.

Record t : Type := mk { pr : option PullRequest }.

Definition NewPRDetailView : t := mk None.

Definition SetPullRequest (p : PullRequest) (v : t) : t := mk (Some p).

Definition HandleKey (key : Key) (v : t) : bool * t := (false, v).

End Methods.
End PRDetailView.

(** The loop of [wrapText] over the words after the first. *)
Fixpoint wrapLoop (width : Z) (words : list string) (currentLine : string)
    (lines : list string) : list string * string :=
  match words with
  | [] => (lines, currentLine)
  | word :: rest =>
      if len currentLine + 1 + len word <=? width
      then wrapLoop width rest (currentLine ++ " " ++ word)%string lines
      else wrapLoop width rest word (lines ++ [currentLine])
  end.

(** [wrapText] from the words that [strings.Fields] returns. *)
Definition wrapWords (words : list string) (width : Z) : list string :=
  match words with
  | [] => []
  | first :: rest =>
      let (lines, currentLine) := wrapLoop width rest first [] in
      if String.eqb currentLine "" then lines else lines ++ [currentLine]
  end.

(** [Fields] stands for [strings.Fields]. *)
Definition wrapText (Fields : string -> list string) (text : string)
    (width : Z) : list string :=
  wrapWords (Fields text) width.

End details.

(** ** Package ui *)

Module ui.
Import terminal.
Import views.

(** A call of a method of the [View] interface on the view [v]. *)
Inductive Call : Type :=
| OnExitCall (v : ViewID)
| OnEnterCall (v : ViewID)
| RenderCall (v : ViewID).

(** The outcome of one call of the data client: the collection, or the
    error. *)
Inductive Fetch (A : Type) : Type :=
| Fetched (x : A)
| FetchError (err : string).
Arguments Fetched {A}.
Arguments FetchError {A}.

Section Controller.
Context {gs : GoStrings} {co : Collab}.

(** The state of [App]. The handles [client], [agent] and [config] are
    the collaborators of [Collab], and the lock [mu] guards one run of
    [refreshData] and one [Render], which are single steps here. Two fields
    are bookkeeping of the embedding: [launched] counts the
    [go a.refreshData()] statements executed, and [calls] lists the calls of
    [OnExit], [OnEnter] and [Render] on views, oldest first. *)
Record App : Type := mkApp {
  term : Terminal;
  tabBar : components.TabBar.t;
  statusBar : components.StatusBar.t;
  dashboard : DashboardView.t;
  boards : BoardsView.t;
  pipelines : PipelinesView.t;
  repos : ReposView.t;
  prs : PullRequestsView.t;
  copilot : CopilotView.t;
  workItemDetail : details.WorkItemDetailView.t;
  prDetail : details.PRDetailView.t;
  running : bool;
  currentView : ViewID;
  previousView : ViewID;
  workItems : list WorkItem;
  builds : list Build;
  pipelineList : list Pipeline;
  repoList : list Repository;
  prList : list PullRequest;
  lastRefresh : Time;
  loading : bool;
  launched : nat;
  calls : list Call
}.

Definition set_term (x : Terminal) (a : App) : App :=
  mkApp x (tabBar a) (statusBar a) (dashboard a) (boards a) (pipelines a)
    (repos a) (prs a) (copilot a) (workItemDetail a) (prDetail a)
    (running a) (currentView a) (previousView a) (workItems a) (builds a)
    (pipelineList a) (repoList a) (prList a) (lastRefresh a) (loading a)
    (launched a) (calls a).

Definition set_tabBar (x : components.TabBar.t) (a : App) : App :=
  mkApp (term a) x (statusBar a) (dashboard a) (boards a) (pipelines a)
    (repos a) (prs a) (copilot a) (workItemDetail a) (prDetail a)
    (running a) (currentView a) (previousView a) (workItems a) (builds a)
    (pipelineList a) (repoList a) (prList a) (lastRefresh a) (loading a)
    (launched a) (calls a).

Definition set_statusBar (x : components.StatusBar.t) (a : App) : App :=
  mkApp (term a) (tabBar a) x (dashboard a) (boards a) (pipelines a)
    (repos a) (prs a) (copilot a) (workItemDetail a) (prDetail a)
    (running a) (currentView a) (previousView a) (workItems a) (builds a)
    (pipelineList a) (repoList a) (prList a) (lastRefresh a) (loading a)
    (launched a) (calls a).

Definition set_dashboard (x : DashboardView.t) (a : App) : App :=
  mkApp (term a) (tabBar a) (statusBar a) x (boards a) (pipelines a)
    (repos a) (prs a) (copilot a) (workItemDetail a) (prDetail a)
    (running a) (currentView a) (previousView a) (workItems a) (builds a)
    (pipelineList a) (repoList a) (prList a) (lastRefresh a) (loading a)
    (launched a) (calls a).

Definition set_boards (x : BoardsView.t) (a : App) : App :=
  mkApp (term a) (tabBar a) (statusBar a) (dashboard a) x (pipelines a)
    (repos a) (prs a) (copilot a) (workItemDetail a) (prDetail a)
    (running a) (currentView a) (previousView a) (workItems a) (builds a)
    (pipelineList a) (repoList a) (prList a) (lastRefresh a) (loading a)
    (launched a) (calls a).

Definition set_pipelines (x : PipelinesView.t) (a : App) : App :=
  mkApp (term a) (tabBar a) (statusBar a) (dashboard a) (boards a) x
    (repos a) (prs a) (copilot a) (workItemDetail a) (prDetail a)
    (running a) (currentView a) (previousView a) (workItems a) (builds a)
    (pipelineList a) (repoList a) (prList a) (lastRefresh a) (loading a)
    (launched a) (calls a).

Definition set_repos (x : ReposView.t) (a : App) : App :=
  mkApp (term a) (tabBar a) (statusBar a) (dashboard a) (boards a)
    (pipelines a) x (prs a) (copilot a) (workItemDetail a) (prDetail a)
    (running a) (currentView a) (previousView a) (workItems a) (builds a)
    (pipelineList a) (repoList a) (prList a) (lastRefresh a) (loading a)
    (launched a) (calls a).

Definition set_prs (x : PullRequestsView.t) (a : App) : App :=
  mkApp (term a) (tabBar a) (statusBar a) (dashboard a) (boards a)
    (pipelines a) (repos a) x (copilot a) (workItemDetail a) (prDetail a)
    (running a) (currentView a) (previousView a) (workItems a) (builds a)
    (pipelineList a) (repoList a) (prList a) (lastRefresh a) (loading a)
    (launched a) (calls a).

Definition set_copilot (x : CopilotView.t) (a : App) : App :=
  mkApp (term a) (tabBar a) (statusBar a) (dashboard a) (boards a)
    (pipelines a) (repos a) (prs a) x (workItemDetail a) (prDetail a)
    (running a) (currentView a) (previousView a) (workItems a) (builds a)
    (pipelineList a) (repoList a) (prList a) (lastRefresh a) (loading a)
    (launched a) (calls a).

Definition set_workItemDetail (x : details.WorkItemDetailView.t) (a : App)
    : App :=
  mkApp (term a) (tabBar a) (statusBar a) (dashboard a) (boards a)
    (pipelines a) (repos a) (prs a) (copilot a) x (prDetail a) (running a)
    (currentView a) (previousView a) (workItems a) (builds a)
    (pipelineList a) (repoList a) (prList a) (lastRefresh a) (loading a)
    (launched a) (calls a).

Definition set_prDetail (x : details.PRDetailView.t) (a : App) : App :=
  mkApp (term a) (tabBar a) (statusBar a) (dashboard a) (boards a)
    (pipelines a) (repos a) (prs a) (copilot a) (workItemDetail a) x
    (running a) (currentView a) (previousView a) (workItems a) (builds a)
    (pipelineList a) (repoList a) (prList a) (lastRefresh a) (loading a)
    (launched a) (calls a).

Definition set_running (x : bool) (a : App) : App :=
  mkApp (term a) (tabBar a) (statusBar a) (dashboard a) (boards a)
    (pipelines a) (repos a) (prs a) (copilot a) (workItemDetail a)
    (prDetail a) x (currentView a) (previousView a) (workItems a) (builds a)
    (pipelineList a) (repoList a) (prList a) (lastRefresh a) (loading a)
    (launched a) (calls a).

Definition set_currentView (x : ViewID) (a : App) : App :=
  mkApp (term a) (tabBar a) (statusBar a) (dashboard a) (boards a)
    (pipelines a) (repos a) (prs a) (copilot a) (workItemDetail a)
    (prDetail a) (running a) x (previousView a) (workItems a) (builds a)
    (pipelineList a) (repoList a) (prList a) (lastRefresh a) (loading a)
    (launched a) (calls a).

Definition set_previousView (x : ViewID) (a : App) : App :=
  mkApp (term a) (tabBar a) (statusBar a) (dashboard a) (boards a)
    (pipelines a) (repos a) (prs a) (copilot a) (workItemDetail a)
    (prDetail a) (running a) (currentView a) x (workItems a) (builds a)
    (pipelineList a) (repoList a) (prList a) (lastRefresh a) (loading a)
    (launched a) (calls a).

Definition set_workItems (x : list WorkItem) (a : App) : App :=
  mkApp (term a) (tabBar a) (statusBar a) (dashboard a) (boards a)
    (pipelines a) (repos a) (prs a) (copilot a) (workItemDetail a)
    (prDetail a) (running a) (currentView a) (previousView a) x (builds a)
    (pipelineList a) (repoList a) (prList a) (lastRefresh a) (loading a)
    (launched a) (calls a).

Definition set_builds (x : list Build) (a : App) : App :=
  mkApp (term a) (tabBar a) (statusBar a) (dashboard a) (boards a)
    (pipelines a) (repos a) (prs a) (copilot a) (workItemDetail a)
    (prDetail a) (running a) (currentView a) (previousView a) (workItems a)
    x (pipelineList a) (repoList a) (prList a) (lastRefresh a) (loading a)
    (launched a) (calls a).

Definition set_pipelineList (x : list Pipeline) (a : App) : App :=
  mkApp (term a) (tabBar a) (statusBar a) (dashboard a) (boards a)
    (pipelines a) (repos a) (prs a) (copilot a) (workItemDetail a)
    (prDetail a) (running a) (currentView a) (previousView a) (workItems a)
    (builds a) x (repoList a) (prList a) (lastRefresh a) (loading a)
    (launched a) (calls a).

Definition set_repoList (x : list Repository) (a : App) : App :=
  mkApp (term a) (tabBar a) (statusBar a) (dashboard a) (boards a)
    (pipelines a) (repos a) (prs a) (copilot a) (workItemDetail a)
    (prDetail a) (running a) (currentView a) (previousView a) (workItems a)
    (builds a) (pipelineList a) x (prList a) (lastRefresh a) (loading a)
    (launched a) (calls a).

Definition set_prList (x : list PullRequest) (a : App) : App :=
  mkApp (term a) (tabBar a) (statusBar a) (dashboard a) (boards a)
    (pipelines a) (repos a) (prs a) (copilot a) (workItemDetail a)
    (prDetail a) (running a) (currentView a) (previousView a) (workItems a)
    (builds a) (pipelineList a) (repoList a) x (lastRefresh a) (loading a)
    (launched a) (calls a).

Definition set_lastRefresh (x : Time) (a : App) : App :=
  mkApp (term a) (tabBar a) (statusBar a) (dashboard a) (boards a)
    (pipelines a) (repos a) (prs a) (copilot a) (workItemDetail a)
    (prDetail a) (running a) (currentView a) (previousView a) (workItems a)
    (builds a) (pipelineList a) (repoList a) (prList a) x (loading a)
    (launched a) (calls a).

Definition set_loading (x : bool) (a : App) : App :=
  mkApp (term a) (tabBar a) (statusBar a) (dashboard a) (boards a)
    (pipelines a) (repos a) (prs a) (copilot a) (workItemDetail a)
    (prDetail a) (running a) (currentView a) (previousView a) (workItems a)
    (builds a) (pipelineList a) (repoList a) (prList a) (lastRefresh a) x
    (launched a) (calls a).

Definition set_launched (x : nat) (a : App) : App :=
  mkApp (term a) (tabBar a) (statusBar a) (dashboard a) (boards a)
    (pipelines a) (repos a) (prs a) (copilot a) (workItemDetail a)
    (prDetail a) (running a) (currentView a) (previousView a) (workItems a)
    (builds a) (pipelineList a) (repoList a) (prList a) (lastRefresh a)
    (loading a) x (calls a).

Definition set_calls (x : list Call) (a : App) : App :=
  mkApp (term a) (tabBar a) (statusBar a) (dashboard a) (boards a)
    (pipelines a) (repos a) (prs a) (copilot a) (workItemDetail a)
    (prDetail a) (running a) (currentView a) (previousView a) (workItems a)
    (builds a) (pipelineList a) (repoList a) (prList a) (lastRefresh a)
    (loading a) (launched a) x.

Definition tabs : list components.Tab.t :=
  [ components.Tab.mk "dashboard" "Dashboard" "1" "🏠";
    components.Tab.mk "boards" "Boards" "2" "📋";
    components.Tab.mk "pipelines" "Pipelines" "3" "🔧";
    components.Tab.mk "repos" "Repos" "4" "📁";
    components.Tab.mk "prs" "PRs" "5" "🔀";
    components.Tab.mk "copilot" "Copilot" "/" "🤖" ].

Definition record (c : Call) (a : App) : App :=
  set_calls (calls a ++ [c]) a.

Definition setStatus (now : Time) (msg : string) (a : App) : App :=
  set_statusBar (components.StatusBar.SetMessage now msg (statusBar a)) a.

Definition isDetailView (a : App) : bool :=
  ViewID_eqb (currentView a) ViewWorkItemDetail
  || ViewID_eqb (currentView a) ViewPRDetail.

Definition showWorkItemDetail (item : WorkItem) (a : App) : App :=
  let a1 :=
    set_workItemDetail
      (details.WorkItemDetailView.SetWorkItem item (workItemDetail a)) a in
  let a2 := set_previousView (currentView a1) a1 in
  set_currentView ViewWorkItemDetail a2.

Definition showPRDetail (pr : PullRequest) (a : App) : App :=
  let a1 :=
    set_prDetail (details.PRDetailView.SetPullRequest pr (prDetail a)) a in
  let a2 := set_previousView (currentView a1) a1 in
  set_currentView ViewPRDetail a2.

(** A value of the interface [View]: the methods of one of the eight view
    objects that the [App] points to, acting on the [App] that holds
    it. Every call of [OnExit], [OnEnter] and [Render] is recorded in
    [calls]. *)
Record View : Type := mkView {
  ID : ViewID;
  HandleKey : Time -> Key -> App -> bool * App;
  OnEnter : App -> App;
  OnExit : App -> App;
  Render : Z -> Z -> Z -> App -> App
}.

Definition dashboardView : View :=
  mkView ViewDashboard
    (fun _ key a =>
       let (h, v) := DashboardView.HandleKey key (dashboard a) in
       (h, set_dashboard v a))
    (record (OnEnterCall ViewDashboard))
    (record (OnExitCall ViewDashboard))
    (fun _ _ _ => record (RenderCall ViewDashboard)).

(** The callback registered by [NewApp] is [showWorkItemDetail]. *)
Definition boardsView : View :=
  mkView ViewBoards
    (fun _ key a =>
       let '(h, v, sel) := BoardsView.HandleKey key (boards a) in
       let a1 := set_boards v a in
       (h, match sel with
           | Some item => showWorkItemDetail item a1
           | None => a1
           end))
    (record (OnEnterCall ViewBoards))
    (record (OnExitCall ViewBoards))
    (fun _ _ h a =>
       record (RenderCall ViewBoards)
         (set_boards (BoardsView.Render h (boards a)) a)).

Definition pipelinesView : View :=
  mkView ViewPipelines
    (fun _ key a =>
       let (h, v) := PipelinesView.HandleKey key (pipelines a) in
       (h, set_pipelines v a))
    (record (OnEnterCall ViewPipelines))
    (record (OnExitCall ViewPipelines))
    (fun _ _ h a =>
       record (RenderCall ViewPipelines)
         (set_pipelines (PipelinesView.Render h (pipelines a)) a)).

Definition reposView : View :=
  mkView ViewRepos
    (fun _ key a =>
       let (h, v) := ReposView.HandleKey key (repos a) in
       (h, set_repos v a))
    (record (OnEnterCall ViewRepos))
    (record (OnExitCall ViewRepos))
    (fun _ _ h a =>
       record (RenderCall ViewRepos)
         (set_repos (ReposView.Render h (repos a)) a)).

(** The callback registered by [NewApp] is [showPRDetail]. *)
Definition prsView : View :=
  mkView ViewPullRequests
    (fun _ key a =>
       let '(h, v, sel) := PullRequestsView.HandleKey key (prs a) in
       let a1 := set_prs v a in
       (h, match sel with
           | Some pr => showPRDetail pr a1
           | None => a1
           end))
    (record (OnEnterCall ViewPullRequests))
    (record (OnExitCall ViewPullRequests))
    (fun _ _ h a =>
       record (RenderCall ViewPullRequests)
         (set_prs (PullRequestsView.Render h (prs a)) a)).

Definition copilotView : View :=
  mkView ViewCopilot
    (fun now key a =>
       let (h, v) := CopilotView.HandleKey now key (copilot a) in
       (h, set_copilot v a))
    (fun a =>
       record (OnEnterCall ViewCopilot)
         (set_copilot (CopilotView.OnEnter (copilot a)) a))
    (fun a =>
       record (OnExitCall ViewCopilot)
         (set_copilot (CopilotView.OnExit (copilot a)) a))
    (fun _ _ _ => record (RenderCall ViewCopilot)).

Definition workItemDetailView : View :=
  mkView ViewWorkItemDetail
    (fun _ key a =>
       let (h, v) :=
         details.WorkItemDetailView.HandleKey key (workItemDetail a) in
       (h, set_workItemDetail v a))
    (record (OnEnterCall ViewWorkItemDetail))
    (record (OnExitCall ViewWorkItemDetail))
    (fun _ _ _ => record (RenderCall ViewWorkItemDetail)).

Definition prDetailView : View :=
  mkView ViewPRDetail
    (fun _ key a =>
       let (h, v) := details.PRDetailView.HandleKey key (prDetail a) in
       (h, set_prDetail v a))
    (record (OnEnterCall ViewPRDetail))
    (record (OnExitCall ViewPRDetail))
    (fun _ _ _ => record (RenderCall ViewPRDetail)).

Definition getCurrentView (a : App) : View :=
  match currentView a with
  | ViewDashboard => dashboardView
  | ViewBoards => boardsView
  | ViewPipelines => pipelinesView
  | ViewRepos => reposView
  | ViewPullRequests => prsView
  | ViewCopilot => copilotView
  | ViewWorkItemDetail => workItemDetailView
  | ViewPRDetail => prDetailView
  | ViewEmpty => dashboardView
  end.

Definition setActiveTab (id : string) (a : App) : App :=
  set_tabBar (components.TabBar.SetActiveByID id (tabBar a)) a.

Definition switchToView (id : ViewID) (a : App) : App :=
  if ViewID_eqb (currentView a) id then a
  else
    let a1 := OnExit (getCurrentView a) a in
    let a2 := set_previousView (currentView a1) a1 in
    let a3 := set_currentView id a2 in
    let a4 := OnEnter (getCurrentView a3) a3 in
    match id with
    | ViewDashboard => setActiveTab "dashboard" a4
    | ViewBoards => setActiveTab "boards" a4
    | ViewPipelines => setActiveTab "pipelines" a4
    | ViewRepos => setActiveTab "repos" a4
    | ViewPullRequests => setActiveTab "prs" a4
    | ViewCopilot => setActiveTab "copilot" a4
    | _ => a4
    end.

Definition switchToTabView (a : App) : App :=
  match components.TabBar.ActiveTab (tabBar a) with
  | None => a
  | Some tab =>
      let id := components.Tab.ID tab in
      if String.eqb id "dashboard" then switchToView ViewDashboard a
      else if String.eqb id "boards" then switchToView ViewBoards a
      else if String.eqb id "pipelines" then switchToView ViewPipelines a
      else if String.eqb id "repos" then switchToView ViewRepos a
      else if String.eqb id "prs" then switchToView ViewPullRequests a
      else if String.eqb id "copilot" then switchToView ViewCopilot a
      else a
  end.

(** The statement [go a.refreshData()]: the task is launched, and runs
    on its own. *)
Definition goRefreshData (a : App) : App :=
  set_launched (S (launched a)) a.

(** The second [switch] of [handleInput], reached when the view declined
    the key. [None] is the panic of [Next] on a bar without tabs. *)
Definition globalKeys (now : Time) (key : Key) (a : App) : option App :=
  match Type_ key with
  | KeyRune =>
      let r := Rune key in
      if (r =? chr "q") || (r =? chr "Q") then Some (set_running false a)
      else if r =? chr "1" then Some (switchToView ViewDashboard a)
      else if r =? chr "2" then Some (switchToView ViewBoards a)
      else if r =? chr "3" then Some (switchToView ViewPipelines a)
      else if r =? chr "4" then Some (switchToView ViewRepos a)
      else if r =? chr "5" then Some (switchToView ViewPullRequests a)
      else if (r =? chr "/") || (r =? chr ":") then
        Some (switchToView ViewCopilot a)
      else if (r =? chr "r") || (r =? chr "R") then
        Some (goRefreshData (setStatus now "Refreshing..." a))
      else if r =? chr "b" then
        if isDetailView a
        then Some (set_currentView (previousView a) a)
        else Some a
      else Some a
  | KeyTab =>
      match components.TabBar.Next (tabBar a) with
      | None => None
      | Some b => Some (switchToTabView (set_tabBar b a))
      end
  | _ => Some a
  end.

(** [now] is the reading of [time.Now()] during the dispatch. *)
Definition handleInput (now : Time) (key : Key) (a : App) : option App :=
  match Type_ key with
  | KeyCtrlC => Some (set_running false a)
  | KeyEscape =>
      if isDetailView a then Some (set_currentView (previousView a) a)
      else if ViewID_eqb (currentView a) ViewCopilot
      then Some (switchToView ViewDashboard a)
      else Some a
  | _ =>
      let (handled, a1) := HandleKey (getCurrentView a) now key a in
      if handled then Some a1 else globalKeys now key a1
  end.

Definition isFilterMode (a : App) : bool :=
  match currentView a with
  | ViewBoards => BoardsView.IsFilterMode (boards a)
  | ViewPipelines => PipelinesView.IsFilterMode (pipelines a)
  | ViewRepos => ReposView.IsFilterMode (repos a)
  | ViewPullRequests => PullRequestsView.IsFilterMode (prs a)
  | _ => false
  end.

Definition updateHelpText (a : App) : App :=
  let help :=
    if ViewID_eqb (currentView a) ViewCopilot then
      " [Enter] Send │ [Esc] Back │ [Ctrl+C] Quit "
    else if isDetailView a then " [Esc/b] Back │ [q] Quit "
    else if isFilterMode a then
      " [Enter] Apply │ [Esc] Cancel │ Type to filter... "
    else
      " [1-5] Tab │ [/] Copilot │ [↑↓/jk] Navigate │ [Enter] Details │ [f] Filter │ [r] Refresh │ [q] Quit "
  in
  set_statusBar (components.StatusBar.SetHelp help (statusBar a)) a.

Definition render (a : App) : App :=
  let width := Width (term a) in
  let height := Height (term a) in
  let contentStart := 5 in
  let contentHeight := height - 7 in
  let a1 :=
    if loading a then a
    else Render (getCurrentView a) contentStart width contentHeight a in
  updateHelpText a1.

(** The answers of the data client and of the clock during one run of
    [refreshData]. *)
Record Refresh : Type := mkRefresh {
  gotWorkItems : Fetch (list WorkItem);
  gotBuilds : Fetch (list Build);
  gotPipelines : Fetch (list Pipeline);
  gotRepositories : Fetch (list Repository);
  gotPullRequests : Fetch (list PullRequest);
  stampTime : Time;
  statusTime : Time
}.

(** One run of [refreshData], from start to end. *)
Definition refreshData (r : Refresh) (a : App) : App :=
  let a0 := set_loading true a in
  let a1 :=
    match gotWorkItems r with
    | Fetched items =>
        set_boards (BoardsView.SetWorkItems items (boards a0))
          (set_workItems items a0)
    | FetchError _ => a0
    end in
  let a2 :=
    match gotBuilds r with
    | Fetched bs => set_builds bs a1
    | FetchError _ => a1
    end in
  let a3 :=
    match gotPipelines r with
    | Fetched ps =>
        set_pipelines (PipelinesView.SetPipelines ps (pipelines a2))
          (set_pipelineList ps a2)
    | FetchError _ => a2
    end in
  let a4 :=
    match gotRepositories r with
    | Fetched rs =>
        set_repos (ReposView.SetRepositories rs (repos a3))
          (set_repoList rs a3)
    | FetchError _ => a3
    end in
  let a5 :=
    match gotPullRequests r with
    | Fetched ps =>
        set_prs (PullRequestsView.SetPullRequests ps (prs a4))
          (set_prList ps a4)
    | FetchError _ => a4
    end in
  let a6 :=
    set_dashboard
      (DashboardView.SetData (workItems a5) (builds a5) (prList a5)
         (dashboard a5)) a5 in
  let a7 := set_loading false (set_lastRefresh (stampTime r) a6) in
  let a8 :=
    set_statusBar
      (components.StatusBar.SetLastRefresh (lastRefresh a7) (statusBar a7))
      a7 in
  setStatus (statusTime r) "Data refreshed" a8.

(** [NewApp], past the check of the configuration. *)
Definition NewApp (t : Terminal) : App :=
  mkApp t
    (components.TabBar.NewTabBar tabs)
    components.StatusBar.NewStatusBar
    DashboardView.NewDashboardView
    (BoardsView.OnSelectItem BoardsView.NewBoardsView)
    PipelinesView.NewPipelinesView
    ReposView.NewReposView
    (PullRequestsView.OnSelectItem PullRequestsView.NewPullRequestsView)
    CopilotView.NewCopilotView
    details.WorkItemDetailView.NewWorkItemDetailView
    details.PRDetailView.NewPRDetailView
    false ViewDashboard ViewEmpty [] [] [] [] [] 0 false 0%nat [].

(** One turn of the loop of [Run]: a frame, a read, a dispatch. A read
    error skips the dispatch. *)
Definition turn (now : Time) (r : StdinRead) (a : App) : option App :=
  let a1 := render a in
  match ReadKey r with
  | None => Some a1
  | Some key => handleInput now key a1
  end.

(** The loop of [Run] over the reads [ins], each with the clock reading
    of its dispatch. *)
Fixpoint loop (ins : list (Time * StdinRead)) (a : App) : option App :=
  match ins with
  | [] => Some a
  | (now, r) :: rest =>
      if running a then
        match turn now r a with
        | Some a' => loop rest a'
        | None => None
        end
      else Some a
  end.

Definition Run (t0 : Time) (ins : list (Time * StdinRead)) (a : App)
    : option App :=
  loop ins (goRefreshData (setStatus t0 "Loading..." (set_running true a))).

End Controller.

End ui.

(** ** Sequences of operations *)

Module ops.

(** The operations of a tab bar that assign to it. *)
Inductive TabOp : Type :=
| SetActive (index : Z)
| SetActiveByID (id : string)
| Next.

Definition tabStep (b : components.TabBar.t) (op : TabOp)
    : option components.TabBar.t :=
  match op with
  | SetActive i => Some (components.TabBar.SetActive i b)
  | SetActiveByID id => Some (components.TabBar.SetActiveByID id b)
  | Next => components.TabBar.Next b
  end.

Fixpoint tabRun (os : list TabOp) (b : components.TabBar.t)
    : option components.TabBar.t :=
  match os with
  | [] => Some b
  | op :: rest =>
      match tabStep b op with
      | Some b' => tabRun rest b'
      | None => None
      end
  end.

(** [n] calls of [Next] in a row. *)
Fixpoint nextTimes (n : nat) (b : components.TabBar.t)
    : option components.TabBar.t :=
  match n with
  | O => Some b
  | S k =>
      match components.TabBar.Next b with
      | Some b' => nextTimes k b'
      | None => None
      end
  end.

(** The four moves of the selection of a list. *)
Inductive Move : Type := MoveUp | MoveDown | MoveToTop | MoveToBottom.

Definition move {D : Type} (l : components.List.t D) (m : Move)
    : components.List.t D :=
  match m with
  | MoveUp => components.List.MoveUp l
  | MoveDown => components.List.MoveDown l
  | MoveToTop => components.List.MoveToTop l
  | MoveToBottom => components.List.MoveToBottom l
  end.

Definition moves {D : Type} (ms : list Move) (l : components.List.t D)
    : components.List.t D :=
  fold_left move ms l.

End ops.

(** ** The properties in the words of the specification *)

Module spec.
Import terminal.

(** The decoding of the bytes of one read, case by case: one byte; the
    four arrow sequences; any other shape. *)
Definition arrow (b : Z) : option KeyType :=
  if b =? chr "A" then Some KeyUp
  else if b =? chr "B" then Some KeyDown
  else if b =? chr "C" then Some KeyRight
  else if b =? chr "D" then Some KeyLeft
  else None.

Definition single (b : Z) : Key :=
  if b =? 3 then key KeyCtrlC
  else if b =? 9 then key KeyTab
  else if b =? 13 then key KeyEnter
  else if b =? 27 then key KeyEscape
  else if b =? 127 then key KeyBackspace
  else mkKey KeyRune b.

Definition decode (bs : list byte) : Key :=
  match bs with
  | [b] => single (byte_val b)
  | [b0; b1; b2] =>
      match arrow (byte_val b2) with
      | Some t =>
          if (byte_val b0 =? 27) && (byte_val b1 =? chr "[")
          then key t
          else mkKey KeyRune (byte_val b0)
      | None => mkKey KeyRune (byte_val b0)
      end
  | b0 :: _ => mkKey KeyRune (byte_val b0)
  | [] => mkKey KeyRune 0
  end.

(** The indices, in order, of the items whose label contains the query,
    both lowered. *)
Definition labelMatches {gs : GoStrings} {D : Type} (query : string)
    (item : components.ListItem.t D) : bool :=
  Contains (ToLower (components.ListItem.Label item)) (ToLower query).

Definition matchingIndices {gs : GoStrings} {D : Type} (query : string)
    (its : list (components.ListItem.t D)) : list Z :=
  map (fun p => Z.of_nat (fst p))
    (filter (fun p => labelMatches query (snd p))
       (combine (seq 0 (List.length its)) its)).

(** The active index of a tab bar points at a tab. *)
Definition inRange (b : components.TabBar.t) : Prop :=
  0 <= components.TabBar.active b < slen (components.TabBar.tabs b).

(** The window of [h] rows on a sequence of [n] entries: the bounds on
    the scroll offset and on the selection. *)
Definition window (n h scroll selected : Z) : Prop :=
  0 <= scroll <= Z.max 0 (n - h) /\ scroll <= selected < scroll + h.

(** A list as [SetItems], [ClearFilter] and a filter that applies leave
    it: the first entry selected, no scroll. *)
Definition atTop {D : Type} (l : components.List.t D) : Prop :=
  components.List.selected l = 0 /\ components.List.scroll l = 0.

(** The selection and the scroll offset of a list are within the window
    of its height on its active sequence, and the selection is an entry of
    that sequence (entry 0 when there is none). *)
Definition inWindow {D : Type} (l : components.List.t D) : Prop :=
  let n := slen (components.List.activeIndices l) in
  0 < components.List.height l
  /\ window n (components.List.height l) (components.List.scroll l)
       (components.List.selected l)
  /\ components.List.selected l <= Z.max 0 (n - 1).

End spec.

(** ** Sample data *)

Module sample.

Definition isSpace (c : ascii) : bool :=
  let n := N_of_ascii c in
  (n =? 32)%N || ((9 <=? n)%N && (n <=? 13)%N).

Fixpoint trimLeft (s : string) : string :=
  match s with
  | EmptyString => EmptyString
  | String c s' => if isSpace c then trimLeft s' else s
  end.

Fixpoint trimRight (s : string) : string :=
  match s with
  | EmptyString => EmptyString
  | String c s' =>
      let t := trimRight s' in
      if isSpace c && String.eqb t "" then EmptyString else String c t
  end.

(** The string functions on ASCII text. *)
Definition asciiStrings : GoStrings :=
  {| ToLower := asciiToLower; TrimSpace := fun s => trimRight (trimLeft s) |}.

(** [strings.Fields] on ASCII text, with [cur] the word being read. *)
Fixpoint fieldsFrom (s cur : string) : list string :=
  match s with
  | EmptyString => if String.eqb cur "" then [] else [cur]
  | String c s' =>
      if isSpace c then
        if String.eqb cur "" then fieldsFrom s' ""
        else cur :: fieldsFrom s' ""
      else fieldsFrom s' (cur ++ String c "")%string
  end.

Definition asciiFields (s : string) : list string := fieldsFrom s "".

(** Records reduced to a title, and an interpreter with one answer. *)
Definition titles : Collab :=
  {| WorkItem := string;
     Build := string;
     Pipeline := string;
     Repository := string;
     PullRequest := string;
     ResultData := string;
     workItemID := fun _ => "1";
     workItemIcon := fun _ => "•";
     workItemLabel := fun w => w;
     pipelineID := fun _ => "1";
     pipelineLabel := fun p => p;
     repositoryID := fun r => r;
     repositoryLabel := fun r => r;
     pullRequestID := fun _ => "1";
     pullRequestIsDraft := fun _ => false;
     pullRequestLabel := fun p => p;
     Ask := fun _ => agent.mk true "Done" None [];
     FormatResult := fun d => d |}.

Definition app0 : ui.App (co := titles) :=
  ui.NewApp (terminal.mkTerminal 120 40).

Definition item (label : string) : components.ListItem.t Empty_set :=
  components.ListItem.mk "" "" label "" None.

(** A list of three rows drawn in a region of five rows, which leaves
    two rows for items. *)
Definition list3 : components.List.t Empty_set :=
  components.List.Render 5
    (components.List.SetItems [item "alpha"; item "Beta"; item "gamma"]
       (components.List.NewList "rows")).

(** The answers of one refresh in which only the builds fail. *)
Definition refresh1 : ui.Refresh (co := titles) :=
  ui.mkRefresh (co := titles)
    (ui.Fetched ["Fix login"]) (ui.FetchError "timeout")
    (ui.Fetched ["nightly"]) (ui.Fetched ["apo"]) (ui.Fetched ["Add tests"])
    100 101.

(** The application when [Run] has started and the first refresh is
    over. *)
Definition started : ui.App (co := titles) :=
  ui.refreshData refresh1
    (ui.goRefreshData
       (ui.setStatus 0 "Loading..." (ui.set_running true app0))).

(** The same, after a switch to the Copilot view. *)
Definition inCopilot : ui.App (co := titles) :=
  ui.switchToView (gs := asciiStrings) views.ViewCopilot started.

(** The pipelines view with three pipelines, its list drawn in a region
    of five rows. *)
Definition pipelines3 : views.PipelinesView.t (co := titles) :=
  views.PipelinesView.Render 5
    (views.PipelinesView.SetPipelines (co := titles)
       ["alpha"; "Beta"; "gamma"] views.PipelinesView.NewPipelinesView).

(** The keys 2, then slash or colon, then Escape. *)
Definition throughBoards : list (Time * terminal.StdinRead) :=
  [ (1, terminal.ReadData [x32]);
    (2, terminal.ReadData [x3a]);
    (3, terminal.ReadData [x1b]) ].

(** Four reads: the key 2, Enter, Escape, then a read error. *)
Definition openAndClose : list (Time * terminal.StdinRead) :=
  [ (1, terminal.ReadData [x32]);
    (2, terminal.ReadData [x0d]);
    (3, terminal.ReadData [x1b]);
    (4, terminal.ReadError) ].

End sample.

(** ** A session *)

Module session.
Import terminal.
Import views.
Import ui.

Section Events.
Context {gs : GoStrings} {co : Collab}.

(** What happens to the application while [Run] loops: a turn of the
    loop, with the clock reading of its dispatch and the outcome of its
    read, or the end of a run of [refreshData]. *)
Inductive Event : Type :=
| Turn (now : Time) (r : StdinRead)
| Refreshed (r : Refresh).

(** A turn is taken while [running] holds. *)
Definition step (a : App) (e : Event) : option App :=
  match e with
  | Turn now r => if running a then turn now r a else Some a
  | Refreshed r => Some (refreshData r a)
  end.

Fixpoint run (es : list Event) (a : App) : option App :=
  match es with
  | [] => Some a
  | e :: rest =>
      match step a e with
      | Some a' => run rest a'
      | None => None
      end
  end.

(** The application when the loop of [Run] starts. *)
Definition start (t : Terminal) (t0 : Time) : App :=
  goRefreshData (setStatus t0 "Loading..." (set_running true (NewApp t))).

End Events.
End session.

(** ** Invariants *)

Module inv.
Import views.
Import ui.

(** A list as the list views keep it: outside filter mode the query is
    empty; an empty query goes with no filter; a query that is not empty
    goes with the selection at the top; and the selection is an entry of the
    active sequence (entry 0 when there is none). *)
Definition listOK {D : Type} (l : components.List.t D) : Prop :=
  (components.List.filterMode l = false -> components.List.filterQuery l = "")
  /\ (components.List.filterQuery l = "" -> components.List.filtered l = None)
  /\ (components.List.filterQuery l <> "" -> components.List.selected l = 0)
  /\ 0 <= components.List.selected l
       <= Z.max 0 (slen (components.List.activeIndices l) - 1).

(** The index in [ui.tabs] of the tab of a view; for a detail view, of
    the list view it is opened from, which [prev] must be. *)
Definition homeTab (cur prev : ViewID) : option Z :=
  match cur with
  | ViewDashboard => Some 0
  | ViewBoards => Some 1
  | ViewPipelines => Some 2
  | ViewRepos => Some 3
  | ViewPullRequests => Some 4
  | ViewCopilot => Some 5
  | ViewWorkItemDetail =>
      match prev with
      | ViewBoards => Some 1
      | _ => None
      end
  | ViewPRDetail =>
      match prev with
      | ViewPullRequests => Some 4
      | _ => None
      end
  | ViewEmpty => None
  end.

(** The list [new] is the list [old] given the rows [rows]: the
    selection and the scroll at the top, no query and no filter; the mode
    and the height are those of [old]. *)
Definition resetTo {D : Type} (rows : list (components.ListItem.t D))
    (old new : components.List.t D) : Prop :=
  components.List.items new = rows
  /\ components.List.selected new = 0
  /\ components.List.scroll new = 0
  /\ components.List.filterQuery new = ""
  /\ components.List.filtered new = None
  /\ components.List.filterMode new = components.List.filterMode old
  /\ components.List.height new = components.List.height old.

Section App.
Context {co : Collab}.

(** The tab bar holds the six tabs, and the active one is the tab of the
    current view. *)
Definition tabSync (a : App) : Prop :=
  components.TabBar.tabs (tabBar a) = ui.tabs
  /\ homeTab (currentView a) (previousView a)
     = Some (components.TabBar.active (tabBar a)).

(** Every view holds the collection of the snapshot, the list views one
    row for each record, and the two callbacks are registered. *)
Definition shown (a : App) : Prop :=
  dashboard a = DashboardView.mk (workItems a) (builds a) (prList a)
  /\ (BoardsView.workItems (boards a) = workItems a
      /\ components.List.items (BoardsView.list (boards a))
         = map BoardsView.row (workItems a)
      /\ BoardsView.onSelect (boards a) = true)
  /\ (PipelinesView.pipelines (pipelines a) = pipelineList a
      /\ components.List.items (PipelinesView.list (pipelines a))
         = map PipelinesView.row (pipelineList a))
  /\ (ReposView.repos (repos a) = repoList a
      /\ components.List.items (ReposView.list (repos a))
         = map ReposView.row (repoList a))
  /\ (PullRequestsView.prs (prs a) = prList a
      /\ components.List.items (PullRequestsView.list (prs a))
         = map PullRequestsView.row (prList a)
      /\ PullRequestsView.onSelect (prs a) = true).

Definition listsOK (a : App) : Prop :=
  listOK (BoardsView.list (boards a))
  /\ listOK (PipelinesView.list (pipelines a))
  /\ listOK (ReposView.list (repos a))
  /\ listOK (PullRequestsView.list (prs a)).

Definition appOK (a : App) : Prop :=
  tabSync a /\ shown a /\ listsOK a.

End App.
End inv.

(** ** Sample sessions *)

Module demo.

Definition term : terminal.Terminal := terminal.mkTerminal 120 40.

(** The first refresh ends, then the key 2 is read. *)
Definition toBoards : list (session.Event (co := sample.titles)) :=
  [ session.Refreshed sample.refresh1;
    session.Turn 1 (terminal.ReadData [x32]) ].

(** The application after [toBoards]. *)
Definition onBoards : ui.App (co := sample.titles) :=
  ui.switchToView (gs := sample.asciiStrings) views.ViewBoards
    (ui.render (gs := sample.asciiStrings)
       (ui.refreshData sample.refresh1 (session.start term 0))).

(** The same, after the key f: the Boards view is in filter mode. *)
Definition filtering : ui.App (co := sample.titles) :=
  ui.set_boards
    (views.BoardsView.set_list
       (components.List.ToggleFilterMode
          (views.BoardsView.list (ui.boards onBoards)))
       (ui.boards onBoards))
    onBoards.

(** The answers of a refresh in which only the pull requests arrive. *)
Definition refresh2 : ui.Refresh (co := sample.titles) :=
  ui.mkRefresh (co := sample.titles)
    (ui.FetchError "timeout") (ui.FetchError "timeout")
    (ui.FetchError "timeout") (ui.FetchError "timeout")
    (ui.Fetched ["Add tests"; "Bump version"])
    200 201.

End demo.

(** * Properties *)

(** ** Lengths *)

Lemma slen_cons {A : Type} (x : A) (xs : list A) :
  slen (x :: xs) = slen xs + 1.
Proof.
  unfold slen. simpl List.length. lia.
Qed.

Lemma slen_nonneg {A : Type} (xs : list A) : 0 <= slen xs.
Proof.
  unfold slen. lia.
Qed.

(** ** The key decoder *)

Section KeyDecoder.
Import terminal.

(** C1. Whatever bytes are pending, a read that succeeds decodes to a
    key, and the key is the one the decoding table gives for the bytes
    read: the table of single bytes, the four arrow sequences, and the first
    byte as a printable character for every other shape. *)
Theorem ReadKey_decodes_every_read :
  forall bs : list byte,
    ReadKey (ReadData bs) = Some (spec.decode (firstn 3 bs)).
Proof.
  intros [|b0 [|b1 [|b2 rest]]].
  - reflexivity.
  - unfold ReadKey, spec.decode, spec.single, buf_at, slen. simpl.
    repeat match goal with
           | |- context [?x =? ?y] => destruct (x =? y)
           end; reflexivity.
  - reflexivity.
  - unfold ReadKey, spec.decode, spec.arrow, buf_at, slen. simpl.
    destruct (byte_val b0 =? 27); destruct (byte_val b1 =? chr "[");
      simpl;
      repeat match goal with
             | |- context [byte_val b2 =? ?y] => destruct (byte_val b2 =? y)
             end; reflexivity.
Qed.

Example ReadKey_up :
  ReadKey (ReadData [x1b; x5b; x41]) = Some (key KeyUp).
Proof. reflexivity. Qed.

Example ReadKey_enter : ReadKey (ReadData [x0d]) = Some (key KeyEnter).
Proof. reflexivity. Qed.

Example ReadKey_interrupt : ReadKey (ReadData [x03]) = Some (key KeyCtrlC).
Proof. reflexivity. Qed.

Example ReadKey_escape_then_byte :
  ReadKey (ReadData [x1b; x4f]) = Some (mkKey KeyRune 27).
Proof. reflexivity. Qed.

Example ReadKey_unknown_sequence :
  ReadKey (ReadData [x1b; x5b; x48]) = Some (mkKey KeyRune 27).
Proof. reflexivity. Qed.

End KeyDecoder.

(** ** Truncation *)

Section Truncation.
Import terminal.

Lemma substring_head (n : nat) :
  forall s : string,
    (n <= String.length s)%nat ->
    exists rest,
      s = (substring 0 n s ++ rest)%string
      /\ String.length (substring 0 n s) = n.
Proof.
  induction n as [|n IH]; intros s Hn.
  - exists s. destruct s; simpl; auto.
  - destruct s as [|c s]; simpl in Hn; [lia|].
    destruct (IH s) as [rest [Hs Hl]]; [lia|].
    exists rest. simpl. split; [congruence|now rewrite Hl].
Qed.

Lemma slice_to_head (s : string) (k : Z) :
  0 <= k <= len s ->
  exists head rest,
    slice_to s k = Some head /\ s = (head ++ rest)%string /\ len head = k.
Proof.
  intros Hk. unfold slice_to.
  replace ((0 <=? k) && (k <=? len s)) with true
    by (symmetry; apply andb_true_iff; split; apply Z.leb_le; lia).
  destruct (substring_head (Z.to_nat k) s) as [rest [Hs Hl]].
  - unfold len in Hk. lia.
  - exists (substring 0 (Z.to_nat k) s), rest.
    split; [reflexivity|]. split; [exact Hs|].
    unfold len. rewrite Hl. lia.
Qed.

(** C8. For [max >= 0], [Truncate] returns the text when it is no longer
    than [max] bytes; a longer text is cut to its first [max - 3] bytes
    followed by three dots when [max > 3], and to its first [max] bytes and
    nothing else when [max <= 3]. *)
Theorem Truncate_cases :
  forall (text : string) (max : Z),
    0 <= max ->
    (len text <= max -> Truncate text max = Some text)
    /\ (max < len text -> 3 < max ->
        exists head rest,
          text = (head ++ rest)%string /\ len head = max - 3
          /\ Truncate text max = Some (head ++ "...")%string)
    /\ (max < len text -> max <= 3 ->
        exists head rest,
          text = (head ++ rest)%string /\ len head = max
          /\ Truncate text max = Some head).
Proof.
  intros text max Hmax. unfold Truncate. repeat split.
  - intros Hle. apply Z.leb_le in Hle. now rewrite Hle.
  - intros Hlt H3.
    destruct (slice_to_head text (max - 3)) as [head [rest [Hs [Ht Hl]]]];
      [lia|].
    exists head, rest. repeat split; trivial.
    replace (len text <=? max) with false by (symmetry; apply Z.leb_gt; lia).
    replace (max <=? 3) with false by (symmetry; apply Z.leb_gt; lia).
    now rewrite Hs.
  - intros Hlt H3.
    destruct (slice_to_head text max) as [head [rest [Hs [Ht Hl]]]]; [lia|].
    exists head, rest. repeat split; trivial.
    replace (len text <=? max) with false by (symmetry; apply Z.leb_gt; lia).
    replace (max <=? 3) with true by (symmetry; apply Z.leb_le; lia).
    exact Hs.
Qed.

Example Truncate_long : Truncate "pipeline" 6 = Some "pip...".
Proof. reflexivity. Qed.

Example Truncate_short_max : Truncate "pipeline" 2 = Some "pi".
Proof. reflexivity. Qed.

Lemma Truncate_cases_witness :
  0 <= 6
  /\ exists head rest,
       "pipeline" = (head ++ rest)%string /\ len head = 6 - 3
       /\ Truncate "pipeline" 6 = Some (head ++ "...")%string.
Proof.
  split; [lia|].
  apply (Truncate_cases "pipeline" 6); [lia|vm_compute; reflexivity|lia].
Defined.

End Truncation.

(** ** The tab bar *)

Section TabBarFacts.
Import components.TabBar.
Import spec.

Lemma indexOfID_bounds (id : string) :
  forall (ts : list components.Tab.t) (i j : Z),
    indexOfID id ts i = Some j -> i <= j < i + slen ts.
Proof.
  induction ts as [|tab ts IH]; intros i j; simpl.
  - discriminate.
  - destruct (String.eqb (components.Tab.ID tab) id).
    + intros [= <-]. rewrite slen_cons. pose proof (slen_nonneg ts). lia.
    + intros Hj. apply IH in Hj. rewrite slen_cons. lia.
Qed.

Lemma SetActive_inRange (i : Z) (b : t) :
  inRange b -> inRange (SetActive i b) /\ tabs (SetActive i b) = tabs b.
Proof.
  intros Hb. unfold SetActive.
  destruct ((0 <=? i) && (i <? slen (tabs b))) eqn:E; [|now split].
  apply andb_true_iff in E. destruct E as [E1 E2].
  apply Z.leb_le in E1. apply Z.ltb_lt in E2.
  split; [|reflexivity]. unfold inRange. simpl. lia.
Qed.

Lemma SetActiveByID_inRange (id : string) (b : t) :
  inRange b ->
  inRange (SetActiveByID id b) /\ tabs (SetActiveByID id b) = tabs b.
Proof.
  intros Hb. unfold SetActiveByID.
  destruct (indexOfID id (tabs b) 0) as [j|] eqn:E; [|now split].
  apply indexOfID_bounds in E.
  split; [|reflexivity]. unfold inRange. simpl. lia.
Qed.

Lemma SetActive_out_of_range (i : Z) (b : t) :
  i < 0 \/ slen (tabs b) <= i -> SetActive i b = b.
Proof.
  intros Hi. unfold SetActive.
  destruct (Z.leb_spec 0 i), (Z.ltb_spec i (slen (tabs b)));
    simpl; trivial; lia.
Qed.

Lemma indexOfID_unknown (id : string) :
  forall (ts : list components.Tab.t) (i : Z),
    (forall tab, In tab ts -> components.Tab.ID tab <> id) ->
    indexOfID id ts i = None.
Proof.
  induction ts as [|tab ts IH]; intros i Hno; simpl; [reflexivity|].
  destruct (String.eqb_spec (components.Tab.ID tab) id) as [E|_].
  - exfalso. apply (Hno tab); [now left|exact E].
  - apply IH. intros tab' Hin. apply Hno. now right.
Qed.

Lemma SetActiveByID_unknown (id : string) (b : t) :
  (forall tab, In tab (tabs b) -> components.Tab.ID tab <> id) ->
  SetActiveByID id b = b.
Proof.
  intros Hno. unfold SetActiveByID. now rewrite indexOfID_unknown.
Qed.

Lemma Next_inRange (b : t) :
  inRange b ->
  exists b',
    Next b = Some b' /\ inRange b' /\ tabs b' = tabs b
    /\ active b' = (active b + 1) mod slen (tabs b).
Proof.
  intros Hb. unfold inRange in Hb. unfold Next.
  destruct (slen (tabs b) =? 0) eqn:E.
  - apply Z.eqb_eq in E. lia.
  - eexists. split; [reflexivity|]. simpl.
    rewrite Z.rem_mod_nonneg by lia.
    pose proof (Z.mod_pos_bound (active b + 1) (slen (tabs b))) as Hm.
    repeat split; trivial; simpl; lia.
Qed.


Lemma tabRun_inRange (os : list ops.TabOp) :
  forall b : t,
    inRange b ->
    exists b', ops.tabRun os b = Some b' /\ inRange b' /\ tabs b' = tabs b.
Proof.
  induction os as [|op os IH]; intros b Hb; simpl.
  - now exists b.
  - assert (Hstep : exists b1, ops.tabStep b op = Some b1 /\ inRange b1
                               /\ tabs b1 = tabs b).
    { destruct op as [i|id|]; simpl.
      - eexists. split; [reflexivity|]. now apply SetActive_inRange.
      - eexists. split; [reflexivity|]. now apply SetActiveByID_inRange.
      - destruct (Next_inRange b Hb) as [b1 [H1 [H2 [H3 _]]]]. now exists b1. }
    destruct Hstep as [b1 [H1 [H2 H3]]]. rewrite H1.
    destruct (IH b1 H2) as [b' [H4 [H5 H6]]].
    exists b'. split; [exact H4|]. split; [exact H5|congruence].
Qed.



Lemma nextTimes_shift (k : nat) :
  forall b : t,
    inRange b ->
    ops.nextTimes k b
    = Some (mk (tabs b) ((active b + Z.of_nat k) mod slen (tabs b))).
Proof.
  induction k as [|k IH]; intros b Hb.
  - simpl. rewrite Z.add_0_r, Z.mod_small by exact Hb. now destruct b.
  - cbn [ops.nextTimes].
    destruct (Next_inRange b Hb) as [b1 [H1 [H2 [H3 H4]]]].
    rewrite H1, (IH b1 H2), H3, H4. f_equal. f_equal.
    rewrite Zplus_mod_idemp_l. f_equal. lia.
Qed.

(** C9. [Next] advances cyclically: on a bar whose active index is one of
    its [N] tabs it makes the following tab active, and the first tab after
    the last; [k] calls move the active index [k] places round the bar, and
    so [N] calls bring it back: the bar is as it was. A bar without tabs is
    left alone by zero calls. *)
Theorem Next_cycle :
  forall b : t,
    tabs b = [] \/ inRange b ->
    ops.nextTimes (List.length (tabs b)) b = Some b
    /\ (inRange b ->
        Next b
        = Some (mk (tabs b)
                  (if active b + 1 <? slen (tabs b)
                   then active b + 1 else 0))
        /\ forall k : nat,
             ops.nextTimes k b
             = Some (mk (tabs b)
                       ((active b + Z.of_nat k) mod slen (tabs b)))).
Proof.
  intros b Hb. split.
  - destruct Hb as [Hb|Hb].
    + rewrite Hb. reflexivity.
    + rewrite nextTimes_shift by exact Hb.
      fold (slen (tabs b)).
      replace (active b + slen (tabs b))
        with (active b + 1 * slen (tabs b)) by lia.
      rewrite Z_mod_plus_full, Z.mod_small by exact Hb. now destruct b.
  - intros Hr. split.
    + destruct (Next_inRange b Hr) as [b' [H1 [_ [H3 H4]]]].
      rewrite H1. f_equal. destruct b' as [ts act]. simpl in H3, H4.
      subst ts. f_equal. rewrite H4. unfold inRange in Hr.
      destruct (Z.ltb_spec (active b + 1) (slen (tabs b))) as [Hlt|Hge].
      * apply Z.mod_small. lia.
      * replace (active b + 1) with (slen (tabs b)) by lia.
        apply Z_mod_same_full.
    + intros k. now apply nextTimes_shift.
Qed.

Lemma Next_cycle_witness :
  (tabs (mk ui.tabs 5) = [] \/ inRange (mk ui.tabs 5))
  /\ ops.nextTimes 6 (mk ui.tabs 5) = Some (mk ui.tabs 5)
  /\ Next (mk ui.tabs 5) = Some (mk ui.tabs 0)
  /\ ops.nextTimes 2 (mk ui.tabs 5) = Some (mk ui.tabs 1).
Proof.
  assert (Hr : inRange (mk ui.tabs 5))
    by (vm_compute; split; [discriminate|reflexivity]).
  assert (H : tabs (mk ui.tabs 5) = [] \/ inRange (mk ui.tabs 5))
    by (right; exact Hr).
  split; [exact H|].
  split; [exact (proj1 (Next_cycle (mk ui.tabs 5) H))|].
  split.
  - exact (proj1 (proj2 (Next_cycle (mk ui.tabs 5) H) Hr)).
  - exact (proj2 (proj2 (Next_cycle (mk ui.tabs 5) H) Hr) 2%nat).
Defined.

Lemma tabRun_no_tabs (os : list ops.TabOp) :
  forall b0 b : t,
    tabs b0 = [] -> ops.tabRun os b0 = Some b -> tabs b = [].
Proof.
  induction os as [|op os IH]; intros b0 b H0; simpl.
  - intros [= <-]. exact H0.
  - destruct op as [i|id|]; simpl.
    + apply IH. unfold SetActive.
      destruct ((0 <=? i) && (i <? slen (tabs b0))); exact H0.
    + apply IH. unfold SetActiveByID.
      destruct (indexOfID id (tabs b0) 0); exact H0.
    + unfold Next. rewrite H0. discriminate.
Qed.

(** Every bar reached from [NewTabBar] comes back after as many calls of
    [Next] as it has tabs. *)
Lemma Next_cycle_reachable (ts : list components.Tab.t)
    (os : list ops.TabOp) (b : t) :
  ops.tabRun os (NewTabBar ts) = Some b ->
  ops.nextTimes (List.length (tabs b)) b = Some b.
Proof.
  intros Hrun. destruct ts as [|tab ts].
  - rewrite (tabRun_no_tabs os (NewTabBar []) b eq_refl Hrun). reflexivity.
  - assert (H0 : inRange (NewTabBar (tab :: ts))).
    { unfold inRange, NewTabBar. simpl. rewrite slen_cons.
      pose proof (slen_nonneg ts). lia. }
    destruct (tabRun_inRange os _ H0) as [b' [H1 [H2 _]]].
    assert (b' = b) by congruence. subst b'.
    rewrite nextTimes_shift by exact H2.
    fold (slen (tabs b)).
    replace (active b + slen (tabs b)) with (active b + 1 * slen (tabs b))
      by lia.
    rewrite Z_mod_plus_full, Z.mod_small by exact H2. now destruct b.
Qed.

Example Next_wraps :
  Next (mk ui.tabs 5) = Some (mk ui.tabs 0).
Proof. reflexivity. Qed.

Example Next_empty_bar : Next (NewTabBar []) = None.
Proof. reflexivity. Qed.

End TabBarFacts.

(** ** The list: selection and scrolling *)

Section ListWindow.
Import components.List.
Import spec.
Context {D : Type}.
Implicit Type l : t D.

(** Case analysis on the comparisons of a goal. *)
Ltac cases :=
  repeat match goal with
         | |- context [?x <? ?y] => destruct (Z.ltb_spec x y)
         | |- context [?x <=? ?y] => destruct (Z.leb_spec x y)
         end.

Lemma adjustScroll_frame l :
  items (adjustScroll l) = items l
  /\ filtered (adjustScroll l) = filtered l
  /\ height (adjustScroll l) = height l
  /\ selected (adjustScroll l) = selected l.
Proof.
  unfold adjustScroll. cases; simpl; cases; simpl; auto.
Qed.

Lemma activeIndices_frame l l' :
  items l' = items l -> filtered l' = filtered l ->
  activeIndices l' = activeIndices l.
Proof.
  intros Hi Hf. unfold activeIndices. now rewrite Hi, Hf.
Qed.

Lemma move_frame l (m : ops.Move) :
  height (ops.move l m) = height l
  /\ activeIndices (ops.move l m) = activeIndices l.
Proof.
  destruct m; simpl;
    unfold MoveUp, MoveDown, MoveToTop, MoveToBottom; cases; simpl; auto;
    match goal with
    | |- context [adjustScroll ?x] =>
        destruct (adjustScroll_frame x) as [Hi [Hf [Hh _]]];
        split; [rewrite Hh; reflexivity|];
        apply activeIndices_frame; [rewrite Hi|rewrite Hf]; reflexivity
    end.
Qed.

(** What [adjustScroll] establishes, in the terms of [inWindow]: given a
    selection among [n] entries and a scroll offset within bounds, the
    window contains the selection afterwards. *)
Lemma adjustScroll_window l (n : Z) :
  0 < height l ->
  0 <= selected l <= Z.max 0 (n - 1) ->
  0 <= scroll l <= Z.max 0 (n - height l) ->
  window n (height l) (scroll (adjustScroll l)) (selected (adjustScroll l)).
Proof.
  intros Hh Hs Hc. unfold window, adjustScroll.
  cases; simpl in *; cases; simpl in *; lia.
Qed.

Lemma move_inWindow l (m : ops.Move) :
  inWindow l -> inWindow (ops.move l m).
Proof.
  intros [Hh [[Hc Hs] Hn]].
  destruct (move_frame l m) as [Fh Fa].
  unfold inWindow. rewrite Fh, Fa.
  set (n := slen (activeIndices l)) in *.
  assert (Hn0 : 0 <= n) by apply slen_nonneg.
  split; [exact Hh|].
  destruct m; simpl.
  - unfold MoveUp. destruct (Z.ltb_spec 0 (selected l)).
    + set (l1 := set_selected (selected l - 1) l).
      destruct (adjustScroll_frame l1) as [_ [_ [_ Es]]].
      split.
      * apply (adjustScroll_window l1 n); simpl; lia.
      * rewrite Es. simpl. lia.
    + unfold window. lia.
  - unfold MoveDown. fold n. destruct (Z.ltb_spec (selected l) (n - 1)).
    + set (l1 := set_selected (selected l + 1) l).
      destruct (adjustScroll_frame l1) as [_ [_ [_ Es]]].
      split.
      * apply (adjustScroll_window l1 n); simpl; lia.
      * rewrite Es. simpl. lia.
    + unfold window. lia.
  - unfold MoveToTop, window. simpl. lia.
  - unfold MoveToBottom. fold n. destruct (Z.ltb_spec 0 n).
    + set (l1 := set_selected (n - 1) l).
      destruct (adjustScroll_frame l1) as [_ [_ [_ Es]]].
      split.
      * apply (adjustScroll_window l1 n); simpl; lia.
      * rewrite Es. simpl. lia.
    + unfold window. lia.
Qed.

Lemma moves_inWindow (ms : list ops.Move) :
  forall l, inWindow l -> inWindow (ops.moves ms l).
Proof.
  unfold ops.moves.
  induction ms as [|m ms IH]; intros l Hl; simpl; [exact Hl|].
  apply IH. now apply move_inWindow.
Qed.

Lemma moves_frame (ms : list ops.Move) :
  forall l,
    height (ops.moves ms l) = height l
    /\ activeIndices (ops.moves ms l) = activeIndices l.
Proof.
  unfold ops.moves.
  induction ms as [|m ms IH]; intros l; simpl; [now split|].
  destruct (IH (ops.move l m)) as [H1 H2].
  destruct (move_frame l m) as [H3 H4].
  split; congruence.
Qed.

Lemma atTop_inWindow l : 0 < height l -> atTop l -> inWindow l.
Proof.
  intros Hh [Hs Hc].
  pose proof (slen_nonneg (activeIndices l)).
  unfold inWindow, window. rewrite Hs, Hc. lia.
Qed.

(** C2. Take a list with [N] active entries and a height [H > 0] for its
    items, its selection and scroll at the top. After any sequence of
    [MoveUp], [MoveDown], [MoveToTop] and [MoveToBottom], the scroll offset
    is between [0] and [max(0, N - H)], and the selection is within the [H]
    rows from the scroll offset on. *)
Theorem List_moves_stay_in_window :
  forall (l0 : t D) (ms : list ops.Move),
    0 < height l0 ->
    atTop l0 ->
    let l := ops.moves ms l0 in
    let n := slen (activeIndices l0) in
    let h := height l0 in
    0 <= scroll l <= Z.max 0 (n - h)
    /\ scroll l <= selected l < scroll l + h.
Proof.
  intros l0 ms Hh Htop l n h.
  destruct (moves_inWindow ms l0 (atTop_inWindow l0 Hh Htop)) as [_ [Hw _]].
  destruct (moves_frame ms l0) as [Fh Fa].
  fold l in Hw, Fh, Fa. rewrite Fh, Fa in Hw. exact Hw.
Qed.

(** The same for a new list, given its items and drawn in a region that
    leaves [h] rows for them. *)
Lemma List_new_moves_stay_in_window (title : string)
    (its : list (components.ListItem.t D)) (h : Z) (ms : list ops.Move) :
  0 < h ->
  inWindow (ops.moves ms (Render (h + 3) (SetItems its (NewList title)))).
Proof.
  intros Hh. apply moves_inWindow, atTop_inWindow.
  - simpl. lia.
  - now split.
Qed.

End ListWindow.

Lemma List_moves_stay_in_window_witness :
  0 < components.List.height sample.list3
  /\ spec.atTop sample.list3
  /\ components.List.selected
       (ops.moves [ops.MoveDown; ops.MoveDown] sample.list3) = 2
  /\ components.List.scroll
       (ops.moves [ops.MoveDown; ops.MoveDown] sample.list3) = 1
  /\ 0 <= components.List.scroll
            (ops.moves [ops.MoveDown; ops.MoveDown] sample.list3)
       <= Z.max 0 (3 - 2).
Proof.
  assert (Hh : 0 < components.List.height sample.list3) by reflexivity.
  assert (Ht : spec.atTop sample.list3) by (split; reflexivity).
  split; [exact Hh|]. split; [exact Ht|].
  split; [reflexivity|]. split; [reflexivity|].
  exact (proj1 (List_moves_stay_in_window sample.list3
                  [ops.MoveDown; ops.MoveDown] Hh Ht)).
Defined.

(** ** The list: filtering *)

Section ListFilter.
Import components.List.
Context {gs : GoStrings} {D : Type}.
Implicit Type l : t D.

Lemma matching_from (query : string)
    (its : list (components.ListItem.t D)) :
  forall k : nat,
    matching (ToLower query) its (Z.of_nat k)
    = map (fun p => Z.of_nat (fst p))
        (filter (fun p => spec.labelMatches query (snd p))
           (combine (seq k (List.length its)) its)).
Proof.
  induction its as [|item its IH]; intros k; [reflexivity|].
  cbn [matching List.length seq combine filter snd].
  replace (Z.of_nat k + 1) with (Z.of_nat (S k)) by lia.
  rewrite IH. unfold spec.labelMatches.
  destruct (Contains (ToLower (components.ListItem.Label item))
              (ToLower query)); reflexivity.
Qed.

(** After [SetFilter] with a query that is not empty, [filtered] holds
    the indices of the items whose label contains the query, case set
    aside, in the order of the items. *)
Lemma SetFilter_filtered (query : string) l :
  query <> "" ->
  filtered (SetFilter query l) = Some (spec.matchingIndices query (items l))
  /\ spec.atTop (SetFilter query l).
Proof.
  intros Hq. unfold SetFilter, applyFilter. simpl.
  destruct (String.eqb_spec query ""); [contradiction|].
  simpl. split; [|now split].
  f_equal. exact (matching_from query (items l) 0).
Qed.

(** With a match, the active sequence is the sequence of the matches. *)
Lemma activeIndices_SetFilter_match (query : string) l :
  query <> "" ->
  spec.matchingIndices query (items l) <> [] ->
  activeIndices (SetFilter query l) = spec.matchingIndices query (items l).
Proof.
  intros Hq Hm. unfold activeIndices.
  rewrite (proj1 (SetFilter_filtered query l Hq)). simpl.
  destruct (spec.matchingIndices query (items l)) as [|i is_];
    [contradiction|].
  rewrite slen_cons. pose proof (slen_nonneg is_).
  destruct (Z.ltb_spec 0 (slen is_ + 1)); [reflexivity|lia].
Qed.

(** Without a match, the active sequence is the whole list. *)
Lemma activeIndices_SetFilter_no_match (query : string) l :
  query <> "" ->
  spec.matchingIndices query (items l) = [] ->
  activeIndices (SetFilter query l)
  = map Z.of_nat (seq 0 (List.length (items l))).
Proof.
  intros Hq Hm. unfold activeIndices.
  rewrite (proj1 (SetFilter_filtered query l Hq)), Hm.
  unfold SetFilter, applyFilter.
  destruct (String.eqb (filterQuery (set_filterQuery query l)) "");
    reflexivity.
Qed.

End ListFilter.

(** C3, at a query that matches no label. The list holds the labels
    alpha, Beta and gamma and is in filter mode; the query zz is in none of
    them, and [filtered] is the empty slice. The active sequence is not
    empty: [activeIndices] takes an empty [filtered] for the absence of a
    filter and returns every index. *)
Theorem filter_without_match_keeps_every_row :
  let l :=
    components.List.SetFilter (gs := sample.asciiStrings) "zz"
      (components.List.ToggleFilterMode sample.list3) in
  components.List.IsFilterMode l = true
  /\ spec.matchingIndices (gs := sample.asciiStrings) "zz"
       (components.List.items l) = []
  /\ components.List.filtered l = Some []
  /\ components.List.activeIndices l = [0; 1; 2].
Proof.
  repeat split.
Qed.

(** The same through the keys of a view: f enters filter mode, z is the
    query. *)
Example filter_without_match_in_view :
  let key := terminal.mkKey terminal.KeyRune in
  let v1 :=
    snd (views.PipelinesView.HandleKey (gs := sample.asciiStrings)
           (key (chr "f")) sample.pipelines3) in
  let v2 :=
    snd (views.PipelinesView.HandleKey (gs := sample.asciiStrings)
           (key (chr "z")) v1) in
  views.PipelinesView.IsFilterMode v2 = true
  /\ components.List.FilterQuery (views.PipelinesView.list v2) = "z"
  /\ components.List.activeIndices (views.PipelinesView.list v2) = [0; 1; 2].
Proof.
  repeat split.
Qed.

Example filter_with_match :
  components.List.activeIndices
    (components.List.SetFilter (gs := sample.asciiStrings) "BET"
       (components.List.ToggleFilterMode sample.list3)) = [1].
Proof. reflexivity. Qed.

(** ** The controller: refresh *)

Section Refresh.
Import ui.
Context {co : Collab}.

(** C4. In a refresh in which the fetch of the builds fails and the four
    others succeed, the builds stay as they were, the work items, the
    pipelines, the repositories and the pull requests are the ones
    fetched, the refresh time is stamped on the snapshot and on the status
    bar, and the status message is "Data refreshed". *)
Theorem refreshData_builds_fail :
  forall (a : App) (its : list WorkItem) (ps : list Pipeline)
         (rs : list Repository) (qs : list PullRequest) (err : string)
         (t1 t2 : Time),
    let a' :=
      refreshData
        (mkRefresh (Fetched its) (FetchError err) (Fetched ps) (Fetched rs)
           (Fetched qs) t1 t2) a in
    builds a' = builds a
    /\ workItems a' = its
    /\ pipelineList a' = ps
    /\ repoList a' = rs
    /\ prList a' = qs
    /\ lastRefresh a' = t1
    /\ components.StatusBar.lastRefresh (statusBar a') = t1
    /\ components.StatusBar.message (statusBar a') = "Data refreshed"
    /\ loading a' = false.
Proof.
  intros. repeat split.
Qed.

(** Whatever the five fetches return, a refresh leaves a field of the
    snapshot alone when its fetch fails. *)
Lemma refreshData_keeps_failed (r : Refresh) (a : App) :
  (forall e, gotWorkItems r = FetchError e ->
             workItems (refreshData r a) = workItems a)
  /\ (forall e, gotBuilds r = FetchError e ->
                builds (refreshData r a) = builds a)
  /\ (forall e, gotPipelines r = FetchError e ->
                pipelineList (refreshData r a) = pipelineList a)
  /\ (forall e, gotRepositories r = FetchError e ->
                repoList (refreshData r a) = repoList a)
  /\ (forall e, gotPullRequests r = FetchError e ->
                prList (refreshData r a) = prList a).
Proof.
  unfold refreshData.
  repeat split; intros e He; rewrite He;
    destruct (gotWorkItems r), (gotBuilds r), (gotPipelines r),
      (gotRepositories r), (gotPullRequests r); reflexivity.
Qed.

End Refresh.

(** ** The controller: dispatch *)

Section Dispatch.
Import terminal.
Import views.
Import ui.
Context {gs : GoStrings} {co : Collab}.

Lemma currentView_setActiveTab (id : string) (a : App) :
  currentView (setActiveTab id a) = currentView a.
Proof. reflexivity. Qed.

Lemma currentView_switchToView (id : ViewID) (a : App) :
  id <> ViewEmpty ->
  currentView (switchToView id a) = id.
Proof.
  intros Hid. unfold switchToView.
  destruct (ViewID_eqb (currentView a) id) eqn:E.
  - destruct (currentView a), id; try discriminate E; reflexivity.
  - destruct id; try contradiction;
      destruct (currentView a); try discriminate E; reflexivity.
Qed.

(** C6. Escape leads from the Copilot view to the Dashboard, whatever
    the previous view and the rest of the state are; from a detail view to
    the recorded previous view; and from any other view nowhere. *)
Theorem escape_target :
  forall (now : Time) (r : Z) (a : App),
    exists a',
      handleInput now (mkKey KeyEscape r) a = Some a'
      /\ currentView a'
         = match currentView a with
           | ViewCopilot => ViewDashboard
           | ViewWorkItemDetail | ViewPRDetail => previousView a
           | v => v
           end.
Proof.
  intros now r a. unfold handleInput, isDetailView. simpl.
  destruct (currentView a) eqn:E; simpl;
    try (eexists; split; [reflexivity|]; simpl; now rewrite ?E).
  eexists. split; [reflexivity|].
  apply currentView_switchToView. discriminate.
Qed.

(** Escape outside the Copilot view and the detail views changes
    nothing at all. *)
Lemma escape_elsewhere (now : Time) (r : Z) (a : App) :
  currentView a <> ViewCopilot ->
  isDetailView a = false ->
  handleInput now (mkKey KeyEscape r) a = Some a.
Proof.
  intros Hc Hd. unfold handleInput. simpl. rewrite Hd.
  destruct (currentView a); try reflexivity. contradiction.
Qed.

(** C7. A printable character goes to the key handler of the current
    view first: when the handler takes it, the dispatch ends with the state
    the handler left, and no global shortcut is applied. In the Copilot
    view the letter r is appended to the input; nothing else changes, no
    refresh is launched and the status message stays. *)
Theorem view_has_first_refusal :
  forall (now : Time) (a : App),
    (forall (r : Z) (a1 : App),
        HandleKey (getCurrentView a) now (mkKey KeyRune r) a = (true, a1) ->
        handleInput now (mkKey KeyRune r) a = Some a1)
    /\ (currentView a = ViewCopilot ->
        exists a',
          handleInput now (mkKey KeyRune (chr "r")) a = Some a'
          /\ components.Input.value (CopilotView.input (copilot a'))
             = (components.Input.value (CopilotView.input (copilot a))
                ++ "r")%string
          /\ a' = set_copilot (copilot a') a
          /\ launched a' = launched a
          /\ statusBar a' = statusBar a
          /\ running a' = running a
          /\ currentView a' = ViewCopilot).
Proof.
  intros now a. split.
  - intros r a1 Hk. unfold handleInput. simpl. now rewrite Hk.
  - intros Hc. unfold handleInput, getCurrentView. rewrite Hc. simpl.
    eexists. split; [reflexivity|]. simpl. repeat split. exact Hc.
Qed.

(** A switch through [switchToView] calls [OnExit] on the view that is
    left, then [OnEnter] on the view that is entered, and nothing else. *)
Lemma switchToView_calls (id : ViewID) (a : App) :
  id <> ViewEmpty ->
  currentView a <> id ->
  calls (switchToView id a)
  = calls a ++ [OnExitCall (ID (getCurrentView a)); OnEnterCall id].
Proof.
  intros Hid Hne. unfold switchToView.
  destruct (ViewID_eqb (currentView a) id) eqn:E.
  - destruct (currentView a), id; try discriminate E; contradiction.
  - unfold getCurrentView.
    destruct id; try contradiction;
      destruct (currentView a); try discriminate E;
      simpl; rewrite <- app_assoc; reflexivity.
Qed.

(** The two ways into a detail view and the two ways out call
    neither. *)
Lemma showWorkItemDetail_calls (item : WorkItem) (a : App) :
  calls (showWorkItemDetail item a) = calls a.
Proof. reflexivity. Qed.

Lemma showPRDetail_calls (pr : PullRequest) (a : App) :
  calls (showPRDetail pr a) = calls a.
Proof. reflexivity. Qed.

Lemma leave_detail_calls (now : Time) (r : Z) (a : App) :
  isDetailView a = true ->
  handleInput now (mkKey KeyEscape r) a
  = Some (set_currentView (previousView a) a)
  /\ handleInput now (mkKey KeyRune (chr "b")) a
     = Some (set_currentView (previousView a) a).
Proof.
  intros Hd. unfold handleInput. simpl. rewrite Hd. split; [reflexivity|].
  unfold isDetailView in Hd. unfold getCurrentView.
  destruct (currentView a) eqn:E; try discriminate Hd;
    simpl; unfold globalKeys, isDetailView; simpl; rewrite E; reflexivity.
Qed.

End Dispatch.

(** Dashboard, Boards, Copilot, then Escape: the Dashboard is current,
    not the Boards view that came before the Copilot view. *)
Example escape_from_copilot_through_boards :
  exists a b,
    ui.loop (gs := sample.asciiStrings) (firstn 2 sample.throughBoards)
      sample.started = Some a
    /\ ui.currentView a = views.ViewCopilot
    /\ ui.previousView a = views.ViewBoards
    /\ ui.loop (gs := sample.asciiStrings) sample.throughBoards
         sample.started = Some b
    /\ ui.currentView b = views.ViewDashboard.
Proof.
  eexists. eexists.
  split; [vm_compute; reflexivity|].
  split; [reflexivity|]. split; [reflexivity|].
  split; [vm_compute; reflexivity|]. reflexivity.
Qed.

Lemma view_has_first_refusal_witness :
  ui.currentView sample.inCopilot = views.ViewCopilot
  /\ exists a',
       ui.handleInput (gs := sample.asciiStrings) 7
         (terminal.mkKey terminal.KeyRune (chr "r")) sample.inCopilot
       = Some a'
       /\ components.Input.value (views.CopilotView.input (ui.copilot a'))
          = (components.Input.value
               (views.CopilotView.input (ui.copilot sample.inCopilot))
             ++ "r")%string
       /\ a' = ui.set_copilot (ui.copilot a') sample.inCopilot
       /\ ui.launched a' = ui.launched sample.inCopilot
       /\ ui.statusBar a' = ui.statusBar sample.inCopilot
       /\ ui.running a' = ui.running sample.inCopilot
       /\ ui.currentView a' = views.ViewCopilot.
Proof.
  split; [reflexivity|].
  apply (view_has_first_refusal (gs := sample.asciiStrings) 7
           sample.inCopilot).
  reflexivity.
Defined.

(** C5, at the two transitions of a detail view. The application shows
    one work item; the reads are the key 2, Enter, Escape and a read
    error. Enter in the Boards view makes the work-item detail view current
    and Escape makes the Boards view current again, and the calls show
    [OnExit] and [OnEnter] for the switch to the Boards view only: the
    detail view is rendered without a call of its [OnEnter], the Boards
    view is left and entered again without a call of its hooks. *)
Theorem detail_view_without_hooks :
  exists a b,
    ui.loop (gs := sample.asciiStrings) (firstn 2 sample.openAndClose)
      sample.started = Some a
    /\ ui.currentView a = views.ViewWorkItemDetail
    /\ ui.previousView a = views.ViewBoards
    /\ ui.loop (gs := sample.asciiStrings) sample.openAndClose
         sample.started = Some b
    /\ ui.currentView b = views.ViewBoards
    /\ ui.calls b
       = [ ui.RenderCall views.ViewDashboard;
           ui.OnExitCall views.ViewDashboard;
           ui.OnEnterCall views.ViewBoards;
           ui.RenderCall views.ViewBoards;
           ui.RenderCall views.ViewWorkItemDetail;
           ui.RenderCall views.ViewBoards ].
Proof.
  eexists. eexists.
  split; [vm_compute; reflexivity|].
  split; [reflexivity|]. split; [reflexivity|].
  split; [vm_compute; reflexivity|].
  split; reflexivity.
Qed.

(** * Further properties *)

(** ** Strings *)

Lemma len_nonneg (s : string) : 0 <= len s.
Proof.
  unfold len. lia.
Qed.

Lemma len_append (s t : string) : len (s ++ t)%string = len s + len t.
Proof.
  unfold len. rewrite <- Nat2Z.inj_add. f_equal.
  induction s as [|c s IH]; simpl; [reflexivity|now rewrite IH].
Qed.

Lemma len_blanks (n : nat) :
  len (string_of_list_ascii (repeat " "%char n)) = Z.of_nat n.
Proof.
  unfold len. f_equal.
  induction n as [|n IH]; simpl; [reflexivity|now rewrite IH].
Qed.

Lemma slice_to_panics (s : string) (k : Z) :
  slice_to s k = None <-> k < 0 \/ len s < k.
Proof.
  unfold slice_to.
  destruct (Z.leb_spec 0 k), (Z.leb_spec k (len s)); simpl;
    split; intros; try discriminate; try reflexivity; lia.
Qed.

Lemma append_assoc (s t u : string) :
  ((s ++ t) ++ u = s ++ (t ++ u))%string.
Proof.
  induction s as [|c s IH]; simpl; [reflexivity|now rewrite IH].
Qed.

Lemma append_empty_r (s : string) : (s ++ "")%string = s.
Proof.
  induction s as [|c s IH]; simpl; [reflexivity|now rewrite IH].
Qed.

Lemma drop_last_append_byte (s : string) (c : ascii) :
  drop_last (s ++ String c "") = s.
Proof.
  induction s as [|d s IH]; [reflexivity|].
  simpl. rewrite IH. destruct s; reflexivity.
Qed.

(** ** Padding and truncation *)

Section Widths.
Import terminal.

(** X1. [Pad] panics exactly for a negative width; otherwise its result
    is [width] bytes long: the text followed by as many blanks as it is
    short of the width, or the first [width] bytes of the text. *)
Theorem Pad_exact_width :
  forall (s : string) (width : Z),
    (Pad s width = None <-> width < 0)
    /\ (forall r : string,
          Pad s width = Some r ->
          len r = width
          /\ ((len s < width
               /\ r = (s ++ string_of_list_ascii
                              (repeat " "%char
                                 (Z.to_nat (width - len s))))%string)
              \/ (width <= len s
                  /\ exists rest, s = (r ++ rest)%string))).
Proof.
  intros s width. pose proof (len_nonneg s) as Hs. unfold Pad.
  destruct (Z.leb_spec width (len s)) as [Hle|Hgt].
  - split.
    + rewrite slice_to_panics. lia.
    + intros r Hr.
      destruct (Z.leb_spec 0 width) as [H0|H0].
      * destruct (slice_to_head s width) as [head [rest [Hh [Hsp Hl]]]];
          [lia|].
        rewrite Hh in Hr. injection Hr as <-.
        split; [exact Hl|]. right. split; [exact Hle|]. now exists rest.
      * assert (Hn : slice_to s width = None)
          by (apply slice_to_panics; lia).
        rewrite Hn in Hr. discriminate.
  - split.
    + split; [discriminate|lia].
    + intros r [= <-]. split.
      * rewrite len_append, len_blanks. lia.
      * left. split; [lia|reflexivity].
Qed.

Lemma Pad_exact_width_witness :
  Pad "apo" 5 = Some "apo  "
  /\ len "apo  " = 5
  /\ ((len "apo" < 5
       /\ "apo  "
          = ("apo" ++ string_of_list_ascii
                        (repeat " "%char (Z.to_nat (5 - len "apo"))))%string)
      \/ (5 <= len "apo"
          /\ exists rest, "apo" = ("apo  " ++ rest)%string)).
Proof.
  split; [reflexivity|].
  apply (proj2 (Pad_exact_width "apo" 5)). reflexivity.
Defined.

(** X2. [Truncate] panics exactly for a negative [max]; otherwise its
    result is at most [max] bytes long, and is the whole text exactly when
    the text has at most [max] bytes. *)
Theorem Truncate_within_max :
  forall (s : string) (max : Z),
    (Truncate s max = None <-> max < 0)
    /\ (forall r : string,
          Truncate s max = Some r ->
          len r <= max /\ (r = s <-> len s <= max)).
Proof.
  intros s max. pose proof (len_nonneg s) as Hs. unfold Truncate.
  destruct (Z.leb_spec (len s) max) as [Hle|Hgt].
  - split; [split; [discriminate|lia]|].
    intros r [= <-]. split; [exact Hle|]. tauto.
  - destruct (Z.leb_spec max 3) as [H3|H3].
    + split; [rewrite slice_to_panics; lia|].
      intros r Hr.
      destruct (Z.leb_spec 0 max) as [H0|H0].
      * destruct (slice_to_head s max) as [head [rest [Hh [Hsp Hl]]]];
          [lia|].
        rewrite Hh in Hr. injection Hr as <-.
        split; [lia|]. split; [intros E; rewrite E in Hl; lia|lia].
      * assert (Hn : slice_to s max = None)
          by (apply slice_to_panics; lia).
        rewrite Hn in Hr. discriminate.
    + destruct (slice_to_head s (max - 3)) as [head [rest [Hh [Hsp Hl]]]];
        [lia|].
      rewrite Hh. simpl. split; [split; [discriminate|lia]|].
      intros r [= <-].
      assert (Hd : len (head ++ "...")%string = max)
        by (rewrite len_append, Hl; unfold len; simpl; lia).
      split; [lia|]. split; [intros E; rewrite E in Hd; lia|lia].
Qed.

Lemma Truncate_within_max_witness :
  Truncate "pipelines" 7 = Some "pipe..."
  /\ len "pipe..." <= 7
  /\ ("pipe..." = "pipelines" <-> len "pipelines" <= 7).
Proof.
  split; [reflexivity|].
  apply (proj2 (Truncate_within_max "pipelines" 7)). reflexivity.
Defined.

(** X3. The [truncate] of the query interpreter has no case for a small
    [max]: it panics exactly when the text is longer than [max] and
    [max < 3]. It returns what [terminal.Truncate] returns whenever
    [max > 3], and a result of at most [max] bytes whenever [max >= 3]. *)
Theorem agent_truncate_and_Truncate :
  forall (s : string) (max : Z),
    (agent.truncate s max = None <-> max < len s /\ max < 3)
    /\ (3 < max -> agent.truncate s max = Truncate s max)
    /\ (forall r : string,
          3 <= max -> agent.truncate s max = Some r -> len r <= max).
Proof.
  intros s max. pose proof (len_nonneg s) as Hs.
  unfold agent.truncate, Truncate.
  destruct (Z.leb_spec (len s) max) as [Hle|Hgt].
  - split; [split; [discriminate|lia]|].
    split; [reflexivity|]. intros r _ [= <-]. exact Hle.
  - split; [|split].
    + destruct (slice_to s (max - 3)) as [p|] eqn:E; simpl.
      * split; [discriminate|]. intros [_ H3].
        assert (Hn : slice_to s (max - 3) = None)
          by (apply slice_to_panics; lia).
        congruence.
      * apply slice_to_panics in E. split; [lia|reflexivity].
    + intros H3. destruct (Z.leb_spec max 3); [lia|reflexivity].
    + intros r H3 Hr.
      destruct (slice_to_head s (max - 3)) as [head [rest [Hh [Hsp Hl]]]];
        [lia|].
      rewrite Hh in Hr. simpl in Hr. injection Hr as <-.
      rewrite len_append, Hl. unfold len. simpl. lia.
Qed.

Lemma agent_truncate_and_Truncate_witness :
  (3 < 50 /\ agent.truncate "Fix login" 50 = Truncate "Fix login" 50)
  /\ (3 <= 3 /\ agent.truncate "Fix login" 3 = Some "..."
      /\ len "..." <= 3)
  /\ agent.truncate "Fix login" 2 = None
  /\ Truncate "Fix login" 3 = Some "Fix".
Proof.
  pose proof (agent_truncate_and_Truncate "Fix login" 50) as H50.
  pose proof (agent_truncate_and_Truncate "Fix login" 3) as H3.
  pose proof (agent_truncate_and_Truncate "Fix login" 2) as H2.
  split; [split; [lia|apply H50; lia]|].
  split; [split; [lia|split; [reflexivity|]]|].
  - apply (proj2 (proj2 H3) "..."); [lia|reflexivity].
  - split; [|reflexivity]. apply (proj1 H2). vm_compute. split; reflexivity.
Defined.

End Widths.

(** ** The text input *)

Section InputFacts.
Import components.Input.

Lemma string_of_rune_ascii (c : Z) :
  0 <= c < 0x80 -> string_of_rune c = String (byte_chr c) "".
Proof.
  intros Hc. unfold string_of_rune.
  destruct (Z.ltb_spec c 0); [lia|].
  destruct (Z.ltb_spec 0x10FFFF c); [lia|].
  destruct (Z.leb_spec 0xD800 c); [lia|]. simpl.
  destruct (Z.ltb_spec c 0x80); [reflexivity|lia].
Qed.

Lemma string_of_rune_two_bytes (c : Z) :
  0x80 <= c < 0x800 ->
  string_of_rune c
  = String (byte_chr (Z.lor 0xC0 (Z.shiftr c 6)))
      (String (byte_chr (Z.lor 0x80 (Z.land c 0x3F))) "").
Proof.
  intros Hc. unfold string_of_rune.
  destruct (Z.ltb_spec c 0); [lia|].
  destruct (Z.ltb_spec 0x10FFFF c); [lia|].
  destruct (Z.leb_spec 0xD800 c); [lia|]. simpl.
  destruct (Z.ltb_spec c 0x80); [lia|].
  destruct (Z.ltb_spec c 0x800); [reflexivity|lia].
Qed.

(** X4. [Backspace] undoes the [InsertChar] of an ASCII character: the
    input is as it was. *)
Theorem Backspace_undoes_ascii :
  forall (c : Z) (i : t),
    0 <= c < 0x80 -> Backspace (InsertChar c i) = i.
Proof.
  intros c i Hc. unfold Backspace, InsertChar. simpl.
  rewrite (string_of_rune_ascii c Hc), len_append.
  pose proof (len_nonneg (value i)).
  destruct (Z.ltb_spec 0 (len (value i) + len (String (byte_chr c) "")))
    as [_|Hn].
  - rewrite drop_last_append_byte. now destruct i.
  - unfold len in Hn at 2. simpl in Hn. lia.
Qed.

Lemma Backspace_undoes_ascii_witness :
  0 <= chr "r" < 0x80
  /\ Backspace (InsertChar (chr "r") (mk "help" "apo> " true))
     = mk "help" "apo> " true.
Proof.
  assert (H : 0 <= chr "r" < 0x80)
    by (vm_compute; split; [discriminate|reflexivity]).
  split; [exact H|]. exact (Backspace_undoes_ascii _ _ H).
Defined.

(** X5. [Backspace] removes one byte, not one character: after the
    [InsertChar] of a rune from U+0080 to U+07FF, which is two bytes long,
    it leaves the first of the two bytes in the input. *)
Theorem Backspace_splits_two_bytes :
  forall (c : Z) (i : t),
    0x80 <= c < 0x800 ->
    value (Backspace (InsertChar c i))
    = (value i ++ String (byte_chr (Z.lor 0xC0 (Z.shiftr c 6))) "")%string
    /\ len (value (Backspace (InsertChar c i))) = len (value i) + 1.
Proof.
  intros c i Hc. unfold Backspace, InsertChar. simpl.
  rewrite (string_of_rune_two_bytes c Hc).
  set (b1 := byte_chr (Z.lor 0xC0 (Z.shiftr c 6))).
  set (b2 := byte_chr (Z.lor 0x80 (Z.land c 0x3F))).
  replace (value i ++ String b1 (String b2 ""))%string
    with ((value i ++ String b1 "") ++ String b2 "")%string
    by (rewrite append_assoc; reflexivity).
  pose proof (len_nonneg (value i ++ String b1 "")) as Hn.
  rewrite (len_append (value i ++ String b1 "")).
  destruct (Z.ltb_spec 0 (len (value i ++ String b1 "") + len (String b2 "")))
    as [_|Hz].
  - simpl. rewrite drop_last_append_byte. split; [reflexivity|].
    rewrite len_append. reflexivity.
  - unfold len in Hz at 2. simpl in Hz. lia.
Qed.

Lemma Backspace_splits_two_bytes_witness :
  0x80 <= 233 < 0x800
  /\ value (Backspace (InsertChar 233 (mk "caf" "apo> " true)))
     = ("caf" ++ String (byte_chr (Z.lor 0xC0 (Z.shiftr 233 6))) "")%string
  /\ len (value (Backspace (InsertChar 233 (mk "caf" "apo> " true))))
     = len "caf" + 1.
Proof.
  assert (H : 0x80 <= 233 < 0x800) by lia.
  split; [exact H|]. exact (Backspace_splits_two_bytes 233 _ H).
Defined.

End InputFacts.

(** ** The Copilot view *)

Section CopilotFacts.
Import views.
Import views.CopilotView.
Context {gs : GoStrings} {co : Collab}.

Lemma fold_left_append {A B : Type} (f : B -> A) (xs : list B) :
  forall h : list A,
    fold_left (fun h x => h ++ [f x]) xs h = h ++ map f xs.
Proof.
  induction xs as [|x xs IH]; intros h; simpl.
  - now rewrite app_nil_r.
  - rewrite IH, <- app_assoc. reflexivity.
Qed.

Lemma fold_left_append_lines {A : Type} (f : string -> A)
    (xs : list string) :
  forall h : list A,
    fold_left (fun h x => if String.eqb x "" then h else h ++ [f x]) xs h
    = h ++ map f (filter (fun x => negb (String.eqb x "")) xs).
Proof.
  induction xs as [|x xs IH]; intros h; simpl.
  - now rewrite app_nil_r.
  - rewrite IH. destruct (String.eqb x ""); simpl; [reflexivity|].
    rewrite <- app_assoc. reflexivity.
Qed.

(** X6. [submit] does nothing when the input is blank. Otherwise it
    empties the input and only appends to the history: the trimmed query as
    the message of the user, the answer of the interpreter, and then
    messages of the interpreter none of which is empty (a blank line of the
    formatted data is skipped). *)
Theorem submit_appends :
  forall (now : Time) (v : t),
    let q := TrimSpace (components.Input.Value (input v)) in
    (q = "" -> submit now v = v)
    /\ (q <> "" ->
        components.Input.value (input (submit now v)) = ""
        /\ exists more,
             history (submit now v)
             = history v
               ++ CopilotMessage.mk true q now
                  :: CopilotMessage.mk false (agent.Message (Ask q)) now
                  :: more
             /\ Forall (fun m => CopilotMessage.IsUser m = false
                                 /\ CopilotMessage.Content m <> "") more).
Proof.
  intros now v q. unfold submit. fold q. split.
  - intros ->. reflexivity.
  - intros Hq. destruct (String.eqb_spec q ""); [contradiction|].
    simpl. split; [reflexivity|].
    rewrite fold_left_append.
    set (sugg := map _ (agent.Suggestions (Ask q))).
    assert (Hs : Forall (fun m => CopilotMessage.IsUser m = false
                                  /\ CopilotMessage.Content m <> "") sugg).
    { apply Forall_map, Forall_forall. intros s _. simpl.
      split; [reflexivity|discriminate]. }
    destruct (agent.Data (Ask q)) as [d|].
    + rewrite fold_left_append_lines.
      exists (sugg ++ map (fun x => CopilotMessage.mk false x now)
                        (filter (fun x => negb (String.eqb x ""))
                           (splitLines (FormatResult d) ""))).
      split.
      * rewrite <- !app_assoc. reflexivity.
      * apply Forall_app. split; [exact Hs|].
        apply Forall_map, Forall_forall. intros x Hx. simpl.
        apply filter_In in Hx. destruct Hx as [_ Hx].
        split; [reflexivity|].
        destruct (String.eqb_spec x ""); [discriminate|assumption].
    + exists sugg. split; [|exact Hs].
      rewrite <- !app_assoc. reflexivity.
Qed.

End CopilotFacts.

Lemma submit_appends_witness :
  let v := views.CopilotView.mk
             (components.Input.mk " builds " "apo> " true) [] in
  TrimSpace (GoStrings := sample.asciiStrings)
    (components.Input.Value (views.CopilotView.input v)) <> ""
  /\ components.Input.value
       (views.CopilotView.input
          (views.CopilotView.submit (gs := sample.asciiStrings)
             (co := sample.titles) 9 v)) = ""
  /\ exists more,
       views.CopilotView.history
         (views.CopilotView.submit (gs := sample.asciiStrings)
             (co := sample.titles) 9 v)
       = views.CopilotView.history v
         ++ views.CopilotMessage.mk true "builds" 9
            :: views.CopilotMessage.mk false "Done" 9 :: more
       /\ Forall (fun m => views.CopilotMessage.IsUser m = false
                           /\ views.CopilotMessage.Content m <> "") more.
Proof.
  intros v.
  assert (Hq : TrimSpace (GoStrings := sample.asciiStrings)
                 (components.Input.Value (views.CopilotView.input v)) <> "")
    by discriminate.
  split; [exact Hq|].
  exact (proj2 (submit_appends (gs := sample.asciiStrings)
                  (co := sample.titles) 9 v) Hq).
Defined.

(** ** Wrapping of text *)

Section Wrapping.
Import details.

Lemma concat_cons2 (sep x y : string) (rest : list string) :
  concat sep (x :: y :: rest) = (x ++ sep ++ concat sep (y :: rest))%string.
Proof. reflexivity. Qed.

Lemma concat_merge (x y : string) (B : list string) :
  forall A : list string,
    concat " " (A ++ (x ++ " " ++ y)%string :: B)
    = concat " " (A ++ x :: y :: B).
Proof.
  induction A as [|a A IH].
  - simpl app. rewrite concat_cons2. destruct B as [|b B].
    + reflexivity.
    + rewrite !concat_cons2, !append_assoc. reflexivity.
  - destruct A as [|a' A].
    + simpl app in *. rewrite !concat_cons2. now rewrite IH.
    + simpl app in *. rewrite !(concat_cons2 _ a). now rewrite IH.
Qed.

Lemma wrapLoop_keeps_words (width : Z) (words : list string) :
  forall (cur : string) (lines lines' : list string) (cur' : string),
    wrapLoop width words cur lines = (lines', cur') ->
    concat " " (lines' ++ [cur']) = concat " " (lines ++ cur :: words).
Proof.
  induction words as [|w words IH]; intros cur lines lines' cur'; simpl.
  - intros [= <- <-]. reflexivity.
  - destruct (len cur + 1 + len w <=? width); intros Hl; apply IH in Hl.
    + rewrite Hl. apply concat_merge.
    + rewrite Hl, <- app_assoc. reflexivity.
Qed.

Lemma wrapLoop_last_not_empty (width : Z) (words : list string) :
  forall (cur : string) (lines lines' : list string) (cur' : string),
    Forall (fun w => w <> "") words ->
    cur <> "" ->
    wrapLoop width words cur lines = (lines', cur') ->
    cur' <> "".
Proof.
  induction words as [|w words IH]; intros cur lines lines' cur' Hw Hc; simpl.
  - intros [= _ <-]. exact Hc.
  - inversion Hw as [|? ? Hw1 Hw2]; subst.
    destruct (len cur + 1 + len w <=? width); intros Hl.
    + apply (IH _ _ _ _ Hw2) in Hl; [exact Hl|].
      destruct cur; [contradiction|discriminate].
    + apply (IH _ _ _ _ Hw2) in Hl; [exact Hl|exact Hw1].
Qed.

(** X7. [wrapText] loses no word and adds none: when no field is empty,
    as for the fields that [strings.Fields] returns, the lines joined by
    single blanks are the fields joined by single blanks. *)
Theorem wrapText_keeps_words :
  forall (Fields : string -> list string) (text : string) (width : Z),
    Forall (fun w => w <> "") (Fields text) ->
    concat " " (wrapText Fields text width) = concat " " (Fields text).
Proof.
  intros Fields text width Hw. unfold wrapText, wrapWords.
  destruct (Fields text) as [|first rest]; [reflexivity|].
  inversion Hw as [|? ? H1 H2]; subst.
  destruct (wrapLoop width rest first []) as [lines cur] eqn:E.
  pose proof (wrapLoop_last_not_empty _ _ _ _ _ _ H2 H1 E) as Hc.
  destruct (String.eqb_spec cur ""); [contradiction|].
  exact (wrapLoop_keeps_words _ _ _ _ _ _ E).
Qed.

Lemma wrapText_keeps_words_witness :
  Forall (fun w => w <> "")
    (sample.asciiFields "fix  the login page")
  /\ wrapText sample.asciiFields "fix  the login page" 9
     = ["fix the"; "login"; "page"]
  /\ concat " " (wrapText sample.asciiFields "fix  the login page" 9)
     = concat " " (sample.asciiFields "fix  the login page").
Proof.
  assert (H : Forall (fun w => w <> "")
                (sample.asciiFields "fix  the login page"))
    by (vm_compute; repeat (apply Forall_cons; [discriminate|]);
        apply Forall_nil).
  split; [exact H|]. split; [reflexivity|].
  exact (wrapText_keeps_words sample.asciiFields _ 9 H).
Defined.

Lemma wrapLoop_lines_fit (width : Z) (all : list string)
    (words : list string) :
  forall (cur : string) (lines lines' : list string) (cur' : string),
    (forall w, In w words -> In w all) ->
    (forall l, In l (lines ++ [cur]) -> len l <= width \/ In l all) ->
    wrapLoop width words cur lines = (lines', cur') ->
    forall l, In l (lines' ++ [cur']) -> len l <= width \/ In l all.
Proof.
  induction words as [|w words IH];
    intros cur lines lines' cur' Hin Hok; simpl.
  - intros [= <- <-]. exact Hok.
  - destruct (Z.leb_spec (len cur + 1 + len w) width) as [Hfit|Hno];
      intros Hl; (eapply IH; [| |exact Hl]).
    + intros w' Hw'. apply Hin. now right.
    + intros l Hl'. apply in_app_or in Hl'. destruct Hl' as [Hl'|[<-|[]]].
      * apply Hok. apply in_or_app. now left.
      * left. rewrite len_append.
        change (String " " w) with (" " ++ w)%string.
        rewrite len_append. change (len " ") with 1. lia.
    + intros w' Hw'. apply Hin. now right.
    + intros l Hl'. apply in_app_or in Hl'. destruct Hl' as [Hl'|[<-|[]]].
      * apply Hok. exact Hl'.
      * right. apply Hin. now left.
Qed.

(** X8. Every line that [wrapText] returns fits the width, but for a
    line made of one field that is itself longer than the width. *)
Theorem wrapText_lines_fit :
  forall (Fields : string -> list string) (text : string) (width : Z)
         (line : string),
    In line (wrapText Fields text width) ->
    len line <= width \/ (In line (Fields text) /\ width < len line).
Proof.
  intros Fields text width line. unfold wrapText, wrapWords.
  destruct (Fields text) as [|first rest]; [intros []|].
  destruct (wrapLoop width rest first []) as [lines cur] eqn:E.
  intros Hin.
  assert (Hall : In line (lines ++ [cur])).
  { destruct (String.eqb cur ""); [|exact Hin].
    apply in_or_app. now left. }
  destruct (wrapLoop_lines_fit width (first :: rest) rest first [] lines cur)
    with (l := line) as [Hfit|Hword]; trivial.
  - intros w Hw. now right.
  - intros l [<-|[]]. right. now left.
  - now left.
  - destruct (Z.leb_spec (len line) width); [now left|right; now split].
Qed.

Lemma wrapText_lines_fit_witness :
  In "authentication" (wrapText sample.asciiFields "fix authentication" 9)
  /\ (len "authentication" <= 9
      \/ (In "authentication" (sample.asciiFields "fix authentication")
          /\ 9 < len "authentication")).
Proof.
  assert (H : In "authentication"
                (wrapText sample.asciiFields "fix authentication" 9))
    by (right; left; reflexivity).
  split; [exact H|].
  exact (wrapText_lines_fit sample.asciiFields _ 9 _ H).
Defined.

End Wrapping.

(** ** The list: the selected item *)

Section ListSelection.
Import components.List.
Context {D : Type}.
Implicit Type l : t D.

Ltac cases :=
  repeat match goal with
         | |- context [?x <? ?y] => destruct (Z.ltb_spec x y)
         | |- context [?x <=? ?y] => destruct (Z.leb_spec x y)
         end.

(** The selection is an entry of the active sequence, or 0. *)
Lemma move_selected_range l (m : ops.Move) :
  0 <= selected l <= Z.max 0 (slen (activeIndices l) - 1) ->
  0 <= selected (ops.move l m)
  <= Z.max 0 (slen (activeIndices (ops.move l m)) - 1).
Proof.
  intros Hs. destruct (move_frame l m) as [_ Fa]. rewrite Fa.
  pose proof (slen_nonneg (activeIndices l)) as Hn.
  destruct m; simpl;
    unfold MoveUp, MoveDown, MoveToTop, MoveToBottom; cases; simpl;
    try lia;
    match goal with
    | |- context [adjustScroll ?x] =>
        destruct (adjustScroll_frame x) as [_ [_ [_ Es]]];
        rewrite Es; simpl; lia
    end.
Qed.

Lemma move_items l (m : ops.Move) :
  items (ops.move l m) = items l /\ filtered (ops.move l m) = filtered l.
Proof.
  destruct m; simpl;
    unfold MoveUp, MoveDown, MoveToTop, MoveToBottom; cases; simpl; auto;
    match goal with
    | |- context [adjustScroll ?x] =>
        destruct (adjustScroll_frame x) as [Hi [Hf _]];
        rewrite Hi, Hf; auto
    end.
Qed.

Lemma moves_selected_range (ms : list ops.Move) :
  forall l,
    0 <= selected l <= Z.max 0 (slen (activeIndices l) - 1) ->
    items (ops.moves ms l) = items l
    /\ activeIndices (ops.moves ms l) = activeIndices l
    /\ 0 <= selected (ops.moves ms l)
       <= Z.max 0 (slen (activeIndices l) - 1).
Proof.
  unfold ops.moves.
  induction ms as [|m ms IH]; intros l Hs; simpl; [auto|].
  destruct (move_frame l m) as [_ Fa].
  destruct (move_items l m) as [Fi _].
  pose proof (move_selected_range l m Hs) as Hs'.
  destruct (IH _ Hs') as [H1 [H2 H3]].
  rewrite H1, H2, Fi. rewrite Fa in H3 |- *. auto.
Qed.

Lemma nth_error_indices (n : nat) (i : Z) :
  0 <= i < Z.of_nat n ->
  nth_error (map Z.of_nat (seq 0 n)) (Z.to_nat i) = Some i.
Proof.
  intros Hi. rewrite nth_error_map, nth_error_seq.
  destruct (Nat.ltb_spec (Z.to_nat i) n); [|lia].
  simpl. f_equal. lia.
Qed.

(** X9. After [SetItems], whatever moves follow, [SelectedItem] does not
    panic; it is nil exactly when there is no item, and otherwise it is the
    item at the selected index. *)
Theorem SelectedItem_after_SetItems :
  forall (its : list (components.ListItem.t D)) (l0 : t D)
         (ms : list ops.Move),
    let l := ops.moves ms (SetItems its l0) in
    (its = [] -> SelectedItem l = Some None)
    /\ (its <> [] ->
        exists item,
          SelectedItem l = Some (Some item)
          /\ nth_error its (Z.to_nat (selected l)) = Some item).
Proof.
  intros its l0 ms l.
  assert (Ha : activeIndices (SetItems its l0)
               = map Z.of_nat (seq 0 (List.length its))) by reflexivity.
  destruct (moves_selected_range ms (SetItems its l0)) as [Fi [Fa Hs]].
  { simpl. pose proof (slen_nonneg (activeIndices (SetItems its l0))). lia. }
  fold l in Fi, Fa, Hs. rewrite Ha in Fa, Hs.
  assert (Hn : slen (map Z.of_nat (seq 0 (List.length its))) = slen its).
  { unfold slen. now rewrite length_map, length_seq. }
  rewrite Hn in Hs.
  unfold SelectedItem. rewrite Fa, Fi, Hn. simpl items. split.
  - intros ->. change (slen []) with 0.
    destruct (Z.leb_spec 0 (selected l)), (Z.ltb_spec (selected l) 0);
      simpl; trivial; lia.
  - intros Hne.
    assert (Hpos : 0 < slen its).
    { destruct its; [contradiction|]. rewrite slen_cons.
      pose proof (slen_nonneg its). lia. }
    destruct (Z.leb_spec 0 (selected l)); [|lia].
    destruct (Z.ltb_spec (selected l) (slen its)); [|lia]. simpl.
    rewrite nth_error_indices by (unfold slen in *; lia).
    destruct (Z.ltb_spec (selected l) (slen its)); [|lia].
    destruct (Z.leb_spec 0 (selected l)); [|lia].
    destruct (nth_error its (Z.to_nat (selected l))) as [item|] eqn:E.
    + now exists item.
    + apply nth_error_None in E. unfold slen in *. lia.
Qed.

End ListSelection.

Lemma SelectedItem_after_SetItems_witness :
  [sample.item "alpha"; sample.item "Beta"] <> []
  /\ exists item,
       components.List.SelectedItem
         (ops.moves [ops.MoveDown; ops.MoveDown; ops.MoveUp; ops.MoveDown]
            (components.List.SetItems
               [sample.item "alpha"; sample.item "Beta"]
               (components.List.NewList "rows")))
       = Some (Some item)
       /\ nth_error [sample.item "alpha"; sample.item "Beta"]
            (Z.to_nat
               (components.List.selected
                  (ops.moves
                     [ops.MoveDown; ops.MoveDown; ops.MoveUp; ops.MoveDown]
                     (components.List.SetItems
                        [sample.item "alpha"; sample.item "Beta"]
                        (components.List.NewList "rows")))))
          = Some item.
Proof.
  assert (H : [sample.item "alpha"; sample.item "Beta"] <> [])
    by discriminate.
  split; [exact H|].
  exact (proj2 (SelectedItem_after_SetItems
                  [sample.item "alpha"; sample.item "Beta"]
                  (components.List.NewList "rows")
                  [ops.MoveDown; ops.MoveDown; ops.MoveUp; ops.MoveDown]) H).
Defined.


(** ** The list: selection under a filter *)

Section ListFilterSelection.
Import components.List.
Context {gs : GoStrings} {D : Type}.
Implicit Type l : t D.

Lemma combine_seq_nth (its : list (components.ListItem.t D)) :
  forall (k : nat) (p : nat * components.ListItem.t D),
    In p (combine (seq k (List.length its)) its) ->
    (k <= fst p < k + List.length its)%nat
    /\ nth_error its (fst p - k) = Some (snd p).
Proof.
  induction its as [|it its IH]; intros k p; simpl; [intros []|].
  intros [<-|Hin].
  - simpl. rewrite Nat.sub_diag. split; [lia|reflexivity].
  - apply IH in Hin. destruct Hin as [Hk Hn]. split; [lia|].
    replace (fst p - k)%nat with (S (fst p - S k)) by lia. exact Hn.
Qed.

Lemma matchingIndices_elem (query : string)
    (its : list (components.ListItem.t D)) (i : Z) :
  In i (spec.matchingIndices query its) ->
  0 <= i < slen its
  /\ exists item,
       nth_error its (Z.to_nat i) = Some item
       /\ spec.labelMatches query item = true.
Proof.
  unfold spec.matchingIndices. intros Hi.
  apply in_map_iff in Hi. destruct Hi as [p [<- Hp]].
  apply filter_In in Hp. destruct Hp as [Hp Hm].
  apply combine_seq_nth in Hp. destruct Hp as [Hr Hn].
  rewrite Nat.sub_0_r in Hn. rewrite Nat2Z.id. unfold slen.
  split; [lia|]. now exists (snd p).
Qed.

(** X10. With a query that at least one label contains, and whatever
    moves follow, [SelectedItem] is an item of the list whose label
    contains the query, case set aside. *)
Theorem SelectedItem_matches_filter :
  forall (query : string) (l0 : t D) (ms : list ops.Move),
    query <> "" ->
    spec.matchingIndices query (items l0) <> [] ->
    exists item,
      SelectedItem (ops.moves ms (SetFilter query l0)) = Some (Some item)
      /\ spec.labelMatches query item = true
      /\ In item (items l0).
Proof.
  intros query l0 ms Hq Hm.
  set (l1 := SetFilter query l0). set (l := ops.moves ms l1).
  pose proof (activeIndices_SetFilter_match query l0 Hq Hm) as Ha.
  fold l1 in Ha.
  assert (Hi1 : items l1 = items l0).
  { unfold l1, SetFilter, applyFilter. simpl.
    destruct (String.eqb query ""); reflexivity. }
  assert (Hs1 : selected l1 = 0)
    by exact (proj1 (proj2 (SetFilter_filtered query l0 Hq))).
  destruct (moves_selected_range ms l1) as [Fi [Fa Hs]].
  { rewrite Hs1. pose proof (slen_nonneg (activeIndices l1)). lia. }
  fold l in Fi, Fa, Hs. rewrite Ha in Fa, Hs. rewrite Hi1 in Fi.
  set (found := spec.matchingIndices query (items l0)) in *.
  assert (Hpos : 0 < slen found).
  { destruct found; [contradiction|]. rewrite slen_cons.
    pose proof (slen_nonneg found). lia. }
  unfold SelectedItem. rewrite Fa, Fi.
  destruct (Z.leb_spec 0 (selected l)); [|lia].
  destruct (Z.ltb_spec (selected l) (slen found)); [|lia]. simpl.
  destruct (nth_error found (Z.to_nat (selected l))) as [idx|] eqn:E.
  - apply nth_error_In in E.
    apply matchingIndices_elem in E. destruct E as [Hr [item [Hn Hl]]].
    destruct (Z.ltb_spec idx (slen (items l0))); [|lia].
    destruct (Z.leb_spec 0 idx); [|lia].
    exists item. rewrite Hn. repeat split; trivial.
    now apply nth_error_In in Hn.
  - apply nth_error_None in E. unfold slen in *. lia.
Qed.

(** X11. Setting the same query again changes nothing: the same rows,
    the selection at the top as after the first time. *)
Theorem SetFilter_idempotent :
  forall (query : string) l,
    SetFilter query (SetFilter query l) = SetFilter query l.
Proof.
  intros query l. unfold SetFilter, applyFilter. simpl.
  destruct (String.eqb query "") eqn:E; simpl; rewrite ?E; reflexivity.
Qed.

End ListFilterSelection.

Lemma SelectedItem_matches_filter_witness :
  "ET" <> ""
  /\ spec.matchingIndices (gs := sample.asciiStrings) "ET"
       (components.List.items sample.list3) <> []
  /\ exists item,
       components.List.SelectedItem
         (ops.moves [ops.MoveDown; ops.MoveToBottom]
            (components.List.SetFilter (gs := sample.asciiStrings) "ET"
               sample.list3))
       = Some (Some item)
       /\ spec.labelMatches (gs := sample.asciiStrings) "ET" item = true
       /\ In item (components.List.items sample.list3).
Proof.
  assert (Hq : "ET" <> "") by discriminate.
  assert (Hm : spec.matchingIndices (gs := sample.asciiStrings) "ET"
                 (components.List.items sample.list3) <> [])
    by (vm_compute; discriminate).
  split; [exact Hq|]. split; [exact Hm|].
  exact (SelectedItem_matches_filter (gs := sample.asciiStrings) "ET"
           sample.list3 [ops.MoveDown; ops.MoveToBottom] Hq Hm).
Defined.

(** ** The list in the list views *)

Section ListInvariant.
Import components.List.
Import inv.
Context {gs : GoStrings} {D : Type}.
Implicit Type l : t D.

Lemma selected_range_top l :
  selected l = 0 ->
  0 <= selected l <= Z.max 0 (slen (activeIndices l) - 1).
Proof.
  intros ->. pose proof (slen_nonneg (activeIndices l)). lia.
Qed.

Lemma move_modes l (m : ops.Move) :
  filterMode (ops.move l m) = filterMode l
  /\ filterQuery (ops.move l m) = filterQuery l.
Proof.
  destruct m; simpl;
    unfold MoveUp, MoveDown, MoveToTop, MoveToBottom, adjustScroll;
    repeat match goal with
           | |- context [?x <? ?y] => destruct (x <? y)
           | |- context [?x <=? ?y] => destruct (x <=? y)
           end; simpl; auto.
Qed.

Lemma listOK_move l (m : ops.Move) :
  filterMode l = false -> listOK l -> listOK (ops.move l m).
Proof.
  intros Hm [H1 [H2 [H3 H4]]].
  destruct (move_modes l m) as [Fm Fq].
  destruct (move_items l m) as [_ Ff].
  unfold listOK. rewrite Fm, Fq, Ff.
  split; [exact H1|]. split; [exact H2|]. split.
  - intros Hq. elim Hq. exact (H1 Hm).
  - now apply move_selected_range.
Qed.

Lemma listOK_MoveUp l : filterMode l = false -> listOK l -> listOK (MoveUp l).
Proof. exact (fun Hm Hl => listOK_move l ops.MoveUp Hm Hl). Qed.

Lemma listOK_MoveDown l :
  filterMode l = false -> listOK l -> listOK (MoveDown l).
Proof. exact (fun Hm Hl => listOK_move l ops.MoveDown Hm Hl). Qed.

Lemma listOK_MoveToTop l :
  filterMode l = false -> listOK l -> listOK (MoveToTop l).
Proof. exact (fun Hm Hl => listOK_move l ops.MoveToTop Hm Hl). Qed.

Lemma listOK_MoveToBottom l :
  filterMode l = false -> listOK l -> listOK (MoveToBottom l).
Proof. exact (fun Hm Hl => listOK_move l ops.MoveToBottom Hm Hl). Qed.

Lemma listOK_ClearFilter l : listOK (ClearFilter l).
Proof.
  unfold listOK. simpl.
  split; [trivial|]. split; [trivial|]. split; [trivial|].
  pose proof (slen_nonneg (activeIndices (ClearFilter l))) as Hn.
  simpl in Hn. lia.
Qed.

Lemma listOK_ToggleFilterMode l : listOK l -> listOK (ToggleFilterMode l).
Proof.
  intros [H1 [H2 [H3 H4]]]. unfold ToggleFilterMode.
  destruct (filterMode l) eqn:Em; simpl.
  - apply listOK_ClearFilter.
  - unfold listOK. simpl. split; [discriminate|].
    split; [exact H2|]. split; [exact H3|exact H4].
Qed.

Lemma listOK_SetFilter (query : string) l :
  filterMode l = true -> listOK l -> listOK (SetFilter query l).
Proof.
  intros Hm [H1 [H2 [H3 H4]]]. unfold SetFilter, applyFilter. simpl.
  destruct (String.eqb_spec query "") as [->|Hq].
  - unfold listOK. simpl. rewrite Hm.
    split; [discriminate|]. split; [reflexivity|].
    split; [intros Hq; now elim Hq|].
    destruct (String.eqb_spec (filterQuery l) "") as [E|E].
    + unfold activeIndices in *. simpl. rewrite (H2 E) in H4. exact H4.
    + rewrite (H3 E).
      pose proof (slen_nonneg
        (activeIndices (set_filtered None (set_filterQuery "" l)))). lia.
  - split; [simpl; rewrite Hm; discriminate|].
    split; [simpl; intros E; contradiction|].
    split; [reflexivity|]. now apply selected_range_top.
Qed.

Lemma listOK_SetItems (its : list (components.ListItem.t D)) l :
  listOK (SetItems its l).
Proof.
  apply listOK_ClearFilter.
Qed.

Lemma listOK_Render (h : Z) l : listOK l -> listOK (Render h l).
Proof.
  intros Hl. exact Hl.
Qed.

Lemma listOK_NewList (title : string) : listOK (NewList (D := D) title).
Proof.
  exact (listOK_ClearFilter (NewList title)).
Qed.

Lemma items_move l (m : ops.Move) : items (ops.move l m) = items l.
Proof. exact (proj1 (move_items l m)). Qed.

Lemma items_ToggleFilterMode l : items (ToggleFilterMode l) = items l.
Proof.
  unfold ToggleFilterMode. destruct (filterMode l); reflexivity.
Qed.

Lemma items_SetFilter (query : string) l : items (SetFilter query l) = items l.
Proof.
  unfold SetFilter, applyFilter. simpl.
  destruct (String.eqb query ""); reflexivity.
Qed.

End ListInvariant.

(** ** The keys of the list views *)

Section ListViewKeys.
Import terminal.
Import views.
Import inv.
Context {gs : GoStrings} {co : Collab}.

(** One branch of a [HandleKey]: the list of the view after the key. *)
Ltac branch :=
  simpl;
  first
    [ assumption
    | apply listOK_MoveUp; assumption
    | apply listOK_MoveDown; assumption
    | apply listOK_MoveToTop; assumption
    | apply listOK_MoveToBottom; assumption
    | apply listOK_ToggleFilterMode; assumption
    | apply listOK_SetFilter; assumption
    | apply items_ToggleFilterMode
    | apply items_SetFilter
    | apply (items_move _ ops.MoveUp)
    | apply (items_move _ ops.MoveDown)
    | apply (items_move _ ops.MoveToTop)
    | apply (items_move _ ops.MoveToBottom)
    | reflexivity ].

(** All the branches: the cases of the mode, of the key and of the
    rune. *)
Ltac branches H :=
  repeat match type of H with
         | context [if ?c then _ else _] => destruct c
         end;
  try discriminate H;
  injection H as <- <-;
  (split; [|split]); branch.

Lemma PipelinesView_HandleKey_ok (key : Key) (v v' : PipelinesView.t)
    (h : bool) :
  listOK (PipelinesView.list v) ->
  PipelinesView.HandleKey key v = (h, v') ->
  listOK (PipelinesView.list v')
  /\ PipelinesView.pipelines v' = PipelinesView.pipelines v
  /\ components.List.items (PipelinesView.list v')
     = components.List.items (PipelinesView.list v).
Proof.
  intros Hl H. unfold PipelinesView.HandleKey in H.
  unfold components.List.IsFilterMode, components.List.FilterQuery in H.
  destruct (components.List.filterMode (PipelinesView.list v)) eqn:Em;
    destruct (Type_ key); branches H.
Qed.

Lemma ReposView_HandleKey_ok (key : Key) (v v' : ReposView.t) (h : bool) :
  listOK (ReposView.list v) ->
  ReposView.HandleKey key v = (h, v') ->
  listOK (ReposView.list v')
  /\ ReposView.repos v' = ReposView.repos v
  /\ components.List.items (ReposView.list v')
     = components.List.items (ReposView.list v).
Proof.
  intros Hl H. unfold ReposView.HandleKey in H.
  unfold components.List.IsFilterMode, components.List.FilterQuery in H.
  destruct (components.List.filterMode (ReposView.list v)) eqn:Em;
    destruct (Type_ key); branches H.
Qed.

(** The branches of a view with a callback: the callback is called on
    Enter outside filter mode only, with the record at the selected
    index, and the view is then as before. *)
Ltac branches_select H :=
  repeat match type of H with
         | context [if ?c then _ else _] => destruct c eqn:?
         end;
  try discriminate H;
  injection H as <- <- <-;
  (split;
   [ branch
   | split;
     [ branch
     | split;
       [ branch
       | split;
         [ branch
         | intros ? Hsel; try discriminate Hsel; auto ] ] ] ]).

Lemma BoardsView_HandleKey_ok (key : Key) (v v' : BoardsView.t) (h : bool)
    (sel : option WorkItem) :
  listOK (BoardsView.list v) ->
  BoardsView.HandleKey key v = (h, v', sel) ->
  listOK (BoardsView.list v')
  /\ BoardsView.workItems v' = BoardsView.workItems v
  /\ components.List.items (BoardsView.list v')
     = components.List.items (BoardsView.list v)
  /\ BoardsView.onSelect v' = BoardsView.onSelect v
  /\ (forall item, sel = Some item ->
        components.List.filterMode (BoardsView.list v) = false
        /\ Type_ key = KeyEnter
        /\ v' = v
        /\ BoardsView.SelectedWorkItem v = Some item).
Proof.
  intros Hl H. unfold BoardsView.HandleKey in H.
  unfold components.List.IsFilterMode, components.List.FilterQuery in H.
  destruct (components.List.filterMode (BoardsView.list v)) eqn:Em;
    destruct (Type_ key) eqn:Ek; branches_select H.
Qed.

Lemma PullRequestsView_HandleKey_ok (key : Key)
    (v v' : PullRequestsView.t) (h : bool) (sel : option PullRequest) :
  listOK (PullRequestsView.list v) ->
  PullRequestsView.HandleKey key v = (h, v', sel) ->
  listOK (PullRequestsView.list v')
  /\ PullRequestsView.prs v' = PullRequestsView.prs v
  /\ components.List.items (PullRequestsView.list v')
     = components.List.items (PullRequestsView.list v)
  /\ PullRequestsView.onSelect v' = PullRequestsView.onSelect v
  /\ (forall item, sel = Some item ->
        components.List.filterMode (PullRequestsView.list v) = false
        /\ Type_ key = KeyEnter
        /\ v' = v
        /\ PullRequestsView.SelectedPR v = Some item).
Proof.
  intros Hl H. unfold PullRequestsView.HandleKey in H.
  unfold components.List.IsFilterMode, components.List.FilterQuery in H.
  destruct (components.List.filterMode (PullRequestsView.list v)) eqn:Em;
    destruct (Type_ key) eqn:Ek; branches_select H.
Qed.

End ListViewKeys.

(** ** The controller: what every session keeps *)

Section AppInvariant.
Import terminal.
Import views.
Import ui.
Import inv.
Context {gs : GoStrings} {co : Collab}.

Lemma ViewID_eqb_eq (x y : ViewID) : ViewID_eqb x y = true <-> x = y.
Proof.
  destruct x, y; simpl; split; intros E;
    try reflexivity; try discriminate E.
Qed.

Lemma SetActiveByID_six (id : string) (k : Z) (b : components.TabBar.t) :
  components.TabBar.tabs b = ui.tabs ->
  components.TabBar.indexOfID id ui.tabs 0 = Some k ->
  components.TabBar.SetActiveByID id b = components.TabBar.mk ui.tabs k.
Proof.
  intros Hb Hk. unfold components.TabBar.SetActiveByID.
  now rewrite Hb, Hk.
Qed.

(** [switchToView] to one of the six views with a tab: the active tab
    follows. *)
Lemma switchToView_ok (id : ViewID) (k : Z) (a : App) :
  homeTab id ViewEmpty = Some k ->
  components.TabBar.tabs (tabBar a) = ui.tabs ->
  (currentView a = id -> components.TabBar.active (tabBar a) = k) ->
  shown a -> listsOK a ->
  appOK (switchToView id a).
Proof.
  intros Hk Ht Hsame Hs Hl. unfold switchToView.
  destruct (ViewID_eqb (currentView a) id) eqn:E.
  - apply ViewID_eqb_eq in E. split; [|now split].
    split; [exact Ht|]. rewrite E, (Hsame E).
    destruct id; try discriminate Hk; exact Hk.
  - unfold getCurrentView, setActiveTab.
    destruct id; try discriminate Hk; injection Hk as <-;
      destruct (currentView a); try discriminate E;
      (split; [|split; [exact Hs|exact Hl]]);
      unfold tabSync; cbn -[components.TabBar.SetActiveByID];
      erewrite SetActiveByID_six by (exact Ht || reflexivity);
      split; reflexivity.
Qed.

(** The key handler of the current view. *)
Lemma viewKey_ok (now : Time) (key : Key) (a a1 : App) (h : bool) :
  appOK a ->
  HandleKey (getCurrentView a) now key a = (h, a1) ->
  appOK a1.
Proof.
  intros [[Ht Hh] [Hs Hl]] H.
  destruct Hs as [Sd [[Sb1 [Sb2 Sb3]] [[Sp1 Sp2] [[Sr1 Sr2] [Sq1 [Sq2 Sq3]]]]]].
  destruct Hl as [Lb [Lp [Lr Lq]]].
  unfold getCurrentView in H.
  assert (Hkeep : forall a', tabBar a' = tabBar a ->
                    currentView a' = currentView a ->
                    previousView a' = previousView a -> tabSync a').
  { intros a' E1 E2 E3. unfold tabSync. rewrite E1, E2, E3. now split. }
  destruct (currentView a) eqn:E; simpl in H.
  - discriminate Hh.
  - injection H as <- <-.
    split; [now apply Hkeep|]. split; [unfold shown|unfold listsOK];
      simpl; auto 10.
  - destruct (BoardsView.HandleKey key (boards a)) as [[h0 v'] sel] eqn:Ev.
    destruct (BoardsView_HandleKey_ok _ _ _ _ _ Lb Ev)
      as [Lb' [W1 [W2 [W3 Hsel]]]].
    injection H as <- <-.
    destruct sel as [item|].
    + destruct (Hsel item eq_refl) as [_ [_ [-> _]]].
      split; [|split; [unfold shown|unfold listsOK]; simpl; auto 10].
      split; [exact Ht|]. simpl. rewrite E. exact Hh.
    + split; [now apply Hkeep|].
      split; [unfold shown|unfold listsOK]; simpl;
        rewrite ?W1, ?W2, ?W3; auto 10.
  - destruct (PipelinesView.HandleKey key (pipelines a)) as [h0 v'] eqn:Ev.
    destruct (PipelinesView_HandleKey_ok _ _ _ _ Lp Ev) as [Lp' [W1 W2]].
    injection H as <- <-. split; [now apply Hkeep|].
    split; [unfold shown|unfold listsOK]; simpl;
      rewrite ?W1, ?W2; auto 10.
  - destruct (ReposView.HandleKey key (repos a)) as [h0 v'] eqn:Ev.
    destruct (ReposView_HandleKey_ok _ _ _ _ Lr Ev) as [Lr' [W1 W2]].
    injection H as <- <-. split; [now apply Hkeep|].
    split; [unfold shown|unfold listsOK]; simpl;
      rewrite ?W1, ?W2; auto 10.
  - destruct (PullRequestsView.HandleKey key (prs a)) as [[h0 v'] sel] eqn:Ev.
    destruct (PullRequestsView_HandleKey_ok _ _ _ _ _ Lq Ev)
      as [Lq' [W1 [W2 [W3 Hsel]]]].
    injection H as <- <-.
    destruct sel as [item|].
    + destruct (Hsel item eq_refl) as [_ [_ [-> _]]].
      split; [|split; [unfold shown|unfold listsOK]; simpl; auto 10].
      split; [exact Ht|]. simpl. rewrite E. exact Hh.
    + split; [now apply Hkeep|].
      split; [unfold shown|unfold listsOK]; simpl;
        rewrite ?W1, ?W2, ?W3; auto 10.
  - destruct (CopilotView.HandleKey now key (copilot a)) as [h0 v'].
    injection H as <- <-.
    split; [now apply Hkeep|]. split; [unfold shown|unfold listsOK];
      simpl; auto 10.
  - injection H as <- <-.
    split; [now apply Hkeep|]. split; [unfold shown|unfold listsOK];
      simpl; auto 10.
  - injection H as <- <-.
    split; [now apply Hkeep|]. split; [unfold shown|unfold listsOK];
      simpl; auto 10.
Qed.

(** A detail view is opened from its list view, and going back leads
    there. *)
Lemma detail_origin (a : App) :
  tabSync a ->
  isDetailView a = true ->
  (currentView a = ViewWorkItemDetail /\ previousView a = ViewBoards)
  \/ (currentView a = ViewPRDetail /\ previousView a = ViewPullRequests).
Proof.
  intros [_ Hh] Hd. unfold isDetailView in Hd.
  destruct (currentView a); try discriminate Hd;
    destruct (previousView a); try discriminate Hh; auto.
Qed.

Lemma back_ok (a : App) :
  appOK a -> isDetailView a = true ->
  appOK (set_currentView (previousView a) a).
Proof.
  intros [[Ht Hh] [Hs Hl]] Hd.
  split; [|split; [exact Hs|exact Hl]].
  split; [exact Ht|]. simpl.
  destruct (detail_origin a (conj Ht Hh) Hd) as [[Ec Ep]|[Ec Ep]];
    rewrite Ec, Ep in Hh; rewrite Ep; exact Hh.
Qed.

Lemma switch_ok (id : ViewID) (k : Z) (a : App) :
  homeTab id ViewEmpty = Some k ->
  appOK a ->
  appOK (switchToView id a).
Proof.
  intros Hk [[Ht Hh] [Hs Hl]].
  apply (switchToView_ok id k); trivial.
  intros E. rewrite E in Hh.
  destruct id; try discriminate Hk; simpl in Hh, Hk; congruence.
Qed.

(** The shortcuts of the controller. *)
Lemma globalKeys_ok (now : Time) (key : Key) (a : App) :
  appOK a ->
  exists a', globalKeys now key a = Some a' /\ appOK a'.
Proof.
  intros Hok. unfold globalKeys.
  destruct (Type_ key); try (exists a; now split).
  - repeat match goal with
           | |- context [if ?c then _ else _] => destruct c eqn:?
           end;
      (eexists; split; [reflexivity|]);
      first [ exact Hok
            | now apply back_ok
            | eapply switch_ok; [reflexivity|exact Hok] ].
  - destruct Hok as [[Ht Hh] [Hs Hl]].
    unfold components.TabBar.Next. rewrite Ht.
    change (slen tabs =? 0) with false. cbv iota.
    eexists. split; [reflexivity|].
    unfold switchToTabView, components.TabBar.ActiveTab.
    destruct (currentView a) eqn:E; simpl in Hh;
      try discriminate Hh;
      try (destruct (previousView a) eqn:Ep; try discriminate Hh);
      injection Hh as <-; simpl;
      (eapply switchToView_ok;
       [ reflexivity | reflexivity | reflexivity | exact Hs | exact Hl ]).
Qed.

(** The dispatch of a key never panics and keeps the invariant. *)
Lemma handleInput_ok (now : Time) (key : Key) (a : App) :
  appOK a ->
  exists a', handleInput now key a = Some a' /\ appOK a'.
Proof.
  intros Hok. unfold handleInput.
  assert (Hview :
    exists a',
      (let (handled, a1) := HandleKey (getCurrentView a) now key a in
       if handled then Some a1 else globalKeys now key a1) = Some a'
      /\ appOK a').
  { destruct (HandleKey (getCurrentView a) now key a) as [h a1] eqn:Ev.
    pose proof (viewKey_ok _ _ _ _ _ Hok Ev) as Hok1.
    destruct h; [now exists a1|now apply globalKeys_ok]. }
  destruct (Type_ key); try exact Hview.
  - destruct (isDetailView a) eqn:Ed.
    + eexists. split; [reflexivity|]. now apply back_ok.
    + destruct (ViewID_eqb (currentView a) ViewCopilot).
      * eexists. split; [reflexivity|].
        eapply switch_ok; [reflexivity|exact Hok].
      * now exists a.
  - eexists. split; [reflexivity|]. exact Hok.
Qed.

Lemma render_ok (a : App) : appOK a -> appOK (render a).
Proof.
  intros [[Ht Hh] [Hs Hl]]. unfold render, getCurrentView.
  destruct (loading a); [now split|].
  destruct (currentView a) eqn:E;
    (split; [split; [exact Ht|simpl; rewrite ?E; exact Hh]|]);
    (split; [exact Hs|exact Hl]).
Qed.

Lemma refreshData_ok (r : Refresh) (a : App) :
  appOK a -> appOK (refreshData r a).
Proof.
  intros [[Ht Hh] [Hs Hl]].
  destruct Hs as [Sd [[Sb1 [Sb2 Sb3]] [[Sp1 Sp2] [[Sr1 Sr2] [Sq1 [Sq2 Sq3]]]]]].
  destruct Hl as [Lb [Lp [Lr Lq]]].
  unfold refreshData.
  destruct (gotWorkItems r), (gotBuilds r), (gotPipelines r),
    (gotRepositories r), (gotPullRequests r);
    (split; [split; [exact Ht|exact Hh]|]);
    (split;
     [ unfold shown; simpl; repeat split; trivial
     | unfold listsOK; simpl;
       repeat (split; [first [assumption|apply listOK_SetItems]|]);
       first [assumption|apply listOK_SetItems] ]).
Qed.

Lemma start_ok (t : Terminal) (t0 : Time) : appOK (session.start t t0).
Proof.
  split; [now split|]. split.
  - unfold shown. simpl. repeat split.
  - unfold listsOK. simpl.
    repeat (split; [apply listOK_NewList|]). apply listOK_NewList.
Qed.

Lemma turn_ok (now : Time) (r : StdinRead) (a : App) :
  appOK a ->
  exists a', turn now r a = Some a' /\ appOK a'.
Proof.
  intros Hok. unfold turn.
  pose proof (render_ok a Hok) as Hr.
  destruct (ReadKey r) as [key|].
  - now apply handleInput_ok.
  - now exists (render a).
Qed.

Lemma run_ok (es : list session.Event) :
  forall a : App,
    appOK a ->
    exists a', session.run es a = Some a' /\ appOK a'.
Proof.
  induction es as [|e es IH]; intros a Hok; simpl.
  - now exists a.
  - assert (Hstep : exists a1, session.step a e = Some a1 /\ appOK a1).
    { destruct e as [now r|r]; simpl.
      - destruct (running a); [now apply turn_ok|now exists a].
      - eexists. split; [reflexivity|]. now apply refreshData_ok. }
    destruct Hstep as [a1 [E1 Hok1]]. rewrite E1. now apply IH.
Qed.

End AppInvariant.

(** ** Sessions *)

Section Sessions.
Import terminal.
Import views.
Import ui.
Import inv.
Context {gs : GoStrings} {co : Collab}.

(** X12. In every session the dispatch of keys never panics, the tab
    bar keeps its six tabs, and the active tab is the tab of the current
    view; in a detail view it is the tab of the list view the detail was
    opened from, which is the recorded previous view. *)
Theorem session_keeps_tab_in_step :
  forall (t : Terminal) (t0 : Time) (es : list session.Event),
    exists a : App,
      session.run es (session.start t t0) = Some a
      /\ components.TabBar.tabs (tabBar a) = ui.tabs
      /\ homeTab (currentView a) (previousView a)
         = Some (components.TabBar.active (tabBar a)).
Proof.
  intros t t0 es.
  destruct (run_ok es _ (start_ok t t0)) as [a [Hr [[Ht Hh] _]]].
  now exists a.
Qed.

(** X13. In every session each view holds the collection of the
    snapshot: the dashboard its three collections, and each list view its
    records with one row for each record, in order. *)
Theorem session_views_show_snapshot :
  forall (t : Terminal) (t0 : Time) (es : list session.Event),
    exists a : App,
      session.run es (session.start t t0) = Some a
      /\ dashboard a = DashboardView.mk (workItems a) (builds a) (prList a)
      /\ BoardsView.workItems (boards a) = workItems a
      /\ components.List.items (BoardsView.list (boards a))
         = map BoardsView.row (workItems a)
      /\ PipelinesView.pipelines (pipelines a) = pipelineList a
      /\ components.List.items (PipelinesView.list (pipelines a))
         = map PipelinesView.row (pipelineList a)
      /\ ReposView.repos (repos a) = repoList a
      /\ components.List.items (ReposView.list (repos a))
         = map ReposView.row (repoList a)
      /\ PullRequestsView.prs (prs a) = prList a
      /\ components.List.items (PullRequestsView.list (prs a))
         = map PullRequestsView.row (prList a).
Proof.
  intros t t0 es.
  destruct (run_ok es _ (start_ok t t0)) as [a [Hr [_ [Hs _]]]].
  destruct Hs as [Sd [[Sb1 [Sb2 _]] [[Sp1 Sp2] [[Sr1 Sr2] [Sq1 [Sq2 _]]]]]].
  exists a. repeat split; assumption.
Qed.

Lemma listOK_unfiltered {D : Type} (l : components.List.t D) :
  listOK l ->
  components.List.filterMode l = true
  \/ (components.List.filterQuery l = ""
      /\ components.List.filtered l = None
      /\ components.List.activeIndices l
         = map Z.of_nat (seq 0 (List.length (components.List.items l)))).
Proof.
  intros [H1 [H2 _]].
  destruct (components.List.filterMode l); [now left|right].
  pose proof (H1 eq_refl) as Hq. pose proof (H2 Hq) as Hf.
  repeat split; trivial.
  unfold components.List.activeIndices. now rewrite Hf.
Qed.

(** X14. In every session a list view that is not in filter mode has
    no query and no filter: its active sequence is the whole list. Leaving
    filter mode, by whatever key, never keeps a filter. *)
Theorem session_keeps_no_filter :
  forall (t : Terminal) (t0 : Time) (es : list session.Event),
    exists a : App,
      session.run es (session.start t t0) = Some a
      /\ (let l := BoardsView.list (boards a) in
          components.List.filterMode l = true
          \/ (components.List.filterQuery l = ""
              /\ components.List.filtered l = None
              /\ components.List.activeIndices l
                 = map Z.of_nat
                     (seq 0 (List.length (components.List.items l)))))
      /\ (let l := PipelinesView.list (pipelines a) in
          components.List.filterMode l = true
          \/ (components.List.filterQuery l = ""
              /\ components.List.filtered l = None
              /\ components.List.activeIndices l
                 = map Z.of_nat
                     (seq 0 (List.length (components.List.items l)))))
      /\ (let l := ReposView.list (repos a) in
          components.List.filterMode l = true
          \/ (components.List.filterQuery l = ""
              /\ components.List.filtered l = None
              /\ components.List.activeIndices l
                 = map Z.of_nat
                     (seq 0 (List.length (components.List.items l)))))
      /\ (let l := PullRequestsView.list (prs a) in
          components.List.filterMode l = true
          \/ (components.List.filterQuery l = ""
              /\ components.List.filtered l = None
              /\ components.List.activeIndices l
                 = map Z.of_nat
                     (seq 0 (List.length (components.List.items l))))).
Proof.
  intros t t0 es.
  destruct (run_ok es _ (start_ok t t0)) as [a [Hr [_ [_ Hl]]]].
  destruct Hl as [Lb [Lp [Lr Lq]]].
  exists a. split; [exact Hr|].
  split; [now apply listOK_unfiltered|].
  split; [now apply listOK_unfiltered|].
  split; now apply listOK_unfiltered.
Qed.

(** X15. In every session Escape, and the key b, lead from the detail
    of a work item to the Boards view and from the detail of a pull request
    to the Pull Requests view. *)
Theorem session_back_from_detail :
  forall (t : Terminal) (t0 : Time) (es : list session.Event)
         (now : Time) (r : Z),
    exists a a' a'' : App,
      session.run es (session.start t t0) = Some a
      /\ handleInput now (mkKey KeyEscape r) a = Some a'
      /\ handleInput now (mkKey KeyRune (chr "b")) a = Some a''
      /\ match currentView a with
         | ViewWorkItemDetail =>
             currentView a' = ViewBoards /\ currentView a'' = ViewBoards
         | ViewPRDetail =>
             currentView a' = ViewPullRequests
             /\ currentView a'' = ViewPullRequests
         | _ => True
         end.
Proof.
  intros t t0 es now r.
  destruct (run_ok es _ (start_ok t t0)) as [a [Hr Hok]].
  destruct (handleInput_ok now (mkKey KeyEscape r) a Hok) as [a' [H1 _]].
  destruct (handleInput_ok now (mkKey KeyRune (chr "b")) a Hok)
    as [a'' [H2 _]].
  exists a, a', a''. split; [exact Hr|]. split; [exact H1|].
  split; [exact H2|].
  destruct Hok as [Hsync _].
  destruct (currentView a) eqn:E; trivial.
  - assert (Hd : isDetailView a = true)
      by (unfold isDetailView; now rewrite E).
    destruct (leave_detail_calls now r a Hd) as [L1 L2].
    destruct (detail_origin a Hsync Hd) as [[_ Ep]|[Ec _]]; [|congruence].
    rewrite L1 in H1. rewrite L2 in H2.
    injection H1 as <-. injection H2 as <-. simpl. now split.
  - assert (Hd : isDetailView a = true)
      by (unfold isDetailView; now rewrite E).
    destruct (leave_detail_calls now r a Hd) as [L1 L2].
    destruct (detail_origin a Hsync Hd) as [[Ec _]|[_ Ep]]; [congruence|].
    rewrite L1 in H1. rewrite L2 in H2.
    injection H1 as <-. injection H2 as <-. simpl. now split.
Qed.

End Sessions.

(** ** Keys in a session *)

Section SessionKeys.
Import terminal.
Import views.
Import ui.
Import inv.
Context {gs : GoStrings} {co : Collab}.

Lemma slen_map {A B : Type} (f : A -> B) (xs : list A) :
  slen (map f xs) = slen xs.
Proof.
  unfold slen. now rewrite length_map.
Qed.

(** X16. In every session, Enter in the Boards view outside filter mode
    opens the detail of the work item whose row [SelectedItem] returns, and
    records the Boards view as the view to go back to; with no work item it
    stays in the Boards view. *)
Theorem Enter_opens_selected_row :
  forall (t : Terminal) (t0 : Time) (es : list session.Event)
         (now : Time) (r : Z) (a : App),
    session.run es (session.start t t0) = Some a ->
    currentView a = ViewBoards ->
    BoardsView.IsFilterMode (boards a) = false ->
    exists a' : App,
      handleInput now (mkKey KeyEnter r) a = Some a'
      /\ ((workItems a = []
           /\ components.List.SelectedItem (BoardsView.list (boards a))
              = Some None
           /\ currentView a' = ViewBoards)
          \/ exists item : WorkItem,
               nth_error (workItems a)
                 (Z.to_nat
                    (components.List.selected (BoardsView.list (boards a))))
               = Some item
               /\ components.List.SelectedItem (BoardsView.list (boards a))
                  = Some (Some (BoardsView.row item))
               /\ currentView a' = ViewWorkItemDetail
               /\ previousView a' = ViewBoards
               /\ details.WorkItemDetailView.workItem (workItemDetail a')
                  = Some item).
Proof.
  intros t t0 es now r a Hrun Ec Hm.
  destruct (run_ok es _ (start_ok t t0)) as [a0 [Hr Hok]].
  assert (a0 = a) by congruence. subst a0.
  destruct Hok as [_ [Hs [Lb _]]].
  destruct Hs as [_ [[Sb1 [Sb2 Sb3]] _]].
  destruct Lb as [H1 [H2 [_ H4]]].
  unfold BoardsView.IsFilterMode, components.List.IsFilterMode in Hm.
  pose proof (H1 Hm) as Hq. pose proof (H2 Hq) as Hf.
  set (l := BoardsView.list (boards a)) in *.
  assert (Ha : components.List.activeIndices l
               = map Z.of_nat (seq 0 (List.length (workItems a)))).
  { unfold components.List.activeIndices. rewrite Hf, Sb2. simpl.
    now rewrite length_map. }
  rewrite Ha in H4.
  assert (Hn : slen (map Z.of_nat (seq 0 (List.length (workItems a))))
               = slen (workItems a)).
  { unfold slen. now rewrite length_map, length_seq. }
  rewrite Hn in H4.
  unfold handleInput, getCurrentView. rewrite Ec. simpl.
  unfold BoardsView.HandleKey, components.List.IsFilterMode. fold l.
  rewrite Hm. simpl. rewrite Sb3.
  unfold BoardsView.SelectedWorkItem, components.List.SelectedIndex.
  fold l. rewrite Sb1.
  unfold components.List.SelectedItem. rewrite Ha, Hn, Sb2, slen_map.
  destruct (Z.leb_spec 0 (components.List.selected l)); [|lia].
  destruct (Z.ltb_spec (components.List.selected l) (slen (workItems a)))
    as [Hlt|Hge]; simpl.
  - destruct (nth_error (workItems a)
                (Z.to_nat (components.List.selected l))) as [item|] eqn:En.
    + eexists. split; [reflexivity|]. right. exists item.
      split; [reflexivity|].
      rewrite nth_error_indices by (unfold slen in Hlt; lia).
      destruct (Z.ltb_spec (components.List.selected l)
                  (slen (workItems a))); [|lia].
      destruct (Z.leb_spec 0 (components.List.selected l)); [|lia].
      rewrite nth_error_map, En. simpl. rewrite Ec. now repeat split.
    + apply nth_error_None in En. unfold slen in Hlt. lia.
  - eexists. split; [reflexivity|]. left.
    assert (Hz : slen (workItems a) = 0)
      by (pose proof (slen_nonneg (workItems a)); lia).
    split; [|split; [reflexivity|simpl; exact Ec]].
    destruct (workItems a); [reflexivity|].
    rewrite slen_cons in Hz. pose proof (slen_nonneg l0). lia.
Qed.

(** X17. The key q, small or capital, stops the loop in every view but
    where the view takes it as text: in the Copilot view and in a list view
    in filter mode the loop goes on. *)
Theorem q_quits_unless_typed :
  forall (now : Time) (a : App),
    exists a1 a2 : App,
      handleInput now (mkKey KeyRune (chr "q")) a = Some a1
      /\ handleInput now (mkKey KeyRune (chr "Q")) a = Some a2
      /\ running a1
         = (if ViewID_eqb (currentView a) ViewCopilot || isFilterMode a
            then running a else false)
      /\ running a2 = running a1.
Proof.
  intros now a. unfold handleInput, getCurrentView, isFilterMode.
  destruct (currentView a) eqn:E; simpl;
    unfold BoardsView.HandleKey, PipelinesView.HandleKey,
      ReposView.HandleKey, PullRequestsView.HandleKey,
      BoardsView.IsFilterMode, PipelinesView.IsFilterMode,
      ReposView.IsFilterMode, PullRequestsView.IsFilterMode,
      components.List.IsFilterMode;
    try match goal with
        | |- context [components.List.filterMode ?l] =>
            destruct (components.List.filterMode l)
        end;
    simpl; eexists; eexists; repeat split.
Qed.

(** X18. In a list view in filter mode Escape changes nothing: the
    controller takes the key before the view and has nothing to do with
    it, so the view stays in filter mode with its query. *)
Theorem Escape_in_filter_mode_does_nothing :
  forall (now : Time) (r : Z) (a : App),
    isFilterMode a = true ->
    handleInput now (mkKey KeyEscape r) a = Some a.
Proof.
  intros now r a Hf. apply escape_elsewhere.
  - intros Ec. unfold isFilterMode in Hf. rewrite Ec in Hf. discriminate.
  - unfold isDetailView. unfold isFilterMode in Hf.
    destruct (currentView a); try discriminate Hf; reflexivity.
Qed.

End SessionKeys.

Lemma Enter_opens_selected_row_witness :
  session.run (gs := sample.asciiStrings) demo.toBoards
    (session.start demo.term 0) = Some demo.onBoards
  /\ ui.currentView demo.onBoards = views.ViewBoards
  /\ views.BoardsView.IsFilterMode (ui.boards demo.onBoards) = false
  /\ exists a',
       ui.handleInput (gs := sample.asciiStrings) 2
         (terminal.mkKey terminal.KeyEnter 0) demo.onBoards = Some a'
       /\ ui.currentView a' = views.ViewWorkItemDetail
       /\ details.WorkItemDetailView.workItem (ui.workItemDetail a')
          = Some "Fix login".
Proof.
  assert (H1 : session.run (gs := sample.asciiStrings) demo.toBoards
                 (session.start demo.term 0) = Some demo.onBoards)
    by (vm_compute; reflexivity).
  split; [exact H1|]. split; [reflexivity|]. split; [reflexivity|].
  destruct (Enter_opens_selected_row (gs := sample.asciiStrings)
              demo.term 0 demo.toBoards 2 0 demo.onBoards H1
              eq_refl eq_refl) as [a' [Ha Hcases]].
  exists a'. split; [exact Ha|].
  destruct Hcases as [[Hnil _]|[item [Hn [_ [Hc [_ Hw]]]]]].
  - discriminate Hnil.
  - split; [exact Hc|]. rewrite Hw. f_equal.
    vm_compute in Hn. congruence.
Defined.

Lemma Escape_in_filter_mode_does_nothing_witness :
  ui.isFilterMode demo.filtering = true
  /\ ui.handleInput (gs := sample.asciiStrings) 3
       (terminal.mkKey terminal.KeyEscape 0) demo.filtering
     = Some demo.filtering.
Proof.
  split; [reflexivity|].
  exact (Escape_in_filter_mode_does_nothing (gs := sample.asciiStrings)
           3 0 demo.filtering eq_refl).
Defined.

(** ** The Tab key *)

Section TabKey.
Import terminal.
Import views.
Import ui.
Import inv.
Context {gs : GoStrings} {co : Collab}.

Lemma Tab_declined (now : Time) (r : Z) (a : App) :
  exists a1 : App,
    HandleKey (getCurrentView a) now (mkKey KeyTab r) a = (false, a1)
    /\ tabBar a1 = tabBar a
    /\ currentView a1 = currentView a.
Proof.
  unfold getCurrentView.
  destruct (currentView a) eqn:E; simpl;
    unfold BoardsView.HandleKey, PipelinesView.HandleKey,
      ReposView.HandleKey, PullRequestsView.HandleKey,
      components.List.IsFilterMode;
    try match goal with
        | |- context [components.List.filterMode ?l] =>
            destruct (components.List.filterMode l)
        end;
    simpl; eexists; (split; [reflexivity|]); simpl; auto.
Qed.

Lemma switchToView_tab (id : ViewID) (k : Z) (a : App) :
  homeTab id ViewEmpty = Some k ->
  components.TabBar.tabs (tabBar a) = ui.tabs ->
  components.TabBar.active (tabBar a) = k ->
  shown a -> listsOK a ->
  components.TabBar.active (tabBar (switchToView id a)) = k
  /\ homeTab (currentView (switchToView id a)) ViewEmpty = Some k.
Proof.
  intros Hk Ht Ha Hs Hl.
  assert (Hid : id <> ViewEmpty) by (intros ->; discriminate Hk).
  pose proof (currentView_switchToView id a Hid) as Hc.
  destruct (switchToView_ok id k a Hk Ht (fun _ => Ha) Hs Hl)
    as [[_ Hh] _].
  rewrite Hc in Hh |- *. split; [|exact Hk].
  destruct id; try discriminate Hk; simpl in Hh, Hk; congruence.
Qed.

Lemma Tab_step (now : Time) (r : Z) (a : App) :
  appOK a ->
  exists a' : App,
    handleInput now (mkKey KeyTab r) a = Some a'
    /\ components.TabBar.active (tabBar a')
       = (components.TabBar.active (tabBar a) + 1) mod 6
    /\ homeTab (currentView a') ViewEmpty
       = Some (components.TabBar.active (tabBar a')).
Proof.
  intros Hok.
  destruct (Tab_declined now r a) as [a1 [Hv [Eb Ec]]].
  destruct (viewKey_ok _ _ _ _ _ Hok Hv) as [_ [Hs1 Hl1]].
  destruct Hok as [[Ht Hh] _].
  unfold handleInput. simpl. rewrite Hv. unfold globalKeys. simpl.
  rewrite Eb. unfold components.TabBar.Next. rewrite Ht.
  change (slen tabs =? 0) with false. cbv iota.
  eexists. split; [reflexivity|].
  unfold switchToTabView, components.TabBar.ActiveTab.
  assert (Hk : 0 <= components.TabBar.active (tabBar a) < 6).
  { destruct (currentView a); simpl in Hh; try discriminate Hh;
      try (destruct (previousView a); try discriminate Hh);
      injection Hh as <-; lia. }
  set (k := components.TabBar.active (tabBar a)) in *.
  assert (Hcases : k = 0 \/ k = 1 \/ k = 2 \/ k = 3 \/ k = 4 \/ k = 5)
    by lia.
  destruct Hcases as [->|[->|[->|[->|[->| ->]]]]]; simpl;
    match goal with
    | |- context [switchToView ?id ?x] =>
        destruct (switchToView_tab id _ x eq_refl eq_refl eq_refl Hs1 Hl1)
          as [H1 H2]; rewrite H1, H2; split; reflexivity
    end.
Qed.

(** X19. In every session the Tab key is never taken by a view: it
    makes the next of the six tabs active, the first after the last, and the
    view of that tab current; this holds in a detail view, in the Copilot
    view and in filter mode as well. *)
Theorem Tab_goes_to_next_tab :
  forall (t : Terminal) (t0 : Time) (es : list session.Event)
         (now : Time) (r : Z),
    exists a a' : App,
      session.run es (session.start t t0) = Some a
      /\ handleInput now (mkKey KeyTab r) a = Some a'
      /\ components.TabBar.active (tabBar a')
         = (components.TabBar.active (tabBar a) + 1) mod 6
      /\ homeTab (currentView a') ViewEmpty
         = Some (components.TabBar.active (tabBar a')).
Proof.
  intros t t0 es now r.
  destruct (run_ok es _ (start_ok t t0)) as [a [Hr Hok]].
  destruct (Tab_step now r a Hok) as [a' H].
  now exists a, a'.
Qed.

End TabKey.

(** ** Refresh and the views *)

Section RefreshViews.
Import views.
Import ui.
Import inv.
Context {co : Collab}.

(** X20. A fetch that fails leaves its collection and its view as they
    were: the rows, the selection, the scroll and the filter of the list
    stay. *)
Theorem refresh_failure_keeps_view :
  forall (r : Refresh) (a : App),
    (forall e, gotWorkItems r = FetchError e ->
               workItems (refreshData r a) = workItems a
               /\ boards (refreshData r a) = boards a)
    /\ (forall e, gotBuilds r = FetchError e ->
                  builds (refreshData r a) = builds a)
    /\ (forall e, gotPipelines r = FetchError e ->
                  pipelineList (refreshData r a) = pipelineList a
                  /\ pipelines (refreshData r a) = pipelines a)
    /\ (forall e, gotRepositories r = FetchError e ->
                  repoList (refreshData r a) = repoList a
                  /\ repos (refreshData r a) = repos a)
    /\ (forall e, gotPullRequests r = FetchError e ->
                  prList (refreshData r a) = prList a
                  /\ prs (refreshData r a) = prs a).
Proof.
  intros r a. unfold refreshData.
  (split; [|split; [|split; [|split]]]); intros e He; rewrite He;
    destruct (gotWorkItems r), (gotBuilds r), (gotPipelines r),
      (gotRepositories r), (gotPullRequests r);
    try split; reflexivity.
Qed.

(** X21. A fetch that succeeds gives its list view the new rows, one for
    each record, and takes the list back to the top without query or
    filter; the list stays in filter mode if it was. *)
Theorem refresh_success_resets_list :
  forall (r : Refresh) (a : App),
    (forall its, gotWorkItems r = Fetched its ->
       resetTo (map BoardsView.row its) (BoardsView.list (boards a))
         (BoardsView.list (boards (refreshData r a))))
    /\ (forall ps, gotPipelines r = Fetched ps ->
          resetTo (map PipelinesView.row ps)
            (PipelinesView.list (pipelines a))
            (PipelinesView.list (pipelines (refreshData r a))))
    /\ (forall rs, gotRepositories r = Fetched rs ->
          resetTo (map ReposView.row rs) (ReposView.list (repos a))
            (ReposView.list (repos (refreshData r a))))
    /\ (forall qs, gotPullRequests r = Fetched qs ->
          resetTo (map PullRequestsView.row qs)
            (PullRequestsView.list (prs a))
            (PullRequestsView.list (prs (refreshData r a)))).
Proof.
  intros r a.
  assert (Hreset : forall (D : Type) (rows : list (components.ListItem.t D))
                          (l : components.List.t D),
             resetTo rows l (components.List.SetItems rows l))
    by (intros; repeat split).
  (split; [|split; [|split]]); intros xs He.
  - replace (BoardsView.list (boards (refreshData r a)))
      with (components.List.SetItems (map BoardsView.row xs)
              (BoardsView.list (boards a))); [apply Hreset|].
    unfold refreshData. rewrite He.
    destruct (gotBuilds r), (gotPipelines r), (gotRepositories r),
      (gotPullRequests r); reflexivity.
  - replace (PipelinesView.list (pipelines (refreshData r a)))
      with (components.List.SetItems (map PipelinesView.row xs)
              (PipelinesView.list (pipelines a))); [apply Hreset|].
    unfold refreshData. rewrite He.
    destruct (gotWorkItems r), (gotBuilds r), (gotRepositories r),
      (gotPullRequests r); reflexivity.
  - replace (ReposView.list (repos (refreshData r a)))
      with (components.List.SetItems (map ReposView.row xs)
              (ReposView.list (repos a))); [apply Hreset|].
    unfold refreshData. rewrite He.
    destruct (gotWorkItems r), (gotBuilds r), (gotPipelines r),
      (gotPullRequests r); reflexivity.
  - replace (PullRequestsView.list (prs (refreshData r a)))
      with (components.List.SetItems (map PullRequestsView.row xs)
              (PullRequestsView.list (prs a))); [apply Hreset|].
    unfold refreshData. rewrite He.
    destruct (gotWorkItems r), (gotBuilds r), (gotPipelines r),
      (gotRepositories r); reflexivity.
Qed.

End RefreshViews.

Lemma refresh_failure_keeps_view_witness :
  ui.gotWorkItems demo.refresh2 = ui.FetchError "timeout"
  /\ ui.workItems (ui.refreshData demo.refresh2 demo.filtering)
     = ["Fix login"]
  /\ ui.boards (ui.refreshData demo.refresh2 demo.filtering)
     = ui.boards demo.filtering.
Proof.
  split; [reflexivity|].
  exact (proj1 (refresh_failure_keeps_view demo.refresh2 demo.filtering)
           "timeout" eq_refl).
Defined.

Lemma refresh_success_resets_list_witness :
  ui.gotWorkItems sample.refresh1
  = ui.Fetched (A := list (WorkItem (Collab := sample.titles)))
      ["Fix login"]
  /\ views.BoardsView.IsFilterMode (ui.boards demo.filtering) = true
  /\ inv.resetTo
       (map (views.BoardsView.row (co := sample.titles)) ["Fix login"])
       (views.BoardsView.list (ui.boards demo.filtering))
       (views.BoardsView.list
          (ui.boards (ui.refreshData sample.refresh1 demo.filtering))).
Proof.
  split; [reflexivity|]. split; [reflexivity|].
  exact (proj1 (refresh_success_resets_list sample.refresh1 demo.filtering)
           ["Fix login"] eq_refl).
Defined.

(** ** The list: pages *)

Section ListPages.
Import components.List.
Import spec.
Context {D : Type}.
Implicit Type l : t D.

Ltac cases :=
  repeat match goal with
         | |- context [?x <? ?y] => destruct (Z.ltb_spec x y)
         | |- context [?x <=? ?y] => destruct (Z.leb_spec x y)
         end.

(** X22. After any moves, [MoveToBottom] on a list with entries selects
    the last entry and shows the last page: the scroll offset is
    [max(0, N - H)]. *)
Theorem MoveToBottom_shows_last_page :
  forall (l0 : t D) (ms : list ops.Move),
    0 < height l0 ->
    atTop l0 ->
    0 < slen (activeIndices l0) ->
    let l := MoveToBottom (ops.moves ms l0) in
    selected l = slen (activeIndices l0) - 1
    /\ scroll l = Z.max 0 (slen (activeIndices l0) - height l0).
Proof.
  intros l0 ms Hh Htop Hn l.
  pose proof (moves_inWindow ms l0 (atTop_inWindow l0 Hh Htop)) as Hw.
  destruct (moves_frame ms l0) as [Fh Fa].
  destruct Hw as [_ [[Hc Hs] Hb]]. rewrite Fh, Fa in *.
  unfold l, MoveToBottom. rewrite Fa.
  destruct (Z.ltb_spec 0 (slen (activeIndices l0))); [|lia].
  unfold adjustScroll. simpl. rewrite Fh.
  cases; simpl in *; lia.
Qed.

Lemma MoveDown_step l (s : Z) :
  0 < height l ->
  selected l = s ->
  0 <= s <= Z.max 0 (slen (activeIndices l) - 1) ->
  scroll l = Z.max 0 (s - height l + 1) ->
  let s' := Z.min (s + 1) (Z.max 0 (slen (activeIndices l) - 1)) in
  selected (MoveDown l) = s'
  /\ scroll (MoveDown l) = Z.max 0 (s' - height l + 1).
Proof.
  intros Hh Hs Hr Hc. subst s. unfold MoveDown, adjustScroll.
  cases; simpl in *; cases; simpl in *; lia.
Qed.

Lemma MoveDown_times (k : nat) :
  forall l (s : Z),
    0 < height l ->
    selected l = s ->
    0 <= s <= Z.max 0 (slen (activeIndices l) - 1) ->
    scroll l = Z.max 0 (s - height l + 1) ->
    let s' := Z.min (s + Z.of_nat k)
                (Z.max 0 (slen (activeIndices l) - 1)) in
    selected (ops.moves (repeat ops.MoveDown k) l) = s'
    /\ scroll (ops.moves (repeat ops.MoveDown k) l)
       = Z.max 0 (s' - height l + 1).
Proof.
  unfold ops.moves.
  induction k as [|k IH]; intros l s Hh Hs Hr Hc.
  - simpl. rewrite Z.add_0_r, Z.min_l by lia. now rewrite Hs.
  - cbn [repeat fold_left ops.move].
    destruct (MoveDown_step l s Hh Hs Hr Hc) as [Hs1 Hc1].
    destruct (move_frame l ops.MoveDown) as [Fh Fa]. simpl in Fh, Fa.
    set (s1 := Z.min (s + 1) (Z.max 0 (slen (activeIndices l) - 1))) in *.
    destruct (IH (MoveDown l) s1) as [H1 H2]; rewrite ?Fh, ?Fa; trivial.
    + unfold s1. lia.
    + rewrite ?Fh, ?Fa in H1, H2. rewrite H1, H2.
      replace (Z.min (s1 + Z.of_nat k)
                 (Z.max 0 (slen (activeIndices l) - 1)))
        with (Z.min (s + Z.of_nat (S k))
                (Z.max 0 (slen (activeIndices l) - 1)))
        by (unfold s1; lia).
      split; [reflexivity|now rewrite ?Fh].
Qed.

(** X23. From the top of a list of [N] entries drawn on [H > 0] rows,
    [k] times [MoveDown] select the entry [min(k, N - 1)], and the scroll
    offset is the least that shows it: [max(0, selected - H + 1)]. *)
Theorem MoveDown_from_top :
  forall (l0 : t D) (k : nat),
    0 < height l0 ->
    atTop l0 ->
    let l := ops.moves (repeat ops.MoveDown k) l0 in
    selected l = Z.min (Z.of_nat k) (Z.max 0 (slen (activeIndices l0) - 1))
    /\ scroll l = Z.max 0 (selected l - height l0 + 1).
Proof.
  intros l0 k Hh [Hs Hc] l.
  pose proof (slen_nonneg (activeIndices l0)) as Hn.
  destruct (MoveDown_times k l0 0 Hh Hs) as [H1 H2].
  - lia.
  - rewrite Hc. lia.
  - fold l in H1, H2. simpl in H1, H2. rewrite H2, H1. now split.
Qed.

End ListPages.

Lemma MoveToBottom_shows_last_page_witness :
  0 < components.List.height sample.list3
  /\ spec.atTop sample.list3
  /\ 0 < slen (components.List.activeIndices sample.list3)
  /\ components.List.selected
       (components.List.MoveToBottom
          (ops.moves [ops.MoveDown; ops.MoveToTop] sample.list3)) = 3 - 1
  /\ components.List.scroll
       (components.List.MoveToBottom
          (ops.moves [ops.MoveDown; ops.MoveToTop] sample.list3))
     = Z.max 0 (3 - 2).
Proof.
  assert (Hh : 0 < components.List.height sample.list3) by reflexivity.
  assert (Ht : spec.atTop sample.list3) by (split; reflexivity).
  assert (Hn : 0 < slen (components.List.activeIndices sample.list3))
    by reflexivity.
  split; [exact Hh|]. split; [exact Ht|]. split; [exact Hn|].
  exact (MoveToBottom_shows_last_page sample.list3
           [ops.MoveDown; ops.MoveToTop] Hh Ht Hn).
Defined.

Lemma MoveDown_from_top_witness :
  0 < components.List.height sample.list3
  /\ spec.atTop sample.list3
  /\ components.List.selected
       (ops.moves (repeat ops.MoveDown 2) sample.list3)
     = Z.min 2 (Z.max 0 (3 - 1))
  /\ components.List.scroll
       (ops.moves (repeat ops.MoveDown 2) sample.list3)
     = Z.max 0
         (components.List.selected
            (ops.moves (repeat ops.MoveDown 2) sample.list3) - 2 + 1).
Proof.
  assert (Hh : 0 < components.List.height sample.list3) by reflexivity.
  assert (Ht : spec.atTop sample.list3) by (split; reflexivity).
  split; [exact Hh|]. split; [exact Ht|].
  exact (MoveDown_from_top sample.list3 2 Hh Ht).
Defined.

(** ** The tab bar: activation by identifier *)

Section TabByID.
Import components.TabBar.

Lemma indexOfID_found (id : string) :
  forall (ts : list components.Tab.t) (i j : Z),
    indexOfID id ts i = Some j ->
    exists tab,
      nth_error ts (Z.to_nat (j - i)) = Some tab
      /\ components.Tab.ID tab = id
      /\ forall n tab',
           (n < Z.to_nat (j - i))%nat ->
           nth_error ts n = Some tab' -> components.Tab.ID tab' <> id.
Proof.
  induction ts as [|tab ts IH]; intros i j; simpl; [discriminate|].
  destruct (String.eqb_spec (components.Tab.ID tab) id) as [E|E].
  - intros [= <-]. rewrite Z.sub_diag. exists tab.
    split; [reflexivity|]. split; [exact E|].
    intros n tab' Hn. simpl in Hn. lia.
  - intros Hj. pose proof (indexOfID_bounds _ _ _ _ Hj) as Hb.
    destruct (IH _ _ Hj) as [tab1 [H1 [H2 H3]]].
    exists tab1.
    replace (Z.to_nat (j - i)) with (S (Z.to_nat (j - (i + 1)))) by lia.
    split; [exact H1|]. split; [exact H2|].
    intros [|n] tab' Hn Hnth.
    + injection Hnth as <-. exact E.
    + apply (H3 n tab'); [lia|exact Hnth].
Qed.

Lemma indexOfID_exists (id : string) :
  forall (ts : list components.Tab.t) (i : Z),
    (exists tab, In tab ts /\ components.Tab.ID tab = id) ->
    indexOfID id ts i <> None.
Proof.
  induction ts as [|tab ts IH]; intros i [tab0 [Hin Hid]]; simpl.
  - destruct Hin.
  - destruct (String.eqb_spec (components.Tab.ID tab) id) as [E|E];
      [discriminate|].
    apply IH. exists tab0. split; [|exact Hid].
    destruct Hin as [<-|Hin]; [contradiction|exact Hin].
Qed.

(** X24. [SetActiveByID] with the identifier of a tab makes the first
    tab with that identifier active, so that [ActiveTab] returns it; with
    an identifier that no tab has, the bar is as it was. *)
Theorem SetActiveByID_then_ActiveTab :
  forall (id : string) (b : t),
    ((exists tab, In tab (tabs b) /\ components.Tab.ID tab = id) ->
     exists tab,
       ActiveTab (SetActiveByID id b) = Some tab
       /\ components.Tab.ID tab = id
       /\ forall n tab',
            (n < Z.to_nat (active (SetActiveByID id b)))%nat ->
            nth_error (tabs b) n = Some tab' ->
            components.Tab.ID tab' <> id)
    /\ ((forall tab, In tab (tabs b) -> components.Tab.ID tab <> id) ->
        SetActiveByID id b = b).
Proof.
  intros id b. split.
  - intros Hex. unfold SetActiveByID.
    destruct (indexOfID id (tabs b) 0) as [j|] eqn:E.
    + pose proof (indexOfID_bounds _ _ _ _ E) as Hb.
      destruct (indexOfID_found _ _ _ _ E) as [tab [H1 [H2 H3]]].
      rewrite Z.sub_0_r in H1, H3.
      exists tab. unfold ActiveTab. simpl.
      destruct (Z.leb_spec 0 j); [|lia].
      destruct (Z.ltb_spec j (slen (tabs b))); [|lia]. simpl.
      split; [exact H1|]. split; [exact H2|exact H3].
    + exfalso. exact (indexOfID_exists id (tabs b) 0 Hex E).
  - apply SetActiveByID_unknown.
Qed.

Lemma SetActiveByID_then_ActiveTab_witness :
  (exists tab, In tab (tabs (NewTabBar ui.tabs))
               /\ components.Tab.ID tab = "prs")
  /\ exists tab,
       ActiveTab (SetActiveByID "prs" (NewTabBar ui.tabs)) = Some tab
       /\ components.Tab.ID tab = "prs"
       /\ components.Tab.Name tab = "PRs".
Proof.
  assert (H : exists tab, In tab (tabs (NewTabBar ui.tabs))
                          /\ components.Tab.ID tab = "prs").
  { exists (components.Tab.mk "prs" "PRs" "5" "🔀").
    split; [|reflexivity]. simpl. tauto. }
  split; [exact H|].
  destruct (proj1 (SetActiveByID_then_ActiveTab "prs" (NewTabBar ui.tabs)) H)
    as [tab [H1 [H2 _]]].
  exists tab. split; [exact H1|]. split; [exact H2|].
  vm_compute in H1. injection H1 as <-. reflexivity.
Defined.

End TabByID.

(** ** The key decoder: arrows *)

Section Arrows.
Import terminal.

Lemma byte_val_inj (b c : byte) : byte_val b = byte_val c -> b = c.
Proof.
  unfold byte_val. intros H. apply N2Z.inj in H.
  pose proof (Byte.of_to_N b) as Hb. rewrite H, Byte.of_to_N in Hb.
  congruence.
Qed.

Lemma byte_val_eqb (b c : byte) :
  (byte_val b =? byte_val c) = true -> b = c.
Proof.
  intros H. apply Z.eqb_eq in H. now apply byte_val_inj.
Qed.

Lemma ReadKey_arrow_iff (t : KeyType) (c : byte) (bs : list byte) :
  spec.arrow (byte_val c) = Some t ->
  ReadKey (ReadData bs) = Some (key t) <-> firstn 3 bs = [x1b; x5b; c].
Proof.
  intros Ht.
  assert (Harrow : t = KeyUp \/ t = KeyDown \/ t = KeyRight \/ t = KeyLeft).
  { unfold spec.arrow in Ht.
    repeat match type of Ht with
           | context [if ?x then _ else _] => destruct x
           end; try discriminate Ht; injection Ht as <-; tauto. }
  split.
  - destruct bs as [|b0 [|b1 [|b2 rest]]].
    + intros H. exfalso. vm_compute in H.
      destruct Harrow as [->|[->|[->| ->]]]; discriminate H.
    + unfold ReadKey, buf_at, slen. simpl.
      repeat match goal with
             | |- context [?x =? ?y] => destruct (x =? y)
             end; intros H; exfalso;
        destruct Harrow as [->|[->|[->| ->]]]; discriminate H.
    + intros H. exfalso. unfold ReadKey in H. simpl in H.
      destruct Harrow as [->|[->|[->| ->]]]; discriminate H.
    + unfold ReadKey, buf_at, slen. simpl.
      change 27 with (byte_val x1b). change (chr "[") with (byte_val x5b).
      destruct (byte_val b0 =? byte_val x1b) eqn:E0;
        [|simpl; intros H; exfalso;
          destruct Harrow as [->|[->|[->| ->]]]; discriminate H].
      destruct (byte_val b1 =? byte_val x5b) eqn:E1;
        [|simpl; intros H; exfalso;
          destruct Harrow as [->|[->|[->| ->]]]; discriminate H].
      apply byte_val_eqb in E0, E1. subst b0 b1. simpl.
      unfold spec.arrow in Ht.
      change (chr "A") with (byte_val x41) in *.
      change (chr "B") with (byte_val x42) in *.
      change (chr "C") with (byte_val x43) in *.
      change (chr "D") with (byte_val x44) in *.
      destruct (byte_val b2 =? byte_val x41) eqn:EA.
      { apply byte_val_eqb in EA. subst b2. intros [= <-].
        destruct (byte_val c =? byte_val x41) eqn:EcA.
        - apply byte_val_eqb in EcA. now subst c.
        - repeat match type of Ht with
                 | context [if ?x then _ else _] => destruct x
                 end; discriminate Ht. }
      destruct (byte_val b2 =? byte_val x42) eqn:EB.
      { apply byte_val_eqb in EB. subst b2. intros [= <-].
        destruct (byte_val c =? byte_val x41) eqn:EcA; [discriminate Ht|].
        destruct (byte_val c =? byte_val x42) eqn:EcB.
        - apply byte_val_eqb in EcB. now subst c.
        - repeat match type of Ht with
                 | context [if ?x then _ else _] => destruct x
                 end; discriminate Ht. }
      destruct (byte_val b2 =? byte_val x43) eqn:EC.
      { apply byte_val_eqb in EC. subst b2. intros [= <-].
        destruct (byte_val c =? byte_val x41) eqn:EcA; [discriminate Ht|].
        destruct (byte_val c =? byte_val x42) eqn:EcB; [discriminate Ht|].
        destruct (byte_val c =? byte_val x43) eqn:EcC.
        - apply byte_val_eqb in EcC. now subst c.
        - repeat match type of Ht with
                 | context [if ?x then _ else _] => destruct x
                 end; discriminate Ht. }
      destruct (byte_val b2 =? byte_val x44) eqn:ED.
      { apply byte_val_eqb in ED. subst b2. intros [= <-].
        destruct (byte_val c =? byte_val x41) eqn:EcA; [discriminate Ht|].
        destruct (byte_val c =? byte_val x42) eqn:EcB; [discriminate Ht|].
        destruct (byte_val c =? byte_val x43) eqn:EcC; [discriminate Ht|].
        destruct (byte_val c =? byte_val x44) eqn:EcD.
        - apply byte_val_eqb in EcD. now subst c.
        - discriminate Ht. }
      intros H. exfalso.
      destruct Harrow as [->|[->|[->| ->]]]; discriminate H.
  - intros H. unfold ReadKey, buf_at. rewrite H.
    unfold slen. simpl. unfold spec.arrow in Ht.
    repeat match type of Ht with
           | context [if ?x then _ else _] => destruct x
           end; try discriminate Ht; injection Ht as <-; reflexivity.
Qed.

(** X25. [ReadKey] returns an arrow key for its own sequence of three
    bytes and for no other read: Up for ESC [ A, Down for ESC [ B, Right
    for ESC [ C, Left for ESC [ D. *)
Theorem ReadKey_arrows_exact :
  forall bs : list byte,
    (ReadKey (ReadData bs) = Some (key KeyUp)
     <-> firstn 3 bs = [x1b; x5b; x41])
    /\ (ReadKey (ReadData bs) = Some (key KeyDown)
        <-> firstn 3 bs = [x1b; x5b; x42])
    /\ (ReadKey (ReadData bs) = Some (key KeyRight)
        <-> firstn 3 bs = [x1b; x5b; x43])
    /\ (ReadKey (ReadData bs) = Some (key KeyLeft)
        <-> firstn 3 bs = [x1b; x5b; x44]).
Proof.
  intros bs. repeat split; apply ReadKey_arrow_iff; reflexivity.
Qed.

End Arrows.
